(** * Message ingestion of the sync engine: [inbox/models/message.py]

    A shallow embedding of the [Message] model and of its ingestion entry
    point [Message.create_from_synced], followed by the properties the
    specification states about them.

    Python values are modelled as follows.
    - A byte string ([str]) is a list of [ascii]; a text string ([unicode])
      is a list of code units, each an [N].  Both are sequences, and the
      sequence operations (slicing, [len], [strip], [split]) are shared.
    - An attribute that may be [None] is an [option].
    - An exception is a value of [exn]; a computation that may raise
      returns a [result]; a method that mutates [self] and may raise is a
      state transformer that keeps the state reached when it raised.
    - The collaborators that live outside the module (the MIME tokenizer,
      the address and reference parsers, the HTML helpers, the codecs, the
      calendar importer, the clock, the file system) are the fields of an
      environment record [Env]; nothing is assumed about them except where
      a theorem says so. *)

From Stdlib Require Import Ascii String.
From stdpp Require Import base option list strings gmap sorting.

Local Open Scope nat_scope.

(** * Part I: the embedding *)

(** ** Python sequences *)

Module Py.

(** The position a slice bound [k] denotes in a sequence [s]: a negative
    bound counts from the end, and every bound is clipped to the
    sequence. *)
Definition clip {A} (s : list A) (k : Z) : nat :=
  Z.to_nat (if (k <? 0)%Z
            then Z.max 0 (Z.of_nat (length s) + k)
            else Z.min k (Z.of_nat (length s))).

(** [s[:k]] *)
Definition slice_to {A} (s : list A) (k : Z) : list A := take (clip s k) s.

(** [s[k:]] *)
Definition slice_from {A} (s : list A) (k : Z) : list A := drop (clip s k) s.

(** Truth value of an optional sequence: [None] and the empty sequence are
    false. *)
Definition truthy {A} (s : option (list A)) : bool :=
  match s with
  | Some (_ :: _) => true
  | _ => false
  end.

(** [s.startswith(p)] *)
Definition startswith {A} `{EqDecision A} (s p : list A) : bool :=
  bool_decide (p `prefix_of` s).

(** Characters.  What [str] and [unicode] differ in, for this module, is
    which characters count as whitespace. *)
Class Char (A : Type) := {
  isspace : A → bool;
  space : A;
  isspace_space : isspace space = true
}.

(** [str.isspace] on one byte: space, tab, newline, vertical tab, form
    feed, carriage return. *)
Definition byte_isspace (c : ascii) : bool :=
  let n := nat_of_ascii c in
  (n =? 32) || ((9 <=? n) && (n <=? 13)).

(** [Py_UNICODE_ISSPACE], from the interpreter's Unicode database. *)
Definition unicode_isspace (c : N) : bool :=
  ((9 <=? c) && (c <=? 13) || (28 <=? c) && (c <=? 32)
   || (c =? 133) || (c =? 160) || (c =? 5760) || (c =? 6158)
   || (8192 <=? c) && (c <=? 8202) || (c =? 8232) || (c =? 8233)
   || (c =? 8239) || (c =? 8287) || (c =? 12288))%N.

#[export] Instance byte_char : Char ascii :=
  {| isspace := byte_isspace; space := " "%char; isspace_space := eq_refl |}.

#[export] Instance unicode_char : Char N :=
  {| isspace := unicode_isspace; space := 32%N; isspace_space := eq_refl |}.

(** [s.lstrip()] *)
Fixpoint lstrip {A} `{Char A} (s : list A) : list A :=
  match s with
  | c :: s' => if isspace c then lstrip s' else s
  | [] => []
  end.

(** [s.rstrip()] *)
Fixpoint rstrip {A} `{Char A} (s : list A) : list A :=
  match s with
  | c :: s' =>
      match rstrip s' with
      | [] => if isspace c then [] else [c]
      | r => c :: r
      end
  | [] => []
  end.

(** [s.strip()] *)
Definition strip {A} `{Char A} (s : list A) : list A := lstrip (rstrip s).

(** [s.split()]: the maximal runs of non-whitespace characters, in order.
    [word] holds, reversed, the characters of the run being read. *)
Fixpoint split_from {A} `{Char A} (word : list A) (s : list A)
  : list (list A) :=
  match s with
  | c :: s' =>
      if isspace c
      then match word with
           | [] => split_from [] s'
           | _ => rev word :: split_from [] s'
           end
      else split_from (c :: word) s'
  | [] =>
      match word with
      | [] => []
      | _ => [rev word]
      end
  end.

Definition split {A} `{Char A} (s : list A) : list (list A) :=
  split_from [] s.

(** [sep.join(words)] *)
Fixpoint join {A} (sep : list A) (words : list (list A)) : list A :=
  match words with
  | [] => []
  | [w] => w
  | w :: ws => w ++ sep ++ join sep ws
  end.

(** [s.replace('\r\n', '\n')] on a byte string. *)
Fixpoint replace_crlf (s : list ascii) : list ascii :=
  match s with
  | c :: s' =>
      match s' with
      | c' :: s'' =>
          if bool_decide (c = "013"%char) && bool_decide (c' = "010"%char)
          then "010"%char :: replace_crlf s''
          else c :: replace_crlf s'
      | [] => [c]
      end
  | [] => []
  end.

(** [s.replace('\r', '\n')] on a byte string. *)
Definition replace_cr (s : list ascii) : list ascii :=
  (λ c, if bool_decide (c = "013"%char) then "010"%char else c) <$> s.

(** [d.get(k)] on a mapping kept as its list of items. *)
Fixpoint dict_get {K V} `{EqDecision K} (k : K) (d : list (K * V))
  : option V :=
  match d with
  | (k', v) :: d' => if bool_decide (k' = k) then Some v else dict_get k d'
  | [] => None
  end.

End Py.

Export Py.

(** Byte strings, text strings and a string object of either kind. *)
Definition str := list ascii.
Definition unicode := list N.

Inductive pytext :=
| Str (b : str)
| Unicode (u : unicode).

(** A byte-string literal, and a text literal in the ASCII range. *)
Definition lit (s : string) : str := list_ascii_of_string s.
Definition ulit (s : string) : unicode :=
  N_of_ascii <$> list_ascii_of_string s.

(** A JSON-serialisable value, as the JSON columns hold them. *)
#[warnings="-register-all"]
Inductive pyjson :=
| JNone
| JString (u : unicode)
| JList (l : list pyjson).

Definition timestamp := Z.

(** ** Exceptions *)

Inductive exn :=
| DecodingError        (* flanker.mime.DecodingError *)
| AttributeError
| RuntimeError
| TypeError
| ValueError
| UnicodeDecodeError   (* a ValueError *)
| UnicodeEncodeError   (* a ValueError *)
| AssertionError
| MalformedEventError  (* inbox.events.util.MalformedEventError *)
| KeyError
| IOError
| OSError.

#[global] Instance exn_eq_dec : EqDecision exn.
Proof. solve_decision. Defined.

(** [isinstance(e, cls)], with the sub-classing of the built-in
    hierarchy. *)
Definition isinstance (e cls : exn) : bool :=
  bool_decide (e = cls)
  || match e, cls with
     | UnicodeDecodeError, ValueError | UnicodeEncodeError, ValueError => true
     | _, _ => false
     end.

(** Whether an [except (c1, ..., cn)] clause handles [e]. *)
Definition caught (classes : list exn) (e : exn) : bool :=
  existsb (isinstance e) classes.

Inductive result (A : Type) :=
| Ok (a : A)
| Raise (e : exn).
Arguments Ok {A} a.
Arguments Raise {A} e.

#[global] Instance result_ret : MRet result := λ A a, Ok a.
#[global] Instance result_bind : MBind result := λ A B f r,
  match r with
  | Ok a => f a
  | Raise e => Raise e
  end.

(** A method that mutates an object of type [S] and may raise: the state
    it returns is the state reached, also when it raised. *)
Definition Eff (S A : Type) : Type := S → S * result A.

#[global] Instance Eff_ret S : MRet (Eff S) := λ A a s, (s, Ok a).
#[global] Instance Eff_bind S : MBind (Eff S) := λ A B f m s,
  match m s with
  | (s', Ok a) => f a s'
  | (s', Raise e) => (s', Raise e)
  end.

Definition modify {S} (f : S → S) : Eff S unit := λ s, (f s, Ok tt).
Definition lift {S A} (r : result A) : Eff S A := λ s, (s, r).

(** [try: body  except classes: handler] *)
Definition try_except {S} (body : Eff S unit) (classes : list exn)
    (handler : exn → Eff S unit) : Eff S unit := λ s,
  match body s with
  | (s', Raise e) => if caught classes e then handler e s' else (s', Raise e)
  | r => r
  end.

(** ** The parse tree of the MIME tokenizer

    [flanker.mime] is consumed through the attributes the module reads. *)

Module ContentType.
Record t := mk {
  value : str;                      (* "main/sub" *)
  format_type : str;
  subtype : str;
  params : list (str * unicode);
  is_singlepart : bool;
  is_multipart : bool
}.
End ContentType.

Module MimePart.
Record t := mk {
  content_type : ContentType.t;
  (* the pair (value, params); the value is None without the header *)
  content_disposition : option str * list (str * unicode);
  (* reading [body] decodes the payload and may raise *)
  body : result (option pytext);
  headers : list (str * unicode)
}.
End MimePart.

(** The object [mime.from_string] returns: the top-level part, its cleaned
    subject, and [descendants], the parts that [walk(with_self=False)]
    yields, in document order (nested multipart containers included). *)
Module Parsed.
Record t := mk {
  top : MimePart.t;
  clean_subject : option unicode;
  descendants : list MimePart.t
}.

(** [parsed.walk(with_self=...)] *)
Definition walk (parsed : t) (with_self : bool) : list MimePart.t :=
  (if with_self then [top parsed] else []) ++ descendants parsed.
End Parsed.

(** ** The environment *)

Record Env := {
  (* flanker.mime.from_string *)
  mime_from_string : str → result Parsed.t;
  (* inbox.util.addr *)
  parse_mimepart_address_header :
    Parsed.t → str → result (list (unicode * unicode));
  (* inbox.util.misc *)
  parse_references : unicode → unicode → result (list unicode);
  get_internaldate :
    option unicode → option unicode → result (option timestamp);
  (* inbox.sqlalchemy_ext.util *)
  json_field_too_long : pyjson → bool;
  (* inbox.util.html *)
  plaintext2html : unicode → bool → result unicode;
  strip_tags : unicode → result unicode;
  (* inbox.events.ical *)
  import_attached_events : Z → option pytext → result unit;
  (* inbox.config: config.get('FEATURE_FLAGS') *)
  FEATURE_FLAGS : option (list str);
  (* hashlib, json, codecs, datetime *)
  sha256_hexdigest : str → str;
  json_dumps : list (str * unicode) → result str;
  utf8_encode : unicode → result str;
  utf8_decode : str → result unicode;
  utcnow : timestamp;
  (* os.path.join(config['LOGDIR'], str(account_id), 'errors', folder_name) *)
  os_path_join_errdir : Z → pytext → result pytext;
  (* os.path.join(errdir, str(uid)) *)
  os_path_join_errfile : pytext → Z → result pytext;
  (* inbox.util.file.mkdirp *)
  mkdirp : pytext → result unit;
  (* base64.b64encode(folder_name.encode('utf-8')) *)
  b64encode_utf8 : pytext → result str;
  (* open(errfile, 'w') and fh.write(msg_string) *)
  write_file : pytext → pytext → result unit;
  (* the depth at which the interpreter stops a recursion *)
  recursion_limit : nat
}.

(** [s.encode('utf-8', 'strict')]: a byte string is first decoded as ASCII. *)
Definition encode_utf8 (E : Env) (s : pytext) : result str :=
  match s with
  | Unicode u => utf8_encode E u
  | Str b =>
      if forallb (λ c, nat_of_ascii c <? 128) b then Ok b
      else Raise UnicodeDecodeError
  end.

(** [data.decode('utf-8')]: a text string is first encoded as ASCII, and
    [None] has no such method. *)
Definition decode_utf8 (E : Env) (data : option pytext) : result unicode :=
  match data with
  | None => Raise AttributeError
  | Some (Str b) => utf8_decode E b
  | Some (Unicode u) =>
      if forallb (λ c, (c <? 128)%N) u then utf8_decode E (ascii_of_N <$> u)
      else Raise UnicodeEncodeError
  end.

(** ** The error-diagnostics files *)

Fixpoint _get_errfilename_rec (E : Env) (depth : nat) (account_id : Z)
    (folder_name : pytext) (uid : Z) : result pytext :=
  match depth with
  | 0 => Raise RuntimeError   (* maximum recursion depth exceeded *)
  | S depth' =>
      match (errdir ← os_path_join_errdir E account_id folder_name;
             errfile ← os_path_join_errfile E errdir uid;
             mkdirp E errdir;;
             Ok errfile) with
      | Ok errfile => Ok errfile
      | Raise e =>
          if isinstance e UnicodeEncodeError
          then b64_folder_name ← b64encode_utf8 E folder_name;
               _get_errfilename_rec E depth' account_id
                 (Str b64_folder_name) uid
          else Raise e
      end
  end.

Definition _get_errfilename (E : Env) (account_id : Z)
    (folder_name : pytext) (uid : Z) : result pytext :=
  _get_errfilename_rec E (recursion_limit E) account_id folder_name uid.

Definition _log_decode_error (E : Env) (account_id : Z)
    (folder_name : pytext) (uid : Z) (msg_string : pytext) : result unit :=
  errfile ← _get_errfilename E account_id folder_name uid;
  write_file E errfile msg_string.

(** ** Blocks and parts ([inbox.models.block]) *)

Module Block.
Record t := mk {
  namespace_id : option Z;
  data : option pytext;
  content_type : option str;
  filename : option unicode
}.

(** [Block()] *)
Definition new : t := mk None None None None.

Definition set_namespace_id (v : option Z) (self : t) : t :=
  mk v (data self) (content_type self) (filename self).
Definition set_data (v : option pytext) (self : t) : t :=
  mk (namespace_id self) v (content_type self) (filename self).
Definition set_content_type (v : option str) (self : t) : t :=
  mk (namespace_id self) (data self) v (filename self).
Definition set_filename (v : option unicode) (self : t) : t :=
  mk (namespace_id self) (data self) (content_type self) v.
End Block.

Module Part.
Record t := mk {
  block : Block.t;
  walk_index : option nat;
  content_disposition : option str;
  content_id : option unicode
}.

(** [Part(block=block, ...)] *)
Definition new (block : Block.t) : t := mk block None None None.

Definition set_block (v : Block.t) (self : t) : t :=
  mk v (walk_index self) (content_disposition self) (content_id self).
Definition set_walk_index (v : option nat) (self : t) : t :=
  mk (block self) v (content_disposition self) (content_id self).
Definition set_content_disposition (v : option str) (self : t) : t :=
  mk (block self) (walk_index self) v (content_id self).
Definition set_content_id (v : option unicode) (self : t) : t :=
  mk (block self) (walk_index self) (content_disposition self) v.
End Part.

Module Namespace.
Record t := mk { id : Z }.
End Namespace.

Module Account.
Record t := mk { id : Z; namespace : option Namespace.t }.
End Account.

(** ** Messages *)

(** [_trim_filename(s, mid, max_len=64)]; [mid] is only logged. *)
Definition _trim_filename {A} (s : option (list A)) (mid : Z) (max_len : Z)
  : option (list A) :=
  match s with
  | Some t =>
      if truthy s && (max_len <? Z.of_nat (length t))%Z
      then Some (slice_to t (max_len - 8) ++ slice_from t (-8))
      else s
  | None => s
  end.

(** The default of the [max_len] keyword. *)
Definition MAX_FILENAME_LEN : Z := 64.

Module Message.

Record t := mk {
  full_body : option Block.t;
  namespace_id : option Z;
  data_sha256 : option str;
  subject : option unicode;
  from_addr : option (list (unicode * unicode));
  sender_addr : option (list (unicode * unicode));
  reply_to : option (list (unicode * unicode));
  to_addr : option (list (unicode * unicode));
  cc_addr : option (list (unicode * unicode));
  bcc_addr : option (list (unicode * unicode));
  in_reply_to : option unicode;
  message_id_header : option unicode;
  received_date : option timestamp;
  inbox_uid : option unicode;
  references : option (list unicode);
  size : option nat;
  parts : list Part.t;
  decode_error : bool;
  sanitized_body : option unicode;
  snippet : option unicode
}.

(** [Message()]: no attribute is set yet (column defaults apply when the
    row is written, which is after this module is done). *)
Definition new : t :=
  mk None None None None None None None None None None None None None None
     None None [] false None None.

Definition SNIPPET_LENGTH : Z := 191.

(** Attribute assignment. *)
Definition set_full_body (v : _) (self : t) : t :=
  {| full_body := v; namespace_id := namespace_id self; data_sha256 :=
  data_sha256 self; subject := subject self; from_addr := from_addr self;
  sender_addr := sender_addr self; reply_to := reply_to self; to_addr :=
  to_addr self; cc_addr := cc_addr self; bcc_addr := bcc_addr self;
  in_reply_to := in_reply_to self; message_id_header := message_id_header
  self; received_date := received_date self; inbox_uid := inbox_uid self;
  references := references self; size := size self; parts := parts self;
  decode_error := decode_error self; sanitized_body := sanitized_body self;
  snippet := snippet self |}.

Definition set_namespace_id (v : _) (self : t) : t :=
  {| full_body := full_body self; namespace_id := v; data_sha256 :=
  data_sha256 self; subject := subject self; from_addr := from_addr self;
  sender_addr := sender_addr self; reply_to := reply_to self; to_addr :=
  to_addr self; cc_addr := cc_addr self; bcc_addr := bcc_addr self;
  in_reply_to := in_reply_to self; message_id_header := message_id_header
  self; received_date := received_date self; inbox_uid := inbox_uid self;
  references := references self; size := size self; parts := parts self;
  decode_error := decode_error self; sanitized_body := sanitized_body self;
  snippet := snippet self |}.

Definition set_data_sha256 (v : _) (self : t) : t :=
  {| full_body := full_body self; namespace_id := namespace_id self;
  data_sha256 := v; subject := subject self; from_addr := from_addr self;
  sender_addr := sender_addr self; reply_to := reply_to self; to_addr :=
  to_addr self; cc_addr := cc_addr self; bcc_addr := bcc_addr self;
  in_reply_to := in_reply_to self; message_id_header := message_id_header
  self; received_date := received_date self; inbox_uid := inbox_uid self;
  references := references self; size := size self; parts := parts self;
  decode_error := decode_error self; sanitized_body := sanitized_body self;
  snippet := snippet self |}.

Definition set_subject (v : _) (self : t) : t :=
  {| full_body := full_body self; namespace_id := namespace_id self;
  data_sha256 := data_sha256 self; subject := v; from_addr := from_addr self;
  sender_addr := sender_addr self; reply_to := reply_to self; to_addr :=
  to_addr self; cc_addr := cc_addr self; bcc_addr := bcc_addr self;
  in_reply_to := in_reply_to self; message_id_header := message_id_header
  self; received_date := received_date self; inbox_uid := inbox_uid self;
  references := references self; size := size self; parts := parts self;
  decode_error := decode_error self; sanitized_body := sanitized_body self;
  snippet := snippet self |}.

Definition set_from_addr (v : _) (self : t) : t :=
  {| full_body := full_body self; namespace_id := namespace_id self;
  data_sha256 := data_sha256 self; subject := subject self; from_addr := v;
  sender_addr := sender_addr self; reply_to := reply_to self; to_addr :=
  to_addr self; cc_addr := cc_addr self; bcc_addr := bcc_addr self;
  in_reply_to := in_reply_to self; message_id_header := message_id_header
  self; received_date := received_date self; inbox_uid := inbox_uid self;
  references := references self; size := size self; parts := parts self;
  decode_error := decode_error self; sanitized_body := sanitized_body self;
  snippet := snippet self |}.

Definition set_sender_addr (v : _) (self : t) : t :=
  {| full_body := full_body self; namespace_id := namespace_id self;
  data_sha256 := data_sha256 self; subject := subject self; from_addr :=
  from_addr self; sender_addr := v; reply_to := reply_to self; to_addr :=
  to_addr self; cc_addr := cc_addr self; bcc_addr := bcc_addr self;
  in_reply_to := in_reply_to self; message_id_header := message_id_header
  self; received_date := received_date self; inbox_uid := inbox_uid self;
  references := references self; size := size self; parts := parts self;
  decode_error := decode_error self; sanitized_body := sanitized_body self;
  snippet := snippet self |}.

Definition set_reply_to (v : _) (self : t) : t :=
  {| full_body := full_body self; namespace_id := namespace_id self;
  data_sha256 := data_sha256 self; subject := subject self; from_addr :=
  from_addr self; sender_addr := sender_addr self; reply_to := v; to_addr :=
  to_addr self; cc_addr := cc_addr self; bcc_addr := bcc_addr self;
  in_reply_to := in_reply_to self; message_id_header := message_id_header
  self; received_date := received_date self; inbox_uid := inbox_uid self;
  references := references self; size := size self; parts := parts self;
  decode_error := decode_error self; sanitized_body := sanitized_body self;
  snippet := snippet self |}.

Definition set_to_addr (v : _) (self : t) : t :=
  {| full_body := full_body self; namespace_id := namespace_id self;
  data_sha256 := data_sha256 self; subject := subject self; from_addr :=
  from_addr self; sender_addr := sender_addr self; reply_to := reply_to self;
  to_addr := v; cc_addr := cc_addr self; bcc_addr := bcc_addr self;
  in_reply_to := in_reply_to self; message_id_header := message_id_header
  self; received_date := received_date self; inbox_uid := inbox_uid self;
  references := references self; size := size self; parts := parts self;
  decode_error := decode_error self; sanitized_body := sanitized_body self;
  snippet := snippet self |}.

Definition set_cc_addr (v : _) (self : t) : t :=
  {| full_body := full_body self; namespace_id := namespace_id self;
  data_sha256 := data_sha256 self; subject := subject self; from_addr :=
  from_addr self; sender_addr := sender_addr self; reply_to := reply_to self;
  to_addr := to_addr self; cc_addr := v; bcc_addr := bcc_addr self;
  in_reply_to := in_reply_to self; message_id_header := message_id_header
  self; received_date := received_date self; inbox_uid := inbox_uid self;
  references := references self; size := size self; parts := parts self;
  decode_error := decode_error self; sanitized_body := sanitized_body self;
  snippet := snippet self |}.

Definition set_bcc_addr (v : _) (self : t) : t :=
  {| full_body := full_body self; namespace_id := namespace_id self;
  data_sha256 := data_sha256 self; subject := subject self; from_addr :=
  from_addr self; sender_addr := sender_addr self; reply_to := reply_to self;
  to_addr := to_addr self; cc_addr := cc_addr self; bcc_addr := v; in_reply_to
  := in_reply_to self; message_id_header := message_id_header self;
  received_date := received_date self; inbox_uid := inbox_uid self; references
  := references self; size := size self; parts := parts self; decode_error :=
  decode_error self; sanitized_body := sanitized_body self; snippet := snippet
  self |}.

Definition set_in_reply_to (v : _) (self : t) : t :=
  {| full_body := full_body self; namespace_id := namespace_id self;
  data_sha256 := data_sha256 self; subject := subject self; from_addr :=
  from_addr self; sender_addr := sender_addr self; reply_to := reply_to self;
  to_addr := to_addr self; cc_addr := cc_addr self; bcc_addr := bcc_addr self;
  in_reply_to := v; message_id_header := message_id_header self; received_date
  := received_date self; inbox_uid := inbox_uid self; references := references
  self; size := size self; parts := parts self; decode_error := decode_error
  self; sanitized_body := sanitized_body self; snippet := snippet self |}.

Definition set_message_id_header (v : _) (self : t) : t :=
  {| full_body := full_body self; namespace_id := namespace_id self;
  data_sha256 := data_sha256 self; subject := subject self; from_addr :=
  from_addr self; sender_addr := sender_addr self; reply_to := reply_to self;
  to_addr := to_addr self; cc_addr := cc_addr self; bcc_addr := bcc_addr self;
  in_reply_to := in_reply_to self; message_id_header := v; received_date :=
  received_date self; inbox_uid := inbox_uid self; references := references
  self; size := size self; parts := parts self; decode_error := decode_error
  self; sanitized_body := sanitized_body self; snippet := snippet self |}.

Definition set_received_date (v : _) (self : t) : t :=
  {| full_body := full_body self; namespace_id := namespace_id self;
  data_sha256 := data_sha256 self; subject := subject self; from_addr :=
  from_addr self; sender_addr := sender_addr self; reply_to := reply_to self;
  to_addr := to_addr self; cc_addr := cc_addr self; bcc_addr := bcc_addr self;
  in_reply_to := in_reply_to self; message_id_header := message_id_header
  self; received_date := v; inbox_uid := inbox_uid self; references :=
  references self; size := size self; parts := parts self; decode_error :=
  decode_error self; sanitized_body := sanitized_body self; snippet := snippet
  self |}.

Definition set_inbox_uid (v : _) (self : t) : t :=
  {| full_body := full_body self; namespace_id := namespace_id self;
  data_sha256 := data_sha256 self; subject := subject self; from_addr :=
  from_addr self; sender_addr := sender_addr self; reply_to := reply_to self;
  to_addr := to_addr self; cc_addr := cc_addr self; bcc_addr := bcc_addr self;
  in_reply_to := in_reply_to self; message_id_header := message_id_header
  self; received_date := received_date self; inbox_uid := v; references :=
  references self; size := size self; parts := parts self; decode_error :=
  decode_error self; sanitized_body := sanitized_body self; snippet := snippet
  self |}.

Definition set_references (v : _) (self : t) : t :=
  {| full_body := full_body self; namespace_id := namespace_id self;
  data_sha256 := data_sha256 self; subject := subject self; from_addr :=
  from_addr self; sender_addr := sender_addr self; reply_to := reply_to self;
  to_addr := to_addr self; cc_addr := cc_addr self; bcc_addr := bcc_addr self;
  in_reply_to := in_reply_to self; message_id_header := message_id_header
  self; received_date := received_date self; inbox_uid := inbox_uid self;
  references := v; size := size self; parts := parts self; decode_error :=
  decode_error self; sanitized_body := sanitized_body self; snippet := snippet
  self |}.

Definition set_size (v : _) (self : t) : t :=
  {| full_body := full_body self; namespace_id := namespace_id self;
  data_sha256 := data_sha256 self; subject := subject self; from_addr :=
  from_addr self; sender_addr := sender_addr self; reply_to := reply_to self;
  to_addr := to_addr self; cc_addr := cc_addr self; bcc_addr := bcc_addr self;
  in_reply_to := in_reply_to self; message_id_header := message_id_header
  self; received_date := received_date self; inbox_uid := inbox_uid self;
  references := references self; size := v; parts := parts self; decode_error
  := decode_error self; sanitized_body := sanitized_body self; snippet :=
  snippet self |}.

Definition set_parts (v : _) (self : t) : t :=
  {| full_body := full_body self; namespace_id := namespace_id self;
  data_sha256 := data_sha256 self; subject := subject self; from_addr :=
  from_addr self; sender_addr := sender_addr self; reply_to := reply_to self;
  to_addr := to_addr self; cc_addr := cc_addr self; bcc_addr := bcc_addr self;
  in_reply_to := in_reply_to self; message_id_header := message_id_header
  self; received_date := received_date self; inbox_uid := inbox_uid self;
  references := references self; size := size self; parts := v; decode_error
  := decode_error self; sanitized_body := sanitized_body self; snippet :=
  snippet self |}.

Definition set_decode_error (v : _) (self : t) : t :=
  {| full_body := full_body self; namespace_id := namespace_id self;
  data_sha256 := data_sha256 self; subject := subject self; from_addr :=
  from_addr self; sender_addr := sender_addr self; reply_to := reply_to self;
  to_addr := to_addr self; cc_addr := cc_addr self; bcc_addr := bcc_addr self;
  in_reply_to := in_reply_to self; message_id_header := message_id_header
  self; received_date := received_date self; inbox_uid := inbox_uid self;
  references := references self; size := size self; parts := parts self;
  decode_error := v; sanitized_body := sanitized_body self; snippet := snippet
  self |}.

Definition set_sanitized_body (v : _) (self : t) : t :=
  {| full_body := full_body self; namespace_id := namespace_id self;
  data_sha256 := data_sha256 self; subject := subject self; from_addr :=
  from_addr self; sender_addr := sender_addr self; reply_to := reply_to self;
  to_addr := to_addr self; cc_addr := cc_addr self; bcc_addr := bcc_addr self;
  in_reply_to := in_reply_to self; message_id_header := message_id_header
  self; received_date := received_date self; inbox_uid := inbox_uid self;
  references := references self; size := size self; parts := parts self;
  decode_error := decode_error self; sanitized_body := v; snippet := snippet
  self |}.

Definition set_snippet (v : _) (self : t) : t :=
  {| full_body := full_body self; namespace_id := namespace_id self;
  data_sha256 := data_sha256 self; subject := subject self; from_addr :=
  from_addr self; sender_addr := sender_addr self; reply_to := reply_to self;
  to_addr := to_addr self; cc_addr := cc_addr self; bcc_addr := bcc_addr self;
  in_reply_to := in_reply_to self; message_id_header := message_id_header
  self; received_date := received_date self; inbox_uid := inbox_uid self;
  references := references self; size := size self; parts := parts self;
  decode_error := decode_error self; sanitized_body := sanitized_body self;
  snippet := v |}.
(** [Part(block=..., message=self)] appends the new part to [self.parts]. *)
Definition add_part (part : Part.t) (self : t) : t :=
  set_parts (parts self ++ [part]) self.

(** The [subject] validator, run on every assignment to [subject]. *)
Definition validate_length (value : option unicode) : option unicode :=
  match value with
  | None => None
  | Some v => if 255 <? length v then Some (slice_to v 255) else Some v
  end.

Definition _mark_error (E : Env) (self : t) : t :=
  let self := set_decode_error true self in
  (* fill in required attributes with filler data if could not parse them *)
  let self := set_size (Some 0) self in
  let self := match received_date self with
              | None => set_received_date (Some (utcnow E)) self
              | Some _ => self
              end in
  let self := match sanitized_body self with
              | None => set_sanitized_body (Some []) self
              | Some _ => self
              end in
  match snippet self with
  | None => set_snippet (Some []) self
  | Some _ => self
  end.

(** The payload [_parse_mimepart] stores for a part of content type
    [content_type]. *)
Definition data_to_write (E : Env) (mimepart : MimePart.t)
    (content_type : str) : result pytext :=
  body ← MimePart.body mimepart;
  data ← match body with
         | None => Ok (Some (Str []))
         | Some b =>
             if startswith content_type (lit "text")
             then encoded ← encode_utf8 E b;
                  (* normalize mac/win/unix newlines *)
                  Ok (Some (Str (replace_cr (replace_crlf encoded))))
             else Ok body
         end;
  Ok (default (Str []) data).

(** The disposition is present and is neither inline nor attachment. *)
Definition unknown_disposition (disposition : option str) : bool :=
  match disposition with
  | Some d => negb (bool_decide (d ∈ [lit "inline"; lit "attachment"]))
  | None => false
  end.

(** Parse a single MIME part into a Block and Part object linked to this
    message.  The Part joins [self.parts] when it is constructed, so it is
    there also when reading or encoding the body raises; it then has no
    data and no content id yet. *)
Definition _parse_mimepart (E : Env) (mimepart : MimePart.t) (mid : Z)
    (index : nat) (namespace_id : Z) : Eff t unit :=
  let '(disposition, disposition_params) :=
    MimePart.content_disposition mimepart in
  if unknown_disposition disposition
  then (* Unknown Content-Disposition *)
       modify (_mark_error E)
  else
    let content_type := MimePart.content_type mimepart in
    let block := Block.new in
    let block := Block.set_namespace_id (Some namespace_id) block in
    let block :=
      Block.set_content_type (Some (ContentType.value content_type)) block in
    let block :=
      Block.set_filename
        (_trim_filename (dict_get (lit "name") (ContentType.params content_type))
           mid MAX_FILENAME_LEN) block in
    let new_part := Part.new block in
    let new_part := Part.set_walk_index (Some index) new_part in
    let new_part :=
      match disposition with
      | Some d =>
          let new_part := Part.set_content_disposition (Some d) new_part in
          if bool_decide (d = lit "attachment")
          then Part.set_block
                 (Block.set_filename
                    (_trim_filename
                       (dict_get (lit "filename") disposition_params)
                       mid MAX_FILENAME_LEN)
                    (Part.block new_part))
                 new_part
          else new_part
      | None => new_part
      end in
    match data_to_write E mimepart (ContentType.value content_type) with
    | Raise e => modify (add_part new_part);; lift (Raise e)
    | Ok data =>
        let new_part :=
          Part.set_content_id
            (dict_get (lit "Content-Id") (MimePart.headers mimepart))
            new_part in
        let new_part :=
          Part.set_block (Block.set_data (Some data) (Part.block new_part))
            new_part in
        modify (add_part new_part)
    end.

(** The decoded, stripped data of the first part of the given content
    type, as the two loops of [body] compute it. *)
Fixpoint first_decoded (E : Env) (content_type : str) (parts : list Part.t)
  : result (option unicode) :=
  match parts with
  | part :: parts' =>
      if bool_decide
           (Block.content_type (Part.block part) = Some content_type)
      then data ← decode_utf8 E (Block.data (Part.block part));
           Ok (Some (strip data))
      else first_decoded E content_type parts'
  | [] => Ok None
  end.

(** Returns (plaintext, html) body for the message, decoded. *)
Definition body (E : Env) (self : t)
  : result (option unicode * option unicode) :=
  match parts self with
  | [] => Raise AssertionError
  | _ =>
      html_data ← first_decoded E (lit "text/html") (parts self);
      plain_data ← first_decoded E (lit "text/plain") (parts self);
      Ok (plain_data, html_data)
  end.

Definition calculate_plaintext_snippet {A} `{Char A} (text : list A)
  : list A :=
  slice_to (join [space] (split text)) SNIPPET_LENGTH.

Definition calculate_html_snippet (E : Env) (text : unicode)
  : result unicode :=
  text ← strip_tags E text;
  Ok (calculate_plaintext_snippet text).

Definition calculate_sanitized_body (E : Env) : Eff t unit := λ self,
  match body E self with
  | Raise e => (self, Raise e)
  | Ok (plain_part, html_part) =>
      match html_part, plain_part with
      | Some ((_ :: _) as html_part), _ =>
          (if bool_decide (13%N ∈ html_part)
           then lift (Raise AssertionError)   (* newlines not normalized *)
           else snippet ← lift (calculate_html_snippet E html_part);
                modify (set_snippet (Some snippet));;
                modify (set_sanitized_body (Some html_part))) self
      | _, Some ((_ :: _) as plain_part) =>
          (modify (set_snippet (Some (calculate_plaintext_snippet plain_part)));;
           html ← lift (plaintext2html E plain_part false);
           modify (set_sanitized_body (Some html))) self
      | _, _ =>
          (modify (set_sanitized_body (Some []));;
           modify (set_snippet (Some []))) self
      end
  end.

(** Different messages in the thread may reference the same email address
    with different phrases.  We partially deduplicate: if the same email
    address occurs with both empty and nonempty phrase, we don't separately
    return the (empty phrase, address) pair. *)
Definition chain (self : t) : list (unicode * unicode) :=
  let append addrs chain :=
    if truthy addrs then chain ++ [default [] addrs] else chain in
  let chain := append (from_addr self) [] in
  let chain := append (to_addr self) chain in
  let chain := append (cc_addr self) chain in
  let chain := append (bcc_addr self) chain in
  concat chain.   (* itertools.chain.from_iterable *)

Definition deduped_participants (self : t) : gmap unicode (gset unicode) :=
  foldl (λ d '(phrase, address),
           <[address := default ∅ (d !! address) ∪ {[strip phrase]}]> d)
        ∅ (chain self).

Definition participants (self : t) : list (unicode * unicode) :=
  '(address, phrases) ← map_to_list (deduped_participants self);
  phrase ← elements phrases;
  if negb (bool_decide (phrase = [])) || bool_decide (base.size phrases = 1)
  then [(phrase, address)] else [].

(** *** Ingestion *)

(** The classes the parse boundary recovers from, and the classes the
    calendar import swallows beside [MalformedEventError]. *)
Definition parse_errors : list exn :=
  [DecodingError; AttributeError; RuntimeError; TypeError; ValueError].
Definition calendar_errors : list exn :=
  [AssertionError; TypeError; RuntimeError; AttributeError; ValueError].

(** The calendar side channel of one walked part. *)
Definition autoimport_calendar (E : Env) (account_id : Z)
    (mimepart : MimePart.t) : result unit :=
  flags ← match FEATURE_FLAGS E with
          | Some flags => Ok flags
          | None => Raise TypeError   (* 'in' on None *)
          end;
  let content_type := MimePart.content_type mimepart in
  if bool_decide (lit "ical_autoimport" ∈ flags)
     && bool_decide (ContentType.format_type content_type = lit "text")
     && bool_decide (ContentType.subtype content_type = lit "calendar")
  then match (body ← MimePart.body mimepart;
              import_attached_events E account_id body) with
       | Ok _ => Ok tt
       | Raise e =>
           if caught [MalformedEventError] e then Ok tt
           else if caught calendar_errors e then Ok tt
           else Raise e
       end
  else Ok tt.

(** The loop over [parsed.walk(...)]; [i] is the walk index of the part
    visited last. *)
Fixpoint walk_parts (E : Env) (account_id namespace_id mid : Z) (i : nat)
    (walk : list MimePart.t) : Eff t unit :=
  match walk with
  | mimepart :: walk' =>
      let i := S i in
      if ContentType.is_multipart (MimePart.content_type mimepart)
      then (* multipart sub-part found *)
           walk_parts E account_id namespace_id mid i walk'
      else _parse_mimepart E mimepart mid i namespace_id;;
           lift (autoimport_calendar E account_id mimepart);;
           walk_parts E account_id namespace_id mid i walk'
  | [] => mret tt
  end.

(** The body of the [try] statement. *)
Definition ingest (E : Env) (account : Account.t) (namespace : Namespace.t)
    (mid : Z) (received_date : option timestamp) (body_string : str)
  : Eff t unit :=
  let ns_id := Namespace.id namespace in
  modify (set_full_body
    (Some (Block.mk (Some ns_id) (Some (Str body_string))
             (Some (lit "text/plain")) None)));;
  modify (set_namespace_id (Some ns_id));;
  parsed ← lift (mime_from_string E body_string);
  let headers := MimePart.headers (Parsed.top parsed) in
  (* an unexpected Mime-Version is only logged *)
  modify (set_data_sha256 (Some (sha256_hexdigest E body_string)));;
  modify (set_subject (validate_length (Parsed.clean_subject parsed)));;
  addrs ← lift (parse_mimepart_address_header E parsed (lit "From"));
  modify (set_from_addr (Some addrs));;
  addrs ← lift (parse_mimepart_address_header E parsed (lit "Sender"));
  modify (set_sender_addr (Some addrs));;
  addrs ← lift (parse_mimepart_address_header E parsed (lit "Reply-To"));
  modify (set_reply_to (Some addrs));;
  addrs ← lift (parse_mimepart_address_header E parsed (lit "To"));
  modify (set_to_addr (Some addrs));;
  addrs ← lift (parse_mimepart_address_header E parsed (lit "Cc"));
  modify (set_cc_addr (Some addrs));;
  addrs ← lift (parse_mimepart_address_header E parsed (lit "Bcc"));
  modify (set_bcc_addr (Some addrs));;
  modify (set_in_reply_to (dict_get (lit "In-Reply-To") headers));;
  modify (set_message_id_header (dict_get (lit "Message-Id") headers));;
  date ← match received_date with
         | Some d => mret (Some d)
         | None =>
             lift (get_internaldate E (dict_get (lit "Date") headers)
                     (dict_get (lit "Received") headers))
         end;
  modify (set_received_date date);;
  modify (set_inbox_uid (dict_get (lit "X-INBOX-ID") headers));;
  refs ← lift (parse_references E
                 (default [] (dict_get (lit "References") headers))
                 (default [] (dict_get (lit "In-Reply-To") headers)));
  modify (set_references (Some refs));;
  modify (set_size (Some (length body_string)));;
  (* store all message headers as object with index 0 *)
  dumped ← lift (json_dumps E headers);
  modify (add_part
    (Part.set_walk_index (Some 0)
       (Part.new
          (Block.set_data (Some (Str dumped))
             (Block.set_namespace_id (Some ns_id) Block.new)))));;
  walk_parts E (Account.id account) ns_id mid 0
    (Parsed.walk parsed
       (ContentType.is_singlepart
          (MimePart.content_type (Parsed.top parsed))));;
  calculate_sanitized_body E.

(** The [try] statement with its [except] clause. *)
Definition parse_stage (E : Env) (account : Account.t)
    (namespace : Namespace.t) (mid : Z) (folder_name : pytext)
    (received_date : option timestamp) (body_string : str) : Eff t unit :=
  try_except (ingest E account namespace mid received_date body_string)
    parse_errors
    (λ e,
       lift (_log_decode_error E (Account.id account) folder_name mid
               (Str body_string));;
       lift (_get_errfilename E (Account.id account) folder_name mid);;
       modify (_mark_error E)).

(** The fields the post-pass guards. *)
Inductive field := to_addr_field | cc_addr_field | bcc_addr_field
                 | references_field.

#[global] Instance field_eq_dec : EqDecision field.
Proof. solve_decision. Defined.

Definition addr_json (v : option (list (unicode * unicode))) : pyjson :=
  match v with
  | Some l => JList ((λ '(phrase, address),
                        JList [JString phrase; JString address]) <$> l)
  | None => JNone
  end.

(** [getattr(msg, field)] *)
Definition getattr (self : t) (f : field) : pyjson :=
  match f with
  | to_addr_field => addr_json (to_addr self)
  | cc_addr_field => addr_json (cc_addr self)
  | bcc_addr_field => addr_json (bcc_addr self)
  | references_field =>
      match references self with
      | Some l => JList (JString <$> l)
      | None => JNone
      end
  end.

(** [setattr(msg, field, [])] *)
Definition clear (f : field) (self : t) : t :=
  match f with
  | to_addr_field => set_to_addr (Some []) self
  | cc_addr_field => set_cc_addr (Some []) self
  | bcc_addr_field => set_bcc_addr (Some []) self
  | references_field => set_references (Some []) self
  end.

(** One round of the post-pass loop. *)
Definition check_field (E : Env) (account : Account.t) (mid : Z)
    (folder_name : pytext) (body_string : str) (f : field) : Eff t unit :=
  λ self,
  if json_field_too_long E (getattr self f)
  then (lift (_log_decode_error E (Account.id account) folder_name mid
                (Str body_string));;
        lift (_get_errfilename E (Account.id account) folder_name mid);;
        modify (clear f);;
        modify (_mark_error E)) self
  else (self, Ok tt).

Definition guarded_fields : list field :=
  [to_addr_field; cc_addr_field; bcc_addr_field; references_field].

(** The post-pass over the guarded fields. *)
Fixpoint check_fields (E : Env) (account : Account.t) (mid : Z)
    (folder_name : pytext) (body_string : str) (fields : list field)
  : Eff t unit :=
  match fields with
  | f :: fields' =>
      check_field E account mid folder_name body_string f;;
      check_fields E account mid folder_name body_string fields'
  | [] => mret tt
  end.

(** Parses message data and writes out db metadata and MIME blocks.
    Returns the new Message, which links to the new Part and Block objects
    through relationships. *)
Definition create_from_synced (E : Env) (account : option Account.t)
    (mid : option Z) (folder_name : option pytext)
    (received_date : option timestamp) (body_string : option pytext)
  : result t :=
  match account, mid, folder_name, body_string with
  | Some account, Some mid, Some folder_name, Some body_string =>
      (* stop trickle-down bugs *)
      match Account.namespace account, body_string with
      | None, _ => Raise AssertionError
      | Some _, Unicode _ => Raise AssertionError
      | Some namespace, Str body_string =>
          let '(msg, r) :=
            (parse_stage E account namespace mid folder_name received_date
               body_string;;
             check_fields E account mid folder_name body_string
               guarded_fields) new in
          match r with
          | Ok _ => Ok msg
          | Raise e => Raise e
          end
      end
  | _, _, _, _ => Raise ValueError   (* required keyword arguments *)
  end.

End Message.

(** ** Notions the properties are stated with *)

Module Spec.

(** The snippet rule in the specification's words: every run of whitespace
    collapsed to a single space. *)
Fixpoint collapse_whitespace {A} `{Char A} (s : list A) : list A :=
  match s with
  | c :: s' =>
      if isspace c
      then match s' with
           | c' :: _ =>
               if isspace c' then collapse_whitespace s'
               else space :: collapse_whitespace s'
           | [] => [space]
           end
      else c :: collapse_whitespace s'
  | [] => []
  end.

(** No two adjacent characters are both whitespace. *)
Fixpoint no_whitespace_run {A} `{Char A} (s : list A) : bool :=
  match s with
  | c :: s' =>
      match s' with
      | c' :: _ => negb (isspace c && isspace c')
      | [] => true
      end && no_whitespace_run s'
  | [] => true
  end.

(** A walked part that yields a Part: it is no multipart container and its
    disposition is absent, inline or attachment. *)
Definition kept (mimepart : MimePart.t) : bool :=
  negb (ContentType.is_multipart (MimePart.content_type mimepart))
  && negb (Message.unknown_disposition
             (MimePart.content_disposition mimepart).1).

(** The positions, counted from [i + 1], of the kept parts of a walk. *)
Fixpoint kept_positions (i : nat) (walk : list MimePart.t) : list nat :=
  match walk with
  | mimepart :: walk' =>
      if kept mimepart then S i :: kept_positions (S i) walk'
      else kept_positions (S i) walk'
  | [] => []
  end.

(** The walk indices of the parts of a message, in the order of
    [self.parts]. *)
Definition walk_indices (self : Message.t) : list (option nat) :=
  Part.walk_index <$> Message.parts self.

(** Walk indices as the specification words them: 0 for the headers, then
    1..N for the N leaves of the walk. *)
Definition claimed_walk_indices (walk : list MimePart.t) : list (option nat) :=
  Some <$> seq 0 (S (length (filter
    (λ mp, ContentType.is_multipart (MimePart.content_type mp) = false)
    walk))).

(** The filename as a preference with a fall-back: the [filename]
    parameter of the disposition of an attachment when it has one, and the
    [name] parameter of the content type otherwise. *)
Definition preferred_filename (mimepart : MimePart.t) : option unicode :=
  let '(disposition, disposition_params) :=
    MimePart.content_disposition mimepart in
  let name :=
    dict_get (lit "name") (ContentType.params (MimePart.content_type mimepart))
  in
  if bool_decide (disposition = Some (lit "attachment"))
  then match dict_get (lit "filename") disposition_params with
       | Some filename => Some filename
       | None => name
       end
  else name.

(** The first part of a content type, in the order of [self.parts]. *)
Definition first_of_type (content_type : str) (parts : list Part.t)
  : option Part.t :=
  snd <$> list_find
            (λ p, Block.content_type (Part.block p) = Some content_type)
            parts.

(** The decoded and stripped text of the first part of a content type;
    [None] when the message has no such part. *)
Definition stripped_text (E : Env) (content_type : str)
    (parts : list Part.t) : result (option unicode) :=
  match first_of_type content_type parts with
  | Some part =>
      data ← decode_utf8 E (Block.data (Part.block part));
      Ok (Some (strip data))
  | None => Ok None
  end.

(** What one round of the post-pass makes of a message, when it
    returns. *)
Definition guard_field (E : Env) (self : Message.t) (f : Message.field)
  : Message.t :=
  if json_field_too_long E (Message.getattr self f)
  then Message._mark_error E (Message.clear f self)
  else self.

(** The attributes the post-pass does not guard keep what the parse gave
    them: those below are unchanged, the required attributes that were set
    keep their value, the size stays set, a raised flag stays raised. *)
Definition keeps_parsed (msg m : Message.t) : Prop :=
  Message.subject m = Message.subject msg
  ∧ Message.from_addr m = Message.from_addr msg
  ∧ Message.sender_addr m = Message.sender_addr msg
  ∧ Message.reply_to m = Message.reply_to msg
  ∧ Message.in_reply_to m = Message.in_reply_to msg
  ∧ Message.message_id_header m = Message.message_id_header msg
  ∧ Message.inbox_uid m = Message.inbox_uid msg
  ∧ Message.data_sha256 m = Message.data_sha256 msg
  ∧ Message.namespace_id m = Message.namespace_id msg
  ∧ Message.full_body m = Message.full_body msg
  ∧ Message.parts m = Message.parts msg
  ∧ (is_Some (Message.received_date msg) →
     Message.received_date m = Message.received_date msg)
  ∧ (is_Some (Message.sanitized_body msg) →
     Message.sanitized_body m = Message.sanitized_body msg)
  ∧ (is_Some (Message.snippet msg) →
     Message.snippet m = Message.snippet msg)
  ∧ (is_Some (Message.size msg) → is_Some (Message.size m))
  ∧ (Message.decode_error msg = true → Message.decode_error m = true).

(** Every stored text/html part holds a byte string with no carriage
    return, and the message has a part. *)
Definition html_normalised (self : Message.t) : Prop :=
  Message.parts self ≠ []
  ∧ ∀ part, part ∈ Message.parts self →
      Block.content_type (Part.block part) = Some (lit "text/html") →
      ∃ b, Block.data (Part.block part) = Some (Str b) ∧ "013"%char ∉ b.

(** The diagnostic dump of a message can be written. *)
Definition dump_succeeds (E : Env) (account_id : Z) (folder_name : pytext)
    (mid : Z) (body_string : str) : Prop :=
  ∃ errfile, _get_errfilename E account_id folder_name mid = Ok errfile
             ∧ write_file E errfile (Str body_string) = Ok tt.

(** The failures of the collaborators are of the classes the parse boundary
    recovers from (for the calendar importer: or of the classes the import
    swallows), and the decoder invents no carriage return. *)
Record recognised_failures (E : Env) : Prop := {
  rf_tokenizer : ∀ b e,
    mime_from_string E b = Raise e → caught Message.parse_errors e = true;
  rf_address : ∀ p h e,
    parse_mimepart_address_header E p h = Raise e →
    caught Message.parse_errors e = true;
  rf_references : ∀ r i e,
    parse_references E r i = Raise e → caught Message.parse_errors e = true;
  rf_internaldate : ∀ d r e,
    get_internaldate E d r = Raise e → caught Message.parse_errors e = true;
  rf_json_dumps : ∀ h e,
    json_dumps E h = Raise e → caught Message.parse_errors e = true;
  rf_encode : ∀ u e,
    utf8_encode E u = Raise e → caught Message.parse_errors e = true;
  rf_decode : ∀ b e,
    utf8_decode E b = Raise e → caught Message.parse_errors e = true;
  rf_strip_tags : ∀ t e,
    strip_tags E t = Raise e → caught Message.parse_errors e = true;
  rf_plaintext2html : ∀ t f e,
    plaintext2html E t f = Raise e → caught Message.parse_errors e = true;
  rf_part_body : ∀ b parsed mimepart e,
    mime_from_string E b = Ok parsed →
    mimepart ∈ Parsed.top parsed :: Parsed.descendants parsed →
    MimePart.body mimepart = Raise e →
    caught Message.parse_errors e = true;
  rf_calendar : ∀ a b e,
    import_attached_events E a b = Raise e →
    caught (MalformedEventError :: Message.calendar_errors
            ++ Message.parse_errors) e = true;
  rf_decode_cr : ∀ b u,
    utf8_decode E b = Ok u → "013"%char ∉ b → 13%N ∉ u
}.

End Spec.

(** ** Reasoning about effects

    [wp c Q R s]: run from [s], [c] either returns a value and a state
    that satisfy [Q], or raises an exception in a state that satisfies
    [R]. *)
Definition wp {S A} (c : Eff S A) (Q : A → S → Prop) (R : exn → S → Prop)
    (s : S) : Prop :=
  match c s with
  | (s', Ok a) => Q a s'
  | (s', Raise e) => R e s'
  end.

(** ** A small concrete environment

    An ASCII-only codec, a tag stripper that keeps its input, a paragraph
    wrapper, and a file system that makes every directory.  The tokenizer,
    the size guard and the file writer are left open. *)

Module Demo.

Definition ascii_encode (u : unicode) : result str :=
  if forallb (λ c, (c <? 128)%N) u then Ok (ascii_of_N <$> u)
  else Raise UnicodeEncodeError.

Definition ascii_decode (b : str) : result unicode :=
  if forallb (λ c, nat_of_ascii c <? 128) b then Ok (N_of_ascii <$> b)
  else Raise UnicodeDecodeError.

Definition env (tokenizer : str → result Parsed.t)
    (too_long : pyjson → bool) (write : pytext → pytext → result unit)
  : Env := {|
  mime_from_string := tokenizer;
  parse_mimepart_address_header := λ parsed name,
    Ok (if bool_decide (name = lit "To")
        then [(ulit "Bob", ulit "bob@example.com")] else []);
  parse_references := λ _ _, Ok [];
  get_internaldate := λ _ _, Ok (Some 1000%Z);
  json_field_too_long := too_long;
  plaintext2html := λ text _, Ok (ulit "<p>" ++ text ++ ulit "</p>");
  strip_tags := λ text, Ok text;
  import_attached_events := λ _ _, Ok tt;
  FEATURE_FLAGS := Some [];
  sha256_hexdigest := λ _, lit "digest";
  json_dumps := λ _, Ok (lit "[]");
  utf8_encode := ascii_encode;
  utf8_decode := ascii_decode;
  utcnow := 2000%Z;
  os_path_join_errdir := λ _ folder_name, Ok folder_name;
  os_path_join_errfile := λ errdir _, Ok errdir;
  mkdirp := λ _, Ok tt;
  b64encode_utf8 := λ _, Ok (lit "Zg==");
  write_file := write;
  recursion_limit := 1000
|}.

Definition never_too_long : pyjson → bool := λ _, false.

(** A size guard that lets only the empty list through. *)
Definition nonempty_too_long : pyjson → bool := λ value,
  match value with
  | JList (_ :: _) => true
  | _ => false
  end.
Definition writable : pytext → pytext → result unit := λ _ _, Ok tt.

Definition content_type (main sub : string) (singlepart multipart : bool)
  : ContentType.t :=
  ContentType.mk (lit main ++ lit "/" ++ lit sub) (lit main) (lit sub) []
    singlepart multipart.

(** A leaf with a text body and no disposition. *)
Definition leaf (main sub body : string) : MimePart.t :=
  MimePart.mk (content_type main sub true false) (None, [])
    (Ok (Some (Unicode (ulit body)))) [].

(** A multipart container. *)
Definition container (sub : string) : MimePart.t :=
  MimePart.mk (content_type "multipart" sub false true) (None, [])
    (Ok None) [].

(** multipart/mixed [ multipart/alternative [ text/plain, text/html ] ] *)
Definition nested : Parsed.t :=
  Parsed.mk (container "mixed") (Some (ulit "hello"))
    [container "alternative"; leaf "text" "plain" "Hello";
     leaf "text" "html" "<b>Hello</b>"].

(** A single-part text/plain message. *)
Definition single : Parsed.t :=
  Parsed.mk (leaf "text" "plain" "Hello") (Some (ulit "hello")) [].

(** A PDF attachment whose disposition carries a 70-character filename. *)
Definition attachment : MimePart.t :=
  MimePart.mk
    (ContentType.mk (lit "application/pdf") (lit "application") (lit "pdf")
       [(lit "name", ulit "short.pdf")] true false)
    (Some (lit "attachment"),
     [(lit "filename",
       ulit "a-very-long-attachment-name-that-really-exceeds-the-limit-by-6.pdf....")])
    (Ok (Some (Str (lit "%PDF")))) [].

(** multipart/alternative [ text/html of blanks only, text/plain ] *)
Definition blank_html : Parsed.t :=
  Parsed.mk (container "alternative") (Some (ulit "hello"))
    [leaf "text" "html" "  "; leaf "text" "plain" "Hello"].

(** A stored part of the given content type and data. *)
Definition stored (index : nat) (content_type data : string) : Part.t :=
  Part.mk (Block.mk (Some 7%Z) (Some (Str (lit data)))
             (Some (lit content_type)) None)
    (Some index) None None.

(** A message whose parts are a blank text/html and a text/plain. *)
Definition blank_html_message : Message.t :=
  Message.set_parts
    [stored 1 "text/html" "  "; stored 2 "text/plain" "Hello"] Message.new.

(** A single text/plain part with an unknown disposition. *)
Definition form_data : Parsed.t :=
  Parsed.mk
    (MimePart.mk (content_type "text" "plain" true false)
       (Some (lit "form-data"), []) (Ok (Some (Unicode (ulit "Hello")))) [])
    (Some (ulit "hello")) [].

(** The message a call returned, for reading its attributes. *)
Definition returned (r : result Message.t) : Message.t :=
  match r with
  | Ok m => m
  | Raise _ => Message.new
  end.

Definition account : Account.t := Account.mk 1 (Some (Namespace.mk 7)).
Definition homeless_account : Account.t := Account.mk 1 None.
Definition folder : pytext := Str (lit "INBOX").
Definition raw : str := lit "raw".

(** Ingestion of [raw] in the demo world, by what the tokenizer makes of
    it. *)
Definition run (E : Env) : result Message.t :=
  Message.create_from_synced E (Some account) (Some 5%Z) (Some folder) None
    (Some (Str raw)).

End Demo.

(** ** Further methods of [Message] *)

Module Accessors.

(** [s[k]]; [None] stands for the IndexError. *)
Definition getitem {A} (s : list A) (k : Z) : option A :=
  if (k <? 0)%Z
  then if (Z.of_nat (length s) + k <? 0)%Z then None
       else s !! Z.to_nat (Z.of_nat (length s) + k)
  else s !! Z.to_nat k.

(** [s[i:j]] *)
Definition slice {A} (s : list A) (i j : Z) : list A :=
  take (clip s j - clip s i) (drop (clip s i) s).

(** FIXME @karim: doesn't work - refactor/i18n *)
Definition trimmed_subject (self : Message.t) : result unicode :=
  match Message.subject self with
  | None => Raise TypeError   (* None cannot be sliced *)
  | Some s =>
      if bool_decide (slice_to s 4 = ulit "RE: ")
         || bool_decide (slice_to s 4 = ulit "Re: ")
      then Ok (slice_from s 4)
      else Ok s
  end.

(** Returns headers for the message, decoded.  The JSON decoder is a
    parameter. *)
Definition headers {J} (json_decode : option pytext → result J)
    (self : Message.t) : result J :=
  match Message.parts self with
  | [] => Raise AssertionError
  | part :: _ => json_decode (Block.data (Part.block part))
  end.

(** [Part.is_attachment] belongs to the block module and is a parameter. *)
Definition attachments (is_attachment : Part.t → bool) (self : Message.t)
  : list Part.t :=
  filter (λ part, is_attachment part = true) (Message.parts self).

(** One dictionary of [api_attachment_metadata]; a [content_id] of
    [None] stands for the absent key. *)
Record metadata {Size Id : Type} := Metadata {
  content_type : option str;
  size : Size;
  filename : option unicode;
  id : Id;
  content_id : option unicode
}.
Arguments metadata : clear implicits.

(** The content id as the API shows it. *)
Definition api_content_id (content_id : option unicode) : option unicode :=
  match content_id with
  | Some ((_ :: _) as content_id) =>
      if bool_decide (getitem content_id 0 = Some 60%N)
         && bool_decide (getitem content_id (-1) = Some 62%N)
      then Some (slice content_id 1 (-1))
      else Some content_id
  | _ => None
  end.

(** [block.size] and [block.public_id] belong to the block module and are
    parameters. *)
Definition api_attachment_metadata {Size Id : Type}
    (is_attachment : Part.t → bool) (block_size : Block.t → Size)
    (block_public_id : Block.t → Id) (self : Message.t)
  : list (metadata Size Id) :=
  part ← Message.parts self;
  if is_attachment part
  then [Metadata Size Id
          (Block.content_type (Part.block part))
          (block_size (Part.block part))
          (Block.filename (Part.block part))
          (block_public_id (Part.block part))
          (api_content_id (Part.content_id part))]
  else [].

End Accessors.

(** ** Notions for the further properties *)

Module Props.

(** Some walked part is rejected for its disposition. *)
Definition flagged (walk : list MimePart.t) : bool :=
  existsb
    (λ mimepart,
       negb (ContentType.is_multipart (MimePart.content_type mimepart))
       && Message.unknown_disposition
            (MimePart.content_disposition mimepart).1)
    walk.

(** One attempt of [_get_errfilename] at a folder name: the body of its
    [try]. *)
Definition attempt (E : Env) (account_id : Z) (folder_name : pytext)
    (uid : Z) : result pytext :=
  errdir ← os_path_join_errdir E account_id folder_name;
  errfile ← os_path_join_errfile E errdir uid;
  mkdirp E errdir;;
  Ok errfile.

(** The Block that holds the raw message. *)
Definition raw_block (namespace_id : Z) (body_string : str) : Block.t :=
  Block.mk (Some namespace_id) (Some (Str body_string))
    (Some (lit "text/plain")) None.

(** The Part that holds the serialized headers. *)
Definition headers_part (namespace_id : Z) (dumped : str) : Part.t :=
  Part.mk (Block.mk (Some namespace_id) (Some (Str dumped)) None None)
    (Some 0) None None.

(** A subject fits its column. *)
Definition subject_ok (subject : option unicode) : Prop :=
  match subject with
  | Some s => length s ≤ 255
  | None => True
  end.

(** The attribute [v] holds what the call [r] returned. *)
Definition holds {A} (r : result A) (v : option A) : Prop :=
  match r with
  | Ok a => v = Some a
  | Raise _ => False
  end.

(** The message [base] has the attributes the try body assigns before it
    stores the Parts, read from [parsed]. *)
Definition populated (E : Env) (namespace_id : Z) (body_string : str)
    (received_date : option timestamp) (parsed : Parsed.t)
    (base : Message.t) : Prop :=
  let headers := MimePart.headers (Parsed.top parsed) in
  Message.full_body base = Some (raw_block namespace_id body_string)
  ∧ Message.namespace_id base = Some namespace_id
  ∧ Message.data_sha256 base = Some (sha256_hexdigest E body_string)
  ∧ Message.subject base
    = Message.validate_length (Parsed.clean_subject parsed)
  ∧ holds (parse_mimepart_address_header E parsed (lit "From"))
      (Message.from_addr base)
  ∧ holds (parse_mimepart_address_header E parsed (lit "Sender"))
      (Message.sender_addr base)
  ∧ holds (parse_mimepart_address_header E parsed (lit "Reply-To"))
      (Message.reply_to base)
  ∧ holds (parse_mimepart_address_header E parsed (lit "To"))
      (Message.to_addr base)
  ∧ holds (parse_mimepart_address_header E parsed (lit "Cc"))
      (Message.cc_addr base)
  ∧ holds (parse_mimepart_address_header E parsed (lit "Bcc"))
      (Message.bcc_addr base)
  ∧ Message.in_reply_to base = dict_get (lit "In-Reply-To") headers
  ∧ Message.message_id_header base = dict_get (lit "Message-Id") headers
  ∧ match received_date with
    | Some d => Message.received_date base = Some d
    | None =>
        match get_internaldate E (dict_get (lit "Date") headers)
                (dict_get (lit "Received") headers) with
        | Ok date => Message.received_date base = date
        | Raise _ => False
        end
    end
  ∧ Message.inbox_uid base = dict_get (lit "X-INBOX-ID") headers
  ∧ holds (parse_references E
             (default [] (dict_get (lit "References") headers))
             (default [] (dict_get (lit "In-Reply-To") headers)))
      (Message.references base)
  ∧ Message.size base = Some (length body_string)
  ∧ Message.decode_error base = false.

(** The message [base] after the loop has stored the Parts [parts] and,
    when [marked], has rejected a disposition. *)
Definition walked (E : Env) (parts : list Part.t) (marked : bool)
    (base : Message.t) : Message.t :=
  Message.set_parts parts (if marked then Message._mark_error E base else base).

(** What is known of a message on which the try body was interrupted. *)
Definition interrupted (namespace_id : Z) (body_string : str)
    (received_date : option timestamp) (self : Message.t) : Prop :=
  Message.full_body self = Some (raw_block namespace_id body_string)
  ∧ Message.namespace_id self = Some namespace_id
  ∧ subject_ok (Message.subject self)
  ∧ (Message.snippet self = None
     ∨ ∃ text, Message.snippet self
               = Some (Message.calculate_plaintext_snippet text))
  ∧ (∀ d, received_date = Some d →
       Message.received_date self = None
       ∨ Message.received_date self = Some d).

(** The marker has been applied and not undone. *)
Definition marked (self : Message.t) : Prop :=
  Message.decode_error self = true
  ∧ Message.size self = Some 0
  ∧ is_Some (Message.received_date self).

(** A snippet fits its column and has no whitespace run. *)
Definition snippet_ok (snippet : option unicode) : Prop :=
  ∃ text, snippet = Some text ∧ length text ≤ 191
          ∧ Spec.no_whitespace_run text = true.

End Props.

(** ** Sample values for the further properties *)

Module Samples.

Definition CR : ascii := "013"%char.
Definition LF : ascii := "010"%char.

(** A text/plain leaf whose body is "Hello\r\nWorld". *)
Definition windows_leaf : MimePart.t :=
  MimePart.mk (Demo.content_type "text" "plain" true false) (None, [])
    (Ok (Some (Str (lit "Hello" ++ [CR; LF] ++ lit "World")))) [].

Definition world : Env :=
  Demo.env (λ _, Ok Demo.single) Demo.never_too_long Demo.writable.

(** A folder name the file system cannot encode. *)
Definition odd_folder : pytext := Unicode [8364%N].

(** The sample world over another file system: [join] builds the path of
    the error directory, [mk] creates it, and the retries stop at depth
    [limit]; [flags] are its feature flags.  Its calendar importer rejects
    every event. *)
Definition files (join : Z → pytext → result pytext)
    (mk : pytext → result unit) (limit : nat) (flags : option (list str))
  : Env := {|
  mime_from_string := mime_from_string world;
  parse_mimepart_address_header := parse_mimepart_address_header world;
  parse_references := parse_references world;
  get_internaldate := get_internaldate world;
  json_field_too_long := json_field_too_long world;
  plaintext2html := plaintext2html world;
  strip_tags := strip_tags world;
  import_attached_events := λ _ _, Raise MalformedEventError;
  FEATURE_FLAGS := flags;
  sha256_hexdigest := sha256_hexdigest world;
  json_dumps := json_dumps world;
  utf8_encode := utf8_encode world;
  utf8_decode := utf8_decode world;
  utcnow := utcnow world;
  os_path_join_errdir := join;
  os_path_join_errfile := λ errdir _, Ok errdir;
  mkdirp := mk;
  b64encode_utf8 := b64encode_utf8 world;
  write_file := write_file world;
  recursion_limit := limit
|}.

(** A file system that refuses every name but byte strings. *)
Definition picky_world : Env :=
  files (λ _ folder_name,
           match folder_name with
           | Str b => Ok (Str b)
           | Unicode _ => Raise UnicodeEncodeError
           end)
    (λ _, Ok tt) 1000 (Some [lit "ical_autoimport"]).

(** A file system that can encode no name at all. *)
Definition deaf_world : Env :=
  files (λ _ _, Raise UnicodeEncodeError) (λ _, Ok tt) 1000 None.

(** A file system that is mounted read-only. *)
Definition readonly_world : Env :=
  files (λ _ folder_name, Ok folder_name) (λ _, Raise OSError) 1000
    (Some []).

(** A tokenizer that gives up. *)
Definition broken_world : Env :=
  Demo.env (λ _, Raise DecodingError) Demo.never_too_long Demo.writable.

(** The world of a message with an unknown disposition. *)
Definition form_world : Env :=
  Demo.env (λ _, Ok Demo.form_data) Demo.never_too_long Demo.writable.

(** A JSON decoder that returns the text it is given. *)
Definition json_text (data : option pytext) : result pytext :=
  match data with
  | Some text => Ok text
  | None => Raise TypeError
  end.

(** A PDF attachment named by its content type only. *)
Definition named_attachment : MimePart.t :=
  MimePart.mk
    (ContentType.mk (lit "application/pdf") (lit "application") (lit "pdf")
       [(lit "name", ulit "short.pdf")] true false)
    (Some (lit "attachment"), [])
    (Ok (Some (Str (lit "%PDF")))) [].

(** A message whose parts are a text/html, a blank text/html and a
    text/plain. *)
Definition late_blank_message : Message.t :=
  Message.set_parts
    [Demo.stored 1 "text/html" "<b>x</b>"; Demo.stored 2 "text/html" "  ";
     Demo.stored 3 "text/plain" "Hello"]
    Message.new.


End Samples.

Module Samples2.



(** [Demo.blank_html_message] with two more parts behind the first two. *)
Definition more_parts_message : Message.t :=
  Message.set_parts
    [Demo.stored 1 "text/html" "  "; Demo.stored 2 "text/plain" "Hello";
     Demo.stored 3 "text/html" "<b>later</b>";
     Demo.stored 4 "text/plain" "later"] Message.new.

End Samples2.

(** * Part II: properties *)

(** ** Slices *)

Section Slices.
Context {A : Type}.
Implicit Types (s : list A).

Lemma slice_from_last8 s :
  8 ≤ length s → slice_from s (-8) = drop (length s - 8) s.
Proof.
  intros Hlen. unfold slice_from, clip. f_equal.
  change (-8 <? 0)%Z with true. cbv iota. lia.
Qed.

Lemma slice_to_nat s (k : nat) :
  slice_to s (Z.of_nat k) = take k s.
Proof.
  unfold slice_to, clip.
  destruct (Z.ltb_spec (Z.of_nat k) 0) as [|_]; [lia|].
  destruct (decide (k ≤ length s)) as [Hle|Hgt].
  - f_equal. lia.
  - rewrite !take_ge by lia. reflexivity.
Qed.

Lemma slice_to_length s (k : nat) : length (slice_to s (Z.of_nat k)) ≤ k.
Proof. rewrite slice_to_nat, length_take. lia. Qed.

End Slices.

(** ** [_trim_filename] *)

Section TrimFilename.
Context {A : Type}.
Implicit Types (s : list A) (mid : Z).

Lemma _trim_filename_long s mid :
  64 < length s →
  _trim_filename (Some s) mid MAX_FILENAME_LEN
  = Some (take 56 s ++ drop (length s - 8) s).
Proof.
  intros Hlen. unfold _trim_filename, MAX_FILENAME_LEN.
  destruct s as [|c s']; [simpl in Hlen; lia|].
  set (t := c :: s') in *. unfold truthy. fold t.
  destruct (Z.ltb_spec 64 (Z.of_nat (length t))) as [_|Hle]; [|lia].
  cbn [andb]. f_equal.
  change (64 - 8)%Z with (Z.of_nat 56).
  rewrite slice_to_nat, slice_from_last8 by lia. reflexivity.
Qed.

Lemma _trim_filename_short s mid :
  length s ≤ 64 → _trim_filename (Some s) mid MAX_FILENAME_LEN = Some s.
Proof.
  intros Hlen. unfold _trim_filename, MAX_FILENAME_LEN.
  destruct (Z.ltb_spec 64 (Z.of_nat (length s))); [lia|].
  rewrite andb_false_r. reflexivity.
Qed.

(** C7.  A filename longer than 64 characters is trimmed to exactly 64
    characters, and the last 8 characters of the result are the last 8
    characters of the original. *)
Theorem trim_filename_length_and_extension s mid :
  64 < length s →
  ∃ r, _trim_filename (Some s) mid MAX_FILENAME_LEN = Some r
       ∧ length r = 64
       ∧ slice_from r (-8) = slice_from s (-8).
Proof.
  intros Hlen. eexists. split; [apply _trim_filename_long; lia|].
  assert (Hd : length (drop (length s - 8) s) = 8)
    by (rewrite length_drop; lia).
  assert (Ht : length (take 56 s) = 56)
    by (rewrite length_take; lia).
  split.
  - rewrite length_app, Ht, Hd. reflexivity.
  - rewrite !slice_from_last8 by (rewrite ?length_app, ?Ht, ?Hd; lia).
    rewrite length_app, Ht, Hd.
    change (56 + 8 - 8) with 56. rewrite <- Ht at 1.
    apply drop_app_length.
Qed.

End TrimFilename.

(** A 70-character name keeps its first 56 characters and its last 8. *)
Lemma trim_filename_length_and_extension_witness :
  64 < length (ulit "a-very-long-attachment-name-that-really-exceeds-the-limit-by-6.pdf....")
  ∧ ∃ r, _trim_filename
           (Some (ulit "a-very-long-attachment-name-that-really-exceeds-the-limit-by-6.pdf...."))
           7 MAX_FILENAME_LEN = Some r
         ∧ length r = 64
         ∧ slice_from r (-8)
           = slice_from
               (ulit "a-very-long-attachment-name-that-really-exceeds-the-limit-by-6.pdf....")
               (-8).
Proof.
  split; [vm_compute; lia|].
  apply (trim_filename_length_and_extension
           (ulit "a-very-long-attachment-name-that-really-exceeds-the-limit-by-6.pdf....") 7).
  vm_compute; lia.
Defined.

(** ** Whitespace: [strip], [split], [join] *)

Section Whitespace.
Context {A : Type} `{Char A}.
Implicit Types (s w word : list A) (c : A).

Local Abbreviation blank := (Forall (λ c, isspace c = true)).
Local Abbreviation solid := (Forall (λ c, isspace c = false)).

Lemma collapse_cons c s :
  Spec.collapse_whitespace (c :: s)
  = if isspace c
    then match s with
         | c' :: _ =>
             if isspace c' then Spec.collapse_whitespace s
             else space :: Spec.collapse_whitespace s
         | [] => [space]
         end
    else c :: Spec.collapse_whitespace s.
Proof. reflexivity. Qed.

Lemma rstrip_blank s : blank s → rstrip s = [].
Proof.
  induction 1 as [|c s Hc _ IH]; [reflexivity|].
  simpl. rewrite IH, Hc. reflexivity.
Qed.

Lemma rstrip_nil_blank s : rstrip s = [] → blank s.
Proof.
  induction s as [|c s IH]; [constructor|]. simpl.
  destruct (rstrip s) eqn:Hr; [|discriminate].
  destruct (isspace c) eqn:Hc; [|discriminate].
  intros _. constructor; auto.
Qed.

Lemma rstrip_blank_nil s : blank (rstrip s) → rstrip s = [].
Proof.
  induction s as [|c s IH]; [reflexivity|]. simpl.
  destruct (rstrip s) as [|a r] eqn:Hr.
  - destruct (isspace c) eqn:Hc; [reflexivity|].
    intros Hb. apply Forall_inv in Hb. congruence.
  - intros Hb. apply Forall_inv_tail in Hb. specialize (IH Hb). discriminate.
Qed.

Lemma lstrip_nil_blank s : lstrip s = [] → blank s.
Proof.
  induction s as [|c s IH]; [constructor|]. simpl.
  destruct (isspace c) eqn:Hc; [|discriminate].
  intros Hs. constructor; auto.
Qed.

Lemma lstrip_blank s : blank s → lstrip s = [].
Proof.
  induction 1 as [|c s Hc _ IH]; [reflexivity|]. simpl. rewrite Hc. exact IH.
Qed.

(** A string is whitespace only exactly when stripping empties it. *)
Lemma strip_nil_iff s : strip s = [] ↔ blank s.
Proof.
  unfold strip. split.
  - intros Hs. apply rstrip_nil_blank, rstrip_blank_nil, lstrip_nil_blank, Hs.
  - intros Hb. rewrite rstrip_blank by exact Hb. reflexivity.
Qed.

Lemma rstrip_solid_app w s : solid w → rstrip (w ++ s) = w ++ rstrip s.
Proof.
  induction 1 as [|c w Hc _ IH]; [reflexivity|].
  simpl. rewrite IH.
  destruct (w ++ rstrip s) eqn:Hr; [rewrite Hc|]; reflexivity.
Qed.

Lemma strip_solid w : solid w → strip w = w.
Proof.
  intros Hw. unfold strip.
  rewrite <- (app_nil_r w) at 1. rewrite rstrip_solid_app by exact Hw.
  simpl. rewrite app_nil_r.
  destruct Hw as [|c w Hc _]; [reflexivity|]. simpl. rewrite Hc. reflexivity.
Qed.

Lemma strip_blank_cons c s : isspace c = true → strip (c :: s) = strip s.
Proof.
  intros Hc. unfold strip. simpl.
  destruct (rstrip s) eqn:Hr; [rewrite Hc; reflexivity|].
  simpl. rewrite Hc. reflexivity.
Qed.

(** Stripping keeps a sublist of the characters. *)
Lemma lstrip_elem_of c s : c ∈ lstrip s → c ∈ s.
Proof.
  induction s as [|a s IH]; [done|]. simpl.
  destruct (isspace a); [|done]. intros Hin. right. auto.
Qed.

Lemma rstrip_elem_of c s : c ∈ rstrip s → c ∈ s.
Proof.
  induction s as [|a s IH]; [done|]. simpl.
  destruct (rstrip s) as [|b r] eqn:Hr.
  - destruct (isspace a); [by intros ?%elem_of_nil|].
    intros ->%list_elem_of_singleton. left.
  - intros [->|Hin]%elem_of_cons; [left|right; auto].
Qed.

Lemma strip_elem_of c s : c ∈ strip s → c ∈ s.
Proof. intros Hin. apply rstrip_elem_of, lstrip_elem_of, Hin. Qed.

Lemma collapse_solid_app w s :
  solid w →
  Spec.collapse_whitespace (w ++ s) = w ++ Spec.collapse_whitespace s.
Proof.
  induction 1 as [|c w Hc _ IH]; [reflexivity|].
  simpl. rewrite Hc, IH. reflexivity.
Qed.

Lemma collapse_solid w : solid w → Spec.collapse_whitespace w = w.
Proof.
  intros Hw. rewrite <- (app_nil_r w) at 1.
  rewrite collapse_solid_app by exact Hw. apply app_nil_r.
Qed.

Lemma collapse_blank_cons c s :
  isspace c = true → lstrip s ≠ [] →
  Spec.collapse_whitespace (c :: s)
  = space :: Spec.collapse_whitespace (lstrip s).
Proof.
  revert c. induction s as [|a s IH]; intros c Hc Hs; [done|].
  rewrite collapse_cons, Hc. cbn [lstrip] in *.
  destruct (isspace a) eqn:Ha; [|reflexivity].
  apply IH; assumption.
Qed.

Lemma split_from_word_nonempty c word s : split_from (c :: word) s ≠ [].
Proof.
  revert c word. induction s as [|a s IH]; intros c word; simpl; [done|].
  destruct (isspace a); [done|apply IH].
Qed.

Lemma split_nil_blank s : split_from [] s = [] → blank s.
Proof.
  induction s as [|c s IH]; [constructor|]. simpl.
  destruct (isspace c) eqn:Hc.
  - intros Hs. constructor; auto.
  - intros Hs. by apply split_from_word_nonempty in Hs.
Qed.

Lemma split_blank s : blank s → split_from [] s = [].
Proof.
  induction 1 as [|c s Hc _ IH]; [reflexivity|]. simpl. rewrite Hc. exact IH.
Qed.

(** Joining the words of a string with single spaces strips the string
    and collapses each of its whitespace runs: the general step, with a
    word being read. *)
Lemma join_split_from word s :
  solid word →
  join [space] (split_from word s)
  = Spec.collapse_whitespace (strip (rev word ++ s)).
Proof.
  revert word. induction s as [|c s IH]; intros word Hword.
  - rewrite app_nil_r, strip_solid by (apply List.Forall_rev, Hword).
    rewrite collapse_solid by (apply List.Forall_rev, Hword).
    destruct word; reflexivity.
  - cbn [split_from]. destruct (isspace c) eqn:Hc.
    + destruct word as [|a word].
      * rewrite IH by constructor. simpl. symmetry.
        f_equal. apply strip_blank_cons, Hc.
      * set (w := rev (a :: word)).
        assert (Hw : solid w) by (apply List.Forall_rev, Hword).
        assert (Hne : w ≠ []).
        { unfold w. simpl. intros Heq. by apply app_eq_nil in Heq as [_ ?]. }
        unfold strip. rewrite rstrip_solid_app by exact Hw.
        assert (Hl : ∀ x, lstrip (w ++ x) = w ++ x).
        { intros x. destruct Hw as [|b w' Hb _]; [done|].
          simpl. rewrite Hb. reflexivity. }
        rewrite Hl, collapse_solid_app by exact Hw.
        specialize (IH [] ltac:(constructor)). simpl in IH.
        destruct (split_from [] s) as [|w1 ws] eqn:Hs.
        -- apply split_nil_blank in Hs.
           simpl. rewrite rstrip_blank by exact Hs. rewrite Hc.
           simpl. by rewrite app_nil_r.
        -- assert (Hr : rstrip s ≠ []).
           { intros Hr. apply rstrip_nil_blank, split_blank in Hr. congruence. }
           assert (Hlr : lstrip (rstrip s) ≠ []).
           { intros Hlr. apply Hr, rstrip_blank_nil, lstrip_nil_blank, Hlr. }
           change (join [space] (w :: w1 :: ws))
             with (w ++ [space] ++ join [space] (w1 :: ws)).
           rewrite IH. f_equal. unfold strip.
           cbn [rstrip]. destruct (rstrip s) as [|b r] eqn:Hrs; [done|].
           rewrite collapse_blank_cons by done. reflexivity.
    + rewrite IH by (constructor; assumption).
      simpl. rewrite <- app_assoc. reflexivity.
Qed.

Lemma join_split s :
  join [space] (split s) = Spec.collapse_whitespace (strip s).
Proof. unfold split. rewrite join_split_from by constructor. reflexivity. Qed.

Lemma collapse_no_run s :
  Spec.no_whitespace_run (Spec.collapse_whitespace s) = true.
Proof.
  induction s as [|c s IH]; [reflexivity|].
  rewrite collapse_cons.
  destruct (isspace c) eqn:Hc.
  - destruct s as [|c' s]; [reflexivity|].
    destruct (isspace c') eqn:Hc'; [exact IH|].
    revert IH. rewrite collapse_cons, Hc'. intros IH.
    cbn [Spec.no_whitespace_run] in *. rewrite Hc', andb_false_r.
    rewrite Hc' in IH. exact IH.
  - cbn [Spec.no_whitespace_run]. rewrite Hc, IH.
    destruct (Spec.collapse_whitespace s); reflexivity.
Qed.

Lemma take_no_run n s :
  Spec.no_whitespace_run s = true → Spec.no_whitespace_run (take n s) = true.
Proof.
  revert n. induction s as [|c s IH]; intros [|n]; try reflexivity.
  cbn [take Spec.no_whitespace_run].
  intros [Hhd Htl]%andb_prop. rewrite (IH n Htl), andb_true_r.
  destruct s as [|c' s]; [by destruct n|].
  destruct n; [reflexivity|exact Hhd].
Qed.

(** C5, as the code has it.  The snippet is the text with its leading and
    trailing whitespace removed and every remaining whitespace run
    collapsed to a single space, then truncated to 191 characters (the
    collapsing comes first); it is at most 191 characters long and has no
    two adjacent whitespace characters. *)
Theorem snippet_strips_collapses_then_truncates (text : list A) :
  Message.calculate_plaintext_snippet text
  = slice_to (Spec.collapse_whitespace (strip text)) Message.SNIPPET_LENGTH
  ∧ length (Message.calculate_plaintext_snippet text) ≤ 191
  ∧ Spec.no_whitespace_run (Message.calculate_plaintext_snippet text) = true.
Proof.
  unfold Message.calculate_plaintext_snippet, Message.SNIPPET_LENGTH.
  rewrite join_split. change 191%Z with (Z.of_nat 191).
  split; [reflexivity|]. split; [apply slice_to_length|].
  rewrite slice_to_nat. apply take_no_run, collapse_no_run.
Qed.

End Whitespace.

(** C5, as stated, fails on a text with leading whitespace: the words of
    " a" joined give "a", whereas collapsing its whitespace runs gives
    " a". *)
Lemma snippet_is_not_plain_collapse :
  Message.calculate_plaintext_snippet (ulit " a") = ulit "a"
  ∧ slice_to (Spec.collapse_whitespace (ulit " a")) Message.SNIPPET_LENGTH
    = ulit " a"
  ∧ Message.calculate_plaintext_snippet (ulit " a")
    ≠ slice_to (Spec.collapse_whitespace (ulit " a")) Message.SNIPPET_LENGTH.
Proof. vm_compute. repeat split; discriminate. Qed.

(** ** The error-recovery marker *)

(** What [_mark_error] does to each attribute: the flag is raised, the
    size is reset, the three required attributes are filled where they are
    still unset, and nothing else changes. *)
Lemma mark_error_effect (E : Env) (self : Message.t) :
  let marked := Message._mark_error E self in
  Message.decode_error marked = true
  ∧ Message.size marked = Some 0
  ∧ Message.received_date marked
    = Some (default (utcnow E) (Message.received_date self))
  ∧ Message.sanitized_body marked
    = Some (default [] (Message.sanitized_body self))
  ∧ Message.snippet marked = Some (default [] (Message.snippet self))
  ∧ Message.full_body marked = Message.full_body self
  ∧ Message.namespace_id marked = Message.namespace_id self
  ∧ Message.data_sha256 marked = Message.data_sha256 self
  ∧ Message.subject marked = Message.subject self
  ∧ Message.from_addr marked = Message.from_addr self
  ∧ Message.sender_addr marked = Message.sender_addr self
  ∧ Message.reply_to marked = Message.reply_to self
  ∧ Message.to_addr marked = Message.to_addr self
  ∧ Message.cc_addr marked = Message.cc_addr self
  ∧ Message.bcc_addr marked = Message.bcc_addr self
  ∧ Message.in_reply_to marked = Message.in_reply_to self
  ∧ Message.message_id_header marked = Message.message_id_header self
  ∧ Message.inbox_uid marked = Message.inbox_uid self
  ∧ Message.references marked = Message.references self
  ∧ Message.parts marked = Message.parts self.
Proof.
  unfold Message._mark_error.
  destruct self as [? ? ? ? ? ? ? ? ? ? ? ? rd ? ? ? ? ? sb sn].
  destruct rd, sb, sn; cbn; repeat split.
Qed.

(** Marking twice is marking once. *)
Lemma mark_error_idempotent (E : Env) (self : Message.t) :
  Message._mark_error E (Message._mark_error E self)
  = Message._mark_error E self.
Proof.
  unfold Message._mark_error.
  destruct self as [? ? ? ? ? ? ? ? ? ? ? ? rd ? ? ? ? ? sb sn].
  destruct rd, sb, sn; vm_compute; reflexivity.
Qed.

(** C2.  The marker resets [size] to 0 also when the size was already
    parsed: the size of a message of 1234 bytes is lost. *)
Theorem mark_error_overwrites_parsed_size (E : Env) :
  Message.size (Message.set_size (Some 1234) Message.new) = Some 1234
  ∧ Message.size
      (Message._mark_error E (Message.set_size (Some 1234) Message.new))
    = Some 0.
Proof. split; reflexivity. Qed.

(** ** Filename resolution in [_parse_mimepart] *)

(** A part with an unknown disposition leaves no Part behind, and marks
    the message. *)
Lemma parse_mimepart_unknown_disposition
    (E : Env) (mimepart : MimePart.t) (mid : Z) (index : nat)
    (namespace_id : Z) (self : Message.t) :
  Message.unknown_disposition (MimePart.content_disposition mimepart).1
  = true →
  Message._parse_mimepart E mimepart mid index namespace_id self
  = (Message._mark_error E self, Ok tt).
Proof.
  unfold Message._parse_mimepart.
  destruct (MimePart.content_disposition mimepart) as [disposition params].
  simpl. intros ->. reflexivity.
Qed.

(** The Part a kept leaf leaves behind: it is appended to the parts, it
    carries the given walk index, and it is there whether or not the body
    could be materialised. *)
Lemma parse_mimepart_kept
    (E : Env) (mimepart : MimePart.t) (mid : Z) (index : nat)
    (namespace_id : Z) (self : Message.t) :
  Message.unknown_disposition (MimePart.content_disposition mimepart).1
  = false →
  ∃ part r,
    Message._parse_mimepart E mimepart mid index namespace_id self
    = (Message.add_part part self, r)
    ∧ Part.walk_index part = Some index
    ∧ Block.content_type (Part.block part)
      = Some (ContentType.value (MimePart.content_type mimepart))
    ∧ Block.filename (Part.block part)
      = _trim_filename
          (if bool_decide ((MimePart.content_disposition mimepart).1
                           = Some (lit "attachment"))
           then dict_get (lit "filename")
                  (MimePart.content_disposition mimepart).2
           else dict_get (lit "name")
                  (ContentType.params (MimePart.content_type mimepart)))
          mid MAX_FILENAME_LEN
    ∧ match Message.data_to_write E mimepart
              (ContentType.value (MimePart.content_type mimepart)) with
      | Ok data => r = Ok tt ∧ Block.data (Part.block part) = Some data
      | Raise e => r = Raise e ∧ Block.data (Part.block part) = None
      end.
Proof.
  unfold Message._parse_mimepart.
  destruct (MimePart.content_disposition mimepart) as [disposition params].
  simpl. intros ->.
  destruct (Message.data_to_write E mimepart _) as [data|e];
    (eexists; eexists; split; [reflexivity|]);
    (destruct disposition as [d|]; [|by repeat split]);
    (case_bool_decide as Hd;
     [subst d; rewrite bool_decide_eq_true_2 by reflexivity
     |rewrite bool_decide_eq_false_2 by congruence]);
    by repeat split.
Qed.

(** C8.  The filename of the Block of a leaf comes from the [filename]
    parameter of the Content-Disposition when the disposition is
    [attachment], also when that parameter is absent, and from the [name]
    parameter of the content type otherwise.  A chosen name of more than
    64 characters is stored as its first 56 characters followed by its
    last 8, a shorter one as it is, and a Block whose chosen parameter is
    absent has no filename. *)
Theorem parse_mimepart_filename
    (E : Env) (mimepart : MimePart.t) (mid : Z) (index : nat)
    (namespace_id : Z) (self : Message.t) :
  Message.unknown_disposition (MimePart.content_disposition mimepart).1
  = false →
  ∃ part,
    Message.parts
      (Message._parse_mimepart E mimepart mid index namespace_id self).1
    = Message.parts self ++ [part]
    ∧ match (if bool_decide ((MimePart.content_disposition mimepart).1
                             = Some (lit "attachment"))
             then dict_get (lit "filename")
                    (MimePart.content_disposition mimepart).2
             else dict_get (lit "name")
                    (ContentType.params (MimePart.content_type mimepart)))
      with
      | Some name =>
          ∃ filename,
            Block.filename (Part.block part) = Some filename
            ∧ filename
              = (if 64 <? length name
                 then take 56 name ++ drop (length name - 8) name
                 else name)
            ∧ length filename = length name `min` 64
      | None => Block.filename (Part.block part) = None
      end.
Proof.
  intros Hknown.
  destruct (parse_mimepart_kept E mimepart mid index namespace_id self Hknown)
    as (part & r & -> & _ & _ & Hname & _).
  exists part. split; [reflexivity|]. rewrite Hname.
  destruct (if bool_decide _ then _ else _) as [name|]; [|reflexivity].
  destruct (Nat.ltb_spec 64 (length name)) as [Hlong|Hshort].
  - rewrite _trim_filename_long by exact Hlong.
    eexists. split; [reflexivity|]. split; [reflexivity|].
    rewrite length_app, length_take, length_drop. lia.
  - rewrite _trim_filename_short by exact Hshort.
    eexists. split; [reflexivity|]. split; [reflexivity|]. lia.
Qed.

Lemma parse_mimepart_filename_witness :
  Message.unknown_disposition (MimePart.content_disposition Demo.attachment).1
  = false
  ∧ ∃ part,
      Message.parts
        (Message._parse_mimepart
           (Demo.env (λ _, Ok Demo.single) Demo.never_too_long Demo.writable)
           Demo.attachment 5 1 7 Message.new).1
      = [part]
      ∧ Block.filename (Part.block part)
        = Some (ulit "a-very-long-attachment-name-that-really-exceeds-the-limi.pdf....").
Proof.
  split; [reflexivity|].
  destruct (parse_mimepart_filename
              (Demo.env (λ _, Ok Demo.single) Demo.never_too_long
                 Demo.writable)
              Demo.attachment 5 1 7 Message.new eq_refl)
    as (part & Hparts & filename & Hfilename & Hvalue & _).
  exists part. split; [exact Hparts|].
  rewrite Hfilename, Hvalue. reflexivity.
Defined.

(** C8, as stated, fails on an attachment that has no [filename]
    parameter.  The part application/pdf; name=short.pdf with the
    disposition attachment and no parameter gets a Block without filename:
    the [name] parameter is not fallen back to. *)
Lemma attachment_without_filename_has_no_name :
  let E := Demo.env (λ _, Ok Demo.single) Demo.never_too_long Demo.writable in
  let self := (Message._parse_mimepart E Samples.named_attachment 5 1 7
                 Message.new).1 in
  MimePart.content_disposition Samples.named_attachment
  = (Some (lit "attachment"), [])
  ∧ dict_get (lit "name")
      (ContentType.params (MimePart.content_type Samples.named_attachment))
    = Some (ulit "short.pdf")
  ∧ Spec.preferred_filename Samples.named_attachment
    = Some (ulit "short.pdf")
  ∧ ∃ part,
      Message.parts self = [part]
      ∧ Block.filename (Part.block part) = None
      ∧ Block.filename (Part.block part)
        ≠ _trim_filename (Spec.preferred_filename Samples.named_attachment)
            5 MAX_FILENAME_LEN.
Proof.
  intros E self. split; [reflexivity|]. split; [reflexivity|].
  split; [reflexivity|].
  eexists. split; [reflexivity|]. split; [reflexivity|]. discriminate.
Qed.

(** ** Participants *)

Section Participants.
Implicit Types (d : gmap unicode (gset unicode)) (a ph raw : unicode).

Lemma dedup_step d raw a a' ph :
  (∃ S, <[a := default ∅ (d !! a) ∪ {[strip raw]}]> d !! a' = Some S
        ∧ ph ∈ S)
  ↔ (∃ S, d !! a' = Some S ∧ ph ∈ S) ∨ (a' = a ∧ ph = strip raw).
Proof.
  destruct (decide (a = a')) as [<-|Hne].
  - rewrite lookup_insert_eq. split.
    + intros (S & [= <-] & [Hin| ->%elem_of_singleton]%elem_of_union);
        [|by right].
      left. destruct (d !! a) as [S0|]; [by exists S0|].
      by apply not_elem_of_empty in Hin.
    + intros [(S & HS & Hin)|[_ ->]]; eexists; (split; [reflexivity|]).
      * rewrite HS. apply elem_of_union. by left.
      * apply elem_of_union. right. by apply elem_of_singleton.
  - rewrite lookup_insert_ne by done. split; [by left|].
    intros [?|[? _]]; [done|congruence].
Qed.

Lemma dedup_fold (l : list (unicode * unicode)) d a ph :
  (∃ S, foldl (λ d '(phrase, address),
                 <[address := default ∅ (d !! address) ∪ {[strip phrase]}]> d)
              d l !! a = Some S ∧ ph ∈ S)
  ↔ (∃ S, d !! a = Some S ∧ ph ∈ S)
    ∨ (∃ raw, (raw, a) ∈ l ∧ strip raw = ph).
Proof.
  revert d. induction l as [|[raw a'] l IH]; intros d.
  - simpl. split; [by left|]. intros [?|(raw & Hin & _)]; [done|].
    by apply elem_of_nil in Hin.
  - cbn [foldl]. rewrite IH, dedup_step. split.
    + intros [[?|[-> ->]]|(raw' & Hin & Hs)].
      * by left.
      * right. exists raw. split; [left|reflexivity].
      * right. exists raw'. split; [by right|done].
    + intros [?|(raw' & [[= -> ->]|Hin]%elem_of_cons & Hs)].
      * by left; left.
      * left; right. by split.
      * right. by exists raw'.
Qed.

(** The phrases recorded for an address are the stripped phrases it occurs
    with in the address fields. *)
Lemma deduped_participants_spec (self : Message.t) a ph :
  (∃ S, Message.deduped_participants self !! a = Some S ∧ ph ∈ S)
  ↔ ∃ raw, (raw, a) ∈ Message.chain self ∧ strip raw = ph.
Proof.
  unfold Message.deduped_participants. rewrite dedup_fold. split.
  - intros [(S & HS & _)|?]; [|done]. by rewrite lookup_empty in HS.
  - by right.
Qed.

Lemma participants_elem_of (self : Message.t) a ph :
  (ph, a) ∈ Message.participants self
  ↔ ∃ S, Message.deduped_participants self !! a = Some S ∧ ph ∈ S
         ∧ (ph ≠ [] ∨ size S = 1).
Proof.
  unfold Message.participants. rewrite list_elem_of_bind. split.
  - intros ([a' S] & Hin & HS%elem_of_map_to_list).
    apply list_elem_of_bind in Hin as (ph' & Hin & Hph%elem_of_elements).
    destruct (negb _ || _) eqn:Hkeep; [|by apply elem_of_nil in Hin].
    apply list_elem_of_singleton in Hin as [= -> ->].
    exists S. split_and!; [done..|].
    apply orb_prop in Hkeep as [Hne%negb_true_iff%bool_decide_eq_false
                               |Hone%bool_decide_eq_true]; auto.
  - intros (S & HS & Hph & Hkeep). exists (a, S).
    split; [|by apply elem_of_map_to_list].
    apply list_elem_of_bind. exists ph.
    split; [|by apply elem_of_elements].
    destruct (negb _ || _) eqn:Hdrop; [by apply list_elem_of_singleton|].
    apply orb_false_elim in Hdrop
      as [Hnil%negb_false_iff%bool_decide_eq_true Hmany%bool_decide_eq_false].
    by destruct Hkeep.
Qed.

(** C9, as the code has it.  With every phrase stripped of its surrounding
    whitespace first: a pair (phrase, address) is returned exactly when the
    address occurs with that phrase and the phrase is non-empty or is the
    only phrase of the address.  So the empty phrase is dropped whenever
    the address has a non-empty stripped phrase, and is returned only when
    every phrase of the address strips to the empty one; an address with
    the phrases "" and "Alice" yields only ("Alice", address), and one with
    "" alone yields ("", address). *)
Theorem participants_dedup (self : Message.t) a ph :
  ((ph, a) ∈ Message.participants self
   ↔ (∃ raw, (raw, a) ∈ Message.chain self ∧ strip raw = ph)
     ∧ (ph ≠ [] ∨ ∀ raw, (raw, a) ∈ Message.chain self → strip raw = []))
  ∧ Message.participants
      (Message.set_from_addr
         (Some [(ulit "", ulit "alice@example.com");
                (ulit "Alice", ulit "alice@example.com")]) Message.new)
    = [(ulit "Alice", ulit "alice@example.com")]
  ∧ Message.participants
      (Message.set_to_addr
         (Some [(ulit "", ulit "alice@example.com")]) Message.new)
    = [(ulit "", ulit "alice@example.com")].
Proof.
  split; [|split; vm_compute; reflexivity].
  rewrite participants_elem_of. split.
  - intros (S & HS & Hph & Hkeep).
    split; [apply deduped_participants_spec; eauto|].
    destruct Hkeep as [?|Hone]; [by left|].
    destruct (decide (ph = [])) as [->|?]; [right|by left].
    intros raw Hraw.
    assert (strip raw ∈ S) as Hin.
    { destruct (proj2 (deduped_participants_spec self a (strip raw)))
        as (S' & HS' & Hin); [eauto|]. congruence. }
    apply size_1_elem_of in Hone as [x Hx].
    rewrite Hx in Hin, Hph.
    apply elem_of_singleton in Hin, Hph. congruence.
  - intros [Hocc Hkeep].
    apply deduped_participants_spec in Hocc as (S & HS & Hph).
    exists S. split_and!; [done..|].
    destruct Hkeep as [?|Hall]; [by left|].
    destruct (decide (ph = [])) as [->|?]; [right|by left].
    assert (S ≡ {[ [] ]}) as ->; [|apply size_singleton].
    apply set_equiv. intros x. rewrite elem_of_singleton. split.
    + intros Hx.
      destruct (proj1 (deduped_participants_spec self a x))
        as (raw & Hraw & <-); eauto.
    + by intros ->.
Qed.

End Participants.

(** C9, as stated, fails when a phrase is made of whitespace: the address
    below occurs with the non-empty phrase " " and with the empty phrase,
    and the pair with the empty phrase is returned all the same. *)
Lemma participants_blank_phrase :
  Message.participants
    (Message.set_from_addr
       (Some [(ulit " ", ulit "alice@example.com");
              (ulit "", ulit "alice@example.com")]) Message.new)
  = [(ulit "", ulit "alice@example.com")].
Proof. vm_compute. reflexivity. Qed.

(** ** Body selection *)

Section BodySelection.
Context (E : Env).
Implicit Types (self : Message.t) (parts : list Part.t).

(** The loops of [body] stop at the first part of the content type. *)
Lemma first_decoded_first (content_type : str) parts :
  Message.first_decoded E content_type parts
  = Spec.stripped_text E content_type parts.
Proof.
  unfold Spec.stripped_text, Spec.first_of_type.
  induction parts as [|part parts IH]; [reflexivity|].
  cbn [Message.first_decoded list_find].
  case_bool_decide as Hct.
  - rewrite decide_True by exact Hct. reflexivity.
  - rewrite decide_False by exact Hct. rewrite IH.
    destruct (list_find _ parts) as [[i p]|]; reflexivity.
Qed.

(** The three outcomes of [calculate_sanitized_body], by the texts
    [body] returns. *)
Lemma calculate_sanitized_body_cases self (html plain : option unicode) :
  Message.parts self ≠ [] →
  Spec.stripped_text E (lit "text/html") (Message.parts self) = Ok html →
  Spec.stripped_text E (lit "text/plain") (Message.parts self) = Ok plain →
  Message.calculate_sanitized_body E self
  = match html, plain with
    | Some ((_ :: _) as html_part), _ =>
        if bool_decide (13%N ∈ html_part)
        then (self, Raise AssertionError)
        else match strip_tags E html_part with
             | Ok text =>
                 (Message.set_sanitized_body (Some html_part)
                    (Message.set_snippet
                       (Some (Message.calculate_plaintext_snippet text))
                       self), Ok tt)
             | Raise e => (self, Raise e)
             end
    | _, Some ((_ :: _) as plain_part) =>
        match plaintext2html E plain_part false with
        | Ok text =>
            (Message.set_sanitized_body (Some text)
               (Message.set_snippet
                  (Some (Message.calculate_plaintext_snippet plain_part))
                  self), Ok tt)
        | Raise e =>
            (Message.set_snippet
               (Some (Message.calculate_plaintext_snippet plain_part))
               self, Raise e)
        end
    | _, _ =>
        (Message.set_snippet (Some [])
           (Message.set_sanitized_body (Some []) self), Ok tt)
    end.
Proof.
  intros Hparts Hhtml Hplain.
  unfold Message.calculate_sanitized_body, Message.body.
  destruct (Message.parts self) as [|part parts] eqn:Hps; [done|].
  rewrite !first_decoded_first, Hhtml, Hplain. cbn [mbind result_bind].
  destruct html as [[|c html]|].
  - destruct plain as [[|c' plain]|]; try reflexivity;
      unfold mbind, Eff_bind, modify, lift;
      destruct (plaintext2html E _ false); reflexivity.
  - case_bool_decide; [reflexivity|].
    unfold Message.calculate_html_snippet, mbind, Eff_bind, modify, lift.
    cbn [result_bind].
    destruct (strip_tags E _); reflexivity.
  - destruct plain as [[|c' plain]|]; try reflexivity;
      unfold mbind, Eff_bind, modify, lift;
      destruct (plaintext2html E _ false); reflexivity.
Qed.

(** C6, as the code has it.  Let [html] be the decoded and stripped text of
    the first text/html part and [plain] that of the first text/plain part
    (in the order of the parts).  If [html] is non-empty, it is stored
    unchanged as [sanitized_body] and the snippet is derived from it with
    its tags stripped.  Otherwise, if [plain] is non-empty, its conversion
    to HTML is stored and the snippet is derived from [plain] itself.
    Otherwise both are the empty string. *)
Theorem body_selection self (html plain : option unicode) :
  Message.parts self ≠ [] →
  Spec.stripped_text E (lit "text/html") (Message.parts self) = Ok html →
  Spec.stripped_text E (lit "text/plain") (Message.parts self) = Ok plain →
  match html, plain with
  | Some ((_ :: _) as html_part), _ =>
      ∀ text, 13%N ∉ html_part → strip_tags E html_part = Ok text →
        Message.calculate_sanitized_body E self
        = (Message.set_sanitized_body (Some html_part)
             (Message.set_snippet
                (Some (Message.calculate_plaintext_snippet text)) self),
           Ok tt)
  | _, Some ((_ :: _) as plain_part) =>
      ∀ text, plaintext2html E plain_part false = Ok text →
        Message.calculate_sanitized_body E self
        = (Message.set_sanitized_body (Some text)
             (Message.set_snippet
                (Some (Message.calculate_plaintext_snippet plain_part))
                self),
           Ok tt)
  | _, _ =>
      Message.calculate_sanitized_body E self
      = (Message.set_snippet (Some [])
           (Message.set_sanitized_body (Some []) self), Ok tt)
  end.
Proof.
  intros Hparts Hhtml Hplain.
  rewrite (calculate_sanitized_body_cases self html plain) by assumption.
  destruct html as [[|c html]|].
  - destruct plain as [[|c' plain]|]; try reflexivity.
    intros text ->. reflexivity.
  - intros text Hcr ->. rewrite bool_decide_eq_false_2 by exact Hcr.
    reflexivity.
  - destruct plain as [[|c' plain]|]; try reflexivity.
    intros text ->. reflexivity.
Qed.

(** C10.  When the data of the first text/html part (the one body
    selection looks at) decodes to a text that is empty or made of
    whitespace only, that text stripped is the empty string, which is
    false, and the HTML part counts for nothing: the first text/plain part
    is used if its text is non-empty, and both outputs are empty
    otherwise. *)
Theorem blank_html_falls_through
    self (html_part : Part.t) (data : unicode) (plain : option unicode) :
  Spec.first_of_type (lit "text/html") (Message.parts self) = Some html_part →
  decode_utf8 E (Block.data (Part.block html_part)) = Ok data →
  Forall (λ c, isspace c = true) data →
  Spec.stripped_text E (lit "text/plain") (Message.parts self) = Ok plain →
  Spec.stripped_text E (lit "text/html") (Message.parts self) = Ok (Some [])
  ∧ truthy (Some (strip data)) = false
  ∧ match plain with
  | Some ((_ :: _) as plain_part) =>
      ∀ text, plaintext2html E plain_part false = Ok text →
        Message.calculate_sanitized_body E self
        = (Message.set_sanitized_body (Some text)
             (Message.set_snippet
                (Some (Message.calculate_plaintext_snippet plain_part))
                self),
           Ok tt)
  | _ =>
      Message.calculate_sanitized_body E self
      = (Message.set_snippet (Some [])
           (Message.set_sanitized_body (Some []) self), Ok tt)
  end.
Proof.
  intros Hfirst Hdata Hblank Hplain.
  assert (Hparts : Message.parts self ≠ []).
  { intros Hnil. rewrite Hnil in Hfirst. discriminate. }
  assert (Hhtml : Spec.stripped_text E (lit "text/html") (Message.parts self)
                  = Ok (Some [])).
  { unfold Spec.stripped_text. rewrite Hfirst, Hdata. cbn [mbind result_bind].
    do 2 f_equal. by apply strip_nil_iff. }
  split; [exact Hhtml|].
  split; [by rewrite (proj2 (strip_nil_iff data) Hblank)|].
  rewrite (calculate_sanitized_body_cases self (Some []) plain) by assumption.
  destruct plain as [[|c plain]|]; try reflexivity.
  intros text ->. reflexivity.
Qed.

End BodySelection.

Lemma body_selection_witness :
  Message.parts Demo.blank_html_message ≠ []
  ∧ Spec.stripped_text
      (Demo.env (λ _, Ok Demo.blank_html) Demo.never_too_long Demo.writable)
      (lit "text/html") (Message.parts Demo.blank_html_message)
    = Ok (Some [])
  ∧ Spec.stripped_text
      (Demo.env (λ _, Ok Demo.blank_html) Demo.never_too_long Demo.writable)
      (lit "text/plain") (Message.parts Demo.blank_html_message)
    = Ok (Some (ulit "Hello"))
  ∧ Message.calculate_sanitized_body
      (Demo.env (λ _, Ok Demo.blank_html) Demo.never_too_long Demo.writable)
      Demo.blank_html_message
    = (Message.set_sanitized_body (Some (ulit "<p>Hello</p>"))
         (Message.set_snippet (Some (ulit "Hello")) Demo.blank_html_message),
       Ok tt).
Proof.
  assert (H1 : Message.parts Demo.blank_html_message ≠ []) by discriminate.
  split; [exact H1|]. split; [reflexivity|]. split; [reflexivity|].
  apply (body_selection
           (Demo.env (λ _, Ok Demo.blank_html) Demo.never_too_long
              Demo.writable)
           Demo.blank_html_message (Some []) (Some (ulit "Hello")) H1
           eq_refl eq_refl (ulit "<p>Hello</p>") eq_refl).
Defined.

Lemma blank_html_falls_through_witness :
  Spec.first_of_type (lit "text/html") (Message.parts Demo.blank_html_message)
  = Some (Demo.stored 1 "text/html" "  ")
  ∧ decode_utf8
      (Demo.env (λ _, Ok Demo.blank_html) Demo.never_too_long Demo.writable)
      (Block.data (Part.block (Demo.stored 1 "text/html" "  ")))
    = Ok (ulit "  ")
  ∧ Forall (λ c, isspace c = true) (ulit "  ")
  ∧ Spec.stripped_text
      (Demo.env (λ _, Ok Demo.blank_html) Demo.never_too_long Demo.writable)
      (lit "text/plain") (Message.parts Demo.blank_html_message)
    = Ok (Some (ulit "Hello"))
  ∧ Message.calculate_sanitized_body
      (Demo.env (λ _, Ok Demo.blank_html) Demo.never_too_long Demo.writable)
      Demo.blank_html_message
    = (Message.set_sanitized_body (Some (ulit "<p>Hello</p>"))
         (Message.set_snippet (Some (ulit "Hello")) Demo.blank_html_message),
       Ok tt).
Proof.
  assert (Hblank : Forall (λ c, isspace c = true) (ulit "  "))
    by (repeat constructor).
  split; [reflexivity|]. split; [reflexivity|]. split; [exact Hblank|].
  split; [reflexivity|].
  destruct (blank_html_falls_through
              (Demo.env (λ _, Ok Demo.blank_html) Demo.never_too_long
                 Demo.writable)
              Demo.blank_html_message (Demo.stored 1 "text/html" "  ")
              (ulit "  ") (Some (ulit "Hello")) eq_refl eq_refl Hblank
              eq_refl) as (_ & _ & Hplain).
  exact (Hplain (ulit "<p>Hello</p>") eq_refl).
Defined.

(** ** Effects *)

Section Effects.
Context {S : Type}.

Lemma wp_ret {A} (a : A) (Q : A → S → Prop) R (s : S) :
  Q a s → wp (mret a) Q R s.
Proof. done. Qed.

Lemma wp_bind {A B} (c : Eff S A) (f : A → Eff S B) Q R (s : S) :
  wp c (λ a s', wp (f a) Q R s') R s → wp (c ≫= f) Q R s.
Proof.
  unfold wp, mbind, Eff_bind. destruct (c s) as [s' [a|e]]; done.
Qed.

Lemma wp_modify (g : S → S) (Q : unit → S → Prop) R (s : S) :
  Q tt (g s) → wp (modify g) Q R s.
Proof. done. Qed.

Lemma wp_lift {A} (r : result A) (Q : A → S → Prop) R (s : S) :
  match r with Ok a => Q a s | Raise e => R e s end → wp (lift r) Q R s.
Proof. done. Qed.

Lemma wp_mono {A} (c : Eff S A) (Q Q' : A → S → Prop) (R R' : exn → S → Prop)
    (s : S) :
  wp c Q R s →
  (∀ a s', Q a s' → Q' a s') → (∀ e s', R e s' → R' e s') →
  wp c Q' R' s.
Proof.
  unfold wp. destruct (c s) as [s' [a|e]]; auto.
Qed.

Lemma wp_run {A} (c : Eff S A) Q R (s s' : S) (r : result A) :
  c s = (s', r) →
  match r with Ok a => Q a s' | Raise e => R e s' end →
  wp c Q R s.
Proof. unfold wp. intros ->. done. Qed.

Lemma wp_ok {A} (c : Eff S A) Q R (s s' : S) (a : A) :
  wp c Q R s → c s = (s', Ok a) → Q a s'.
Proof. unfold wp. intros Hwp Hrun. by rewrite Hrun in Hwp. Qed.

Lemma wp_raise {A} (c : Eff S A) Q R (s s' : S) e :
  wp c Q R s → c s = (s', Raise e) → R e s'.
Proof. unfold wp. intros Hwp Hrun. by rewrite Hrun in Hwp. Qed.

End Effects.

(** One step through a computation: a bind, an assignment, or a call to a
    collaborator, whose two outcomes become two goals. *)
Ltac wp_step :=
  cbv beta iota;
  lazymatch goal with
  | |- wp (mbind _ _) _ _ _ => apply wp_bind
  | |- wp (modify _) _ _ _ => apply wp_modify
  | |- wp (mret _) _ _ _ => apply wp_ret
  | |- wp (lift ?r) _ _ _ =>
      apply wp_lift; let H := fresh "Hcall" in destruct r eqn:H
  end.

(** ** Walk indices *)

Section WalkIndices.
Context (E : Env).
Implicit Types (self : Message.t) (walk : list MimePart.t).

Lemma walk_indices_add_part part self :
  Spec.walk_indices (Message.add_part part self)
  = Spec.walk_indices self ++ [Part.walk_index part].
Proof. unfold Spec.walk_indices. cbn. by rewrite fmap_app. Qed.

Lemma mark_error_parts self :
  Message.parts (Message._mark_error E self) = Message.parts self.
Proof. apply (mark_error_effect E self). Qed.

Lemma calculate_sanitized_body_parts self self' r :
  Message.calculate_sanitized_body E self = (self', r) →
  Message.parts self' = Message.parts self.
Proof.
  unfold Message.calculate_sanitized_body.
  destruct (Message.body E self) as [[plain html]|e]; [|by intros [= <- _]].
  unfold mbind, Eff_bind, modify, lift, Message.calculate_html_snippet.
  destruct html as [[|c html]|], plain as [[|c' plain]|];
    repeat case_bool_decide;
    cbn [mbind result_bind];
    try destruct (strip_tags E _);
    try destruct (plaintext2html E _ false);
    by intros [= <- _].
Qed.

(** The loop gives the part it visits k-th the walk index [i + k], and
    keeps a Part for the kept ones only. *)
Lemma walk_parts_indices account_id namespace_id mid walk i self :
  wp (Message.walk_parts E account_id namespace_id mid i walk)
     (λ _ self', Spec.walk_indices self'
                 = Spec.walk_indices self
                   ++ (Some <$> Spec.kept_positions i walk))
     (λ _ _, True) self.
Proof.
  revert i self. induction walk as [|mimepart walk IH]; intros i self.
  - apply wp_ret. cbn. by rewrite app_nil_r.
  - cbn [Message.walk_parts Spec.kept_positions]. unfold Spec.kept.
    destruct (ContentType.is_multipart _); [apply IH|]. cbn [negb andb].
    apply wp_bind.
    destruct (Message.unknown_disposition _) eqn:Hdisp; cbn [negb].
    + eapply wp_run;
        [by apply parse_mimepart_unknown_disposition|].
      do 2 wp_step; [|done].
      eapply wp_mono; [apply IH| |done].
      intros ? self'. unfold Spec.walk_indices.
      by rewrite mark_error_parts.
    + destruct (parse_mimepart_kept E mimepart mid (S i) namespace_id self
                  Hdisp) as (part & r & Hrun & Hindex & _).
      eapply wp_run; [exact Hrun|]. destruct r as [[]|e]; [|done].
      do 2 wp_step; [|done].
      eapply wp_mono; [apply IH| |done].
      intros ? self' ->.
      rewrite walk_indices_add_part, Hindex, <- app_assoc. reflexivity.
Qed.

Lemma kept_positions_sorted walk i :
  StronglySorted lt (Spec.kept_positions i walk)
  ∧ Forall (λ k, i < k) (Spec.kept_positions i walk).
Proof.
  revert i. induction walk as [|mimepart walk IH]; intros i.
  - split; constructor.
  - destruct (IH (S i)) as [Hsorted Hbound].
    assert (Forall (λ k, i < k) (Spec.kept_positions (S i) walk))
      by (eapply Forall_impl; [exact Hbound|]; cbn; lia).
    cbn [Spec.kept_positions]. destruct (Spec.kept mimepart).
    + split; constructor; auto.
    + by split.
Qed.

Lemma kept_positions_all walk i :
  Forall (λ mimepart, Spec.kept mimepart = true) walk →
  Spec.kept_positions i walk = seq (S i) (length walk).
Proof.
  intros Hall. revert i.
  induction Hall as [|mimepart walk Hkept _ IH]; intros i; [reflexivity|].
  cbn [Spec.kept_positions length seq]. rewrite Hkept, IH. reflexivity.
Qed.

(** The try body, when it completes, leaves the headers Part with index 0
    followed by the Parts of the kept walked parts, each with its position
    in the walk. *)
Lemma ingest_walk_indices account namespace mid received_date body_string :
  wp (Message.ingest E account namespace mid received_date body_string)
     (λ _ self,
        ∃ parsed,
          mime_from_string E body_string = Ok parsed
          ∧ Spec.walk_indices self
            = Some <$> 0 :: Spec.kept_positions 0
                (Parsed.walk parsed
                   (ContentType.is_singlepart
                      (MimePart.content_type (Parsed.top parsed)))))
     (λ _ _, True) Message.new.
Proof.
  unfold Message.ingest. cbv zeta.
  repeat (wp_step; try done).
  destruct received_date as [date|]; repeat (wp_step; try done);
    (eapply wp_mono; [apply walk_parts_indices| |done]);
    intros ? self Hwalk; cbv beta; unfold wp;
    destruct (Message.calculate_sanitized_body E self) as [self' r] eqn:Hcalc;
    (destruct r; [|done]);
    (eexists; split; [reflexivity|]);
    unfold Spec.walk_indices in *;
    rewrite (calculate_sanitized_body_parts _ _ _ Hcalc), Hwalk;
    reflexivity.
Qed.

End WalkIndices.

(** ** The post-pass over the guarded fields *)

Section PostPass.
Context (E : Env) (account : Account.t) (mid : Z) (folder_name : pytext)
        (body_string : str).
Implicit Types (self msg : Message.t) (f : Message.field).

Lemma dump_succeeds_log :
  Spec.dump_succeeds E (Account.id account) folder_name mid body_string →
  _log_decode_error E (Account.id account) folder_name mid (Str body_string)
  = Ok tt.
Proof.
  intros (errfile & Hname & Hwrite). unfold _log_decode_error.
  rewrite Hname. exact Hwrite.
Qed.

(** A round that returns has guarded its field. *)
Lemma check_field_ok f self self' :
  Message.check_field E account mid folder_name body_string f self
  = (self', Ok tt) →
  self' = Spec.guard_field E self f.
Proof.
  unfold Message.check_field, Spec.guard_field.
  destruct (json_field_too_long E _); [|by intros [= <-]].
  unfold mbind, Eff_bind, lift, modify.
  destruct (_log_decode_error E _ _ _ _); [|discriminate].
  destruct (_get_errfilename E _ _ _); [|discriminate].
  by intros [= <-].
Qed.

(** A round returns when the dump can be written. *)
Lemma check_field_returns f self :
  Spec.dump_succeeds E (Account.id account) folder_name mid body_string →
  Message.check_field E account mid folder_name body_string f self
  = (Spec.guard_field E self f, Ok tt).
Proof.
  intros Hdump. unfold Message.check_field, Spec.guard_field.
  destruct (json_field_too_long E _); [|reflexivity].
  unfold mbind, Eff_bind, lift, modify.
  rewrite (dump_succeeds_log Hdump).
  destruct Hdump as (errfile & -> & _). reflexivity.
Qed.

Lemma check_fields_ok fields self self' :
  Message.check_fields E account mid folder_name body_string fields self
  = (self', Ok tt) →
  self' = foldl (Spec.guard_field E) self fields.
Proof.
  revert self. induction fields as [|f fields IH]; intros self.
  - by intros [= <-].
  - cbn [Message.check_fields foldl]. unfold mbind, Eff_bind.
    destruct (Message.check_field E _ _ _ _ f self) as [self1 [[]|e]] eqn:Hf;
      [|discriminate].
    apply check_field_ok in Hf as ->. apply IH.
Qed.

Lemma check_fields_returns fields self :
  Spec.dump_succeeds E (Account.id account) folder_name mid body_string →
  Message.check_fields E account mid folder_name body_string fields self
  = (foldl (Spec.guard_field E) self fields, Ok tt).
Proof.
  intros Hdump. revert self. induction fields as [|f fields IH]; intros self.
  - reflexivity.
  - cbn [Message.check_fields foldl]. unfold mbind, Eff_bind.
    rewrite (check_field_returns _ _ Hdump). apply IH.
Qed.

Lemma guard_field_parts self f :
  Message.parts (Spec.guard_field E self f) = Message.parts self.
Proof.
  unfold Spec.guard_field. destruct (json_field_too_long E _); [|done].
  rewrite (mark_error_parts E). by destruct f.
Qed.

Lemma guard_fields_parts fields self :
  Message.parts (foldl (Spec.guard_field E) self fields) = Message.parts self.
Proof.
  revert self. induction fields as [|f fields IH]; intros self; [done|].
  cbn [foldl]. by rewrite IH, guard_field_parts.
Qed.

Lemma keeps_parsed_refl msg : Spec.keeps_parsed msg msg.
Proof. unfold Spec.keeps_parsed. by repeat split. Qed.

Lemma keeps_parsed_trans msg m1 m2 :
  Spec.keeps_parsed msg m1 → Spec.keeps_parsed m1 m2 →
  Spec.keeps_parsed msg m2.
Proof.
  unfold Spec.keeps_parsed.
  intros (H1 & H2 & H3 & H4 & H5 & H6 & H7 & H8 & H9 & H10 & H11 & Hrd & Hsb
          & Hsn & Hsz & Hde)
         (-> & -> & -> & -> & -> & -> & -> & -> & -> & -> & -> & Hrd' & Hsb'
          & Hsn' & Hsz' & Hde').
  split_and!; try done.
  - intros Hset. rewrite <- (Hrd Hset). apply Hrd'. by rewrite (Hrd Hset).
  - intros Hset. rewrite <- (Hsb Hset). apply Hsb'. by rewrite (Hsb Hset).
  - intros Hset. rewrite <- (Hsn Hset). apply Hsn'. by rewrite (Hsn Hset).
  - auto.
  - auto.
Qed.

(** One round: the field is emptied and the message flagged when the
    field is too long, and nothing happens otherwise. *)
Lemma guard_field_effect self f :
  let m := Spec.guard_field E self f in
  Spec.keeps_parsed self m
  ∧ (∀ g, g ≠ f → Message.getattr m g = Message.getattr self g)
  ∧ (if json_field_too_long E (Message.getattr self f)
     then Message.getattr m f = JList [] ∧ Message.decode_error m = true
     else m = self).
Proof.
  unfold Spec.guard_field.
  destruct (json_field_too_long E _); cbv zeta;
    [|split; [apply keeps_parsed_refl|done]].
  destruct (mark_error_effect E (Message.clear f self))
    as (Hde & Hsz & Hrd & Hsb & Hsn & Hfb & Hns & Hsha & Hsubj & Hfrom
        & Hsender & Hreply & Hto & Hcc & Hbcc & Hirt & Hmid & Huid & Hrefs
        & Hparts).
  split; [|split].
  - unfold Spec.keeps_parsed.
    rewrite Hde, Hsz, Hrd, Hsb, Hsn, Hfb, Hns, Hsha, Hsubj, Hfrom, Hsender,
      Hreply, Hirt, Hmid, Huid, Hparts.
    destruct f; cbn; split_and!; try done; by intros [? ->].
  - intros g Hg. unfold Message.getattr.
    rewrite Hto, Hcc, Hbcc, Hrefs. by destruct f, g.
  - split; [|exact Hde]. unfold Message.getattr.
    rewrite Hto, Hcc, Hbcc, Hrefs. by destruct f.
Qed.

(** The post-pass over distinct fields. *)
Lemma guard_fields_effect fields msg :
  NoDup fields →
  let m := foldl (Spec.guard_field E) msg fields in
  Spec.keeps_parsed msg m
  ∧ (∀ f, f ∉ fields → Message.getattr m f = Message.getattr msg f)
  ∧ (∀ f, f ∈ fields →
       if json_field_too_long E (Message.getattr msg f)
       then Message.getattr m f = JList [] ∧ Message.decode_error m = true
       else Message.getattr m f = Message.getattr msg f).
Proof.
  intros Hnodup. revert msg.
  induction Hnodup as [|f fields Hfresh _ IH]; intros msg; cbv zeta.
  - split; [apply keeps_parsed_refl|]. split; [done|].
    by intros f ?%elem_of_nil.
  - cbn [foldl].
    destruct (guard_field_effect msg f) as (Hkeep & Hothers & Hfield).
    destruct (IH (Spec.guard_field E msg f)) as (Hkeep' & Hout & Hin).
    split; [by eapply keeps_parsed_trans|]. split.
    + intros g [Hne Hg]%not_elem_of_cons. by rewrite Hout, Hothers.
    + intros g [->|Hg]%elem_of_cons.
      * rewrite (Hout f Hfresh).
        destruct (json_field_too_long E (Message.getattr msg f));
          [|by rewrite Hfield].
        destruct Hfield as [Hempty Hflag]. split; [exact Hempty|].
        by apply Hkeep'.
      * specialize (Hin g Hg).
        rewrite (Hothers g) in Hin by (intros ->; done). exact Hin.
Qed.

Lemma guarded_fields_all f : f ∈ Message.guarded_fields.
Proof. destruct f; by apply (bool_decide_unpack _). Qed.

Lemma guarded_fields_nodup : NoDup Message.guarded_fields.
Proof. by apply (bool_decide_unpack _). Qed.

End PostPass.

(** ** The stages of [create_from_synced] *)

Section Stages.
Context (E : Env) (account : Account.t) (namespace : Namespace.t) (mid : Z)
        (folder_name : pytext) (received_date : option timestamp)
        (body_string : str).
Implicit Types (self msg m : Message.t).

Lemma create_from_synced_stages :
  Account.namespace account = Some namespace →
  Message.create_from_synced E (Some account) (Some mid) (Some folder_name)
    received_date (Some (Str body_string))
  = match Message.parse_stage E account namespace mid folder_name
            received_date body_string Message.new with
    | (msg, Ok _) =>
        match Message.check_fields E account mid folder_name body_string
                Message.guarded_fields msg with
        | (m, Ok _) => Ok m
        | (_, Raise e) => Raise e
        end
    | (_, Raise e) => Raise e
    end.
Proof.
  intros Hns. unfold Message.create_from_synced. rewrite Hns.
  unfold mbind, Eff_bind.
  destruct (Message.parse_stage _ _ _ _ _ _ _ _) as [msg [[]|e]];
    [|reflexivity].
  destruct (Message.check_fields _ _ _ _ _ _ _) as [m [[]|e]]; reflexivity.
Qed.

(** A try body that completes is the whole try statement. *)
Lemma parse_stage_ingested self :
  Message.ingest E account namespace mid received_date body_string
    Message.new = (self, Ok tt) →
  Message.parse_stage E account namespace mid folder_name received_date
    body_string Message.new = (self, Ok tt).
Proof. unfold Message.parse_stage, try_except. by intros ->. Qed.

(** The post-pass, for every message.  After the try statement has left
    the message [msg]: every one of
    the four guarded fields that serializes above the maximum is emptied in
    the returned message and the message is flagged, while the other
    guarded fields and the attributes populated earlier (subject, the
    other address fields, the identifiers, the parts, ...) keep their
    values; the message is returned whenever its diagnostic dump can be
    written. *)
Theorem oversize_fields_are_cleared msg :
  Account.namespace account = Some namespace →
  Message.parse_stage E account namespace mid folder_name received_date
    body_string Message.new = (msg, Ok tt) →
  (Spec.dump_succeeds E (Account.id account) folder_name mid body_string →
   ∃ m, Message.create_from_synced E (Some account) (Some mid)
          (Some folder_name) received_date (Some (Str body_string)) = Ok m)
  ∧ ∀ m,
      Message.create_from_synced E (Some account) (Some mid)
        (Some folder_name) received_date (Some (Str body_string)) = Ok m →
      (∀ f, if json_field_too_long E (Message.getattr msg f)
            then Message.getattr m f = JList []
                 ∧ Message.decode_error m = true
            else Message.getattr m f = Message.getattr msg f)
      ∧ Spec.keeps_parsed msg m.
Proof.
  intros Hns Hparse. rewrite (create_from_synced_stages Hns), Hparse. split.
  - intros Hdump. rewrite (check_fields_returns _ _ _ _ _ _ _ Hdump). eauto.
  - intros m Hm.
    destruct (Message.check_fields _ _ _ _ _ _ _) as [m' [[]|e]] eqn:Hcheck;
      [|discriminate].
    injection Hm as ->. apply check_fields_ok in Hcheck as ->.
    destruct (guard_fields_effect E Message.guarded_fields msg
                guarded_fields_nodup) as (Hkeep & _ & Hfields).
    split; [|exact Hkeep].
    intros f. apply Hfields, guarded_fields_all.
Qed.

(** C4, as the code has it.  When the try body completes, the parts of the
    returned message are the headers Part, with walk index 0, followed by
    one Part for every walked part that is kept (no nested multipart
    container, no unknown disposition), whose walk index is the position of
    that part in the walk, counted from 1 over all walked parts.  The walk
    indices are therefore strictly increasing in document order and
    unique, and they are exactly 0, 1, ..., N when all N walked parts are
    kept - as in a single-part message, and in a multipart message whose
    sub-parts are all leaves. *)
Theorem walk_indices_are_walk_positions (parsed : Parsed.t) self m :
  Account.namespace account = Some namespace →
  mime_from_string E body_string = Ok parsed →
  Message.ingest E account namespace mid received_date body_string
    Message.new = (self, Ok tt) →
  Message.create_from_synced E (Some account) (Some mid) (Some folder_name)
    received_date (Some (Str body_string)) = Ok m →
  let walk :=
    Parsed.walk parsed
      (ContentType.is_singlepart (MimePart.content_type (Parsed.top parsed)))
  in
  Spec.walk_indices m = Some <$> 0 :: Spec.kept_positions 0 walk
  ∧ StronglySorted lt (0 :: Spec.kept_positions 0 walk)
  ∧ NoDup (Spec.walk_indices m)
  ∧ (Forall (λ mimepart, Spec.kept mimepart = true) walk →
     Spec.walk_indices m = Some <$> seq 0 (S (length walk))).
Proof.
  intros Hns Htok Hingest Hm walk.
  assert (Hparts : Message.parts m = Message.parts self).
  { rewrite (create_from_synced_stages Hns) in Hm.
    rewrite (parse_stage_ingested _ Hingest) in Hm.
    destruct (Message.check_fields _ _ _ _ _ _ _) as [m' [[]|e]] eqn:Hcheck;
      [|discriminate].
    injection Hm as ->. apply check_fields_ok in Hcheck as ->.
    apply guard_fields_parts. }
  pose proof (wp_ok _ _ _ _ _ _
                (ingest_walk_indices E account namespace mid received_date
                   body_string) Hingest) as (parsed' & Htok' & Hindices).
  rewrite Htok in Htok'. injection Htok' as <-.
  assert (Hm_indices : Spec.walk_indices m
                       = Some <$> 0 :: Spec.kept_positions 0 walk).
  { unfold Spec.walk_indices in *. by rewrite Hparts. }
  destruct (kept_positions_sorted walk 0) as [Hsorted Hbound].
  assert (Hall : StronglySorted lt (0 :: Spec.kept_positions 0 walk))
    by (by constructor).
  split_and!; [exact Hm_indices|exact Hall| |].
  - rewrite Hm_indices. apply (NoDup_fmap_2 _).
    clear -Hall. induction Hall as [|k l _ IH Hlt]; constructor; [|exact IH].
    intros Hin. rewrite Forall_forall in Hlt. specialize (Hlt _ Hin). lia.
  - intros Hkept. rewrite Hm_indices.
    by rewrite (kept_positions_all _ _ Hkept).
Qed.

End Stages.

(** ** Runs in the demo world *)

Lemma oversize_fields_are_cleared_witness :
  let E := Demo.env (λ _, Ok Demo.single) Demo.nonempty_too_long
             Demo.writable in
  let msg := (Message.parse_stage E Demo.account (Namespace.mk 7) 5
                Demo.folder None Demo.raw Message.new).1 in
  Account.namespace Demo.account = Some (Namespace.mk 7)
  ∧ Message.parse_stage E Demo.account (Namespace.mk 7) 5 Demo.folder None
      Demo.raw Message.new = (msg, Ok tt)
  ∧ Message.to_addr msg = Some [(ulit "Bob", ulit "bob@example.com")]
  ∧ ∃ m, Message.create_from_synced E (Some Demo.account) (Some 5%Z)
           (Some Demo.folder) None (Some (Str Demo.raw)) = Ok m
         ∧ Message.to_addr m = Some []
         ∧ Message.decode_error m = true
         ∧ Message.subject m = Some (ulit "hello").
Proof.
  intros E msg.
  assert (Hns : Account.namespace Demo.account = Some (Namespace.mk 7))
    by reflexivity.
  assert (Hparse : Message.parse_stage E Demo.account (Namespace.mk 7) 5
                     Demo.folder None Demo.raw Message.new = (msg, Ok tt))
    by (vm_compute; reflexivity).
  assert (Hdump : Spec.dump_succeeds E (Account.id Demo.account) Demo.folder
                    5 Demo.raw)
    by (eexists; split; reflexivity).
  destruct (oversize_fields_are_cleared E Demo.account (Namespace.mk 7) 5
              Demo.folder None Demo.raw msg Hns Hparse)
    as [Hreturns Hcleared].
  split; [exact Hns|]. split; [exact Hparse|]. split; [reflexivity|].
  destruct (Hreturns Hdump) as [m Hm]. exists m. split; [exact Hm|].
  destruct (Hcleared m Hm) as [Hfields Hkeep].
  specialize (Hfields Message.to_addr_field).
  change (json_field_too_long E (Message.getattr msg Message.to_addr_field))
    with true in Hfields.
  destruct Hfields as [Hto Hflag].
  destruct Hkeep as (Hsubject & _).
  split; [|split; [exact Hflag|rewrite Hsubject; reflexivity]].
  cbn [Message.getattr] in Hto. unfold Message.addr_json in Hto.
  destruct (Message.to_addr m) as [[|[] ?]|]; [reflexivity|discriminate..].
Defined.

(** C3.  The oversize guard at work on a 3-byte message whose To header
    is too long: the field is emptied, the message is flagged and the
    subject stays, as the claim says; but the size, parsed as 3 before,
    is reset to 0 by the marker the guard calls. *)
Theorem oversize_guard_resets_parsed_size :
  let E := Demo.env (λ _, Ok Demo.single) Demo.nonempty_too_long
             Demo.writable in
  ∃ msg m,
    Message.parse_stage E Demo.account (Namespace.mk 7) 5 Demo.folder None
      Demo.raw Message.new = (msg, Ok tt)
    ∧ Message.create_from_synced E (Some Demo.account) (Some 5%Z)
        (Some Demo.folder) None (Some (Str Demo.raw)) = Ok m
    ∧ length Demo.raw = 3
    ∧ Message.to_addr msg = Some [(ulit "Bob", ulit "bob@example.com")]
    ∧ json_field_too_long E (Message.getattr msg Message.to_addr_field) = true
    ∧ Message.subject msg = Some (ulit "hello")
    ∧ Message.decode_error msg = false
    ∧ Message.size msg = Some 3
    ∧ Message.to_addr m = Some []
    ∧ Message.decode_error m = true
    ∧ Message.subject m = Some (ulit "hello")
    ∧ Message.size m = Some 0.
Proof.
  eexists. eexists. split; [vm_compute; reflexivity|].
  split; [vm_compute; reflexivity|]. vm_compute. by repeat split.
Qed.

Lemma walk_indices_are_walk_positions_witness :
  let E := Demo.env (λ _, Ok Demo.single) Demo.never_too_long Demo.writable in
  let self := (Message.ingest E Demo.account (Namespace.mk 7) 5 None Demo.raw
                 Message.new).1 in
  let m := Demo.returned
             (Message.create_from_synced E (Some Demo.account) (Some 5%Z)
                (Some Demo.folder) None (Some (Str Demo.raw))) in
  Account.namespace Demo.account = Some (Namespace.mk 7)
  ∧ mime_from_string E Demo.raw = Ok Demo.single
  ∧ Message.ingest E Demo.account (Namespace.mk 7) 5 None Demo.raw
      Message.new = (self, Ok tt)
  ∧ Message.create_from_synced E (Some Demo.account) (Some 5%Z)
      (Some Demo.folder) None (Some (Str Demo.raw)) = Ok m
  ∧ Spec.walk_indices m = [Some 0; Some 1].
Proof.
  intros E self m.
  assert (Hingest : Message.ingest E Demo.account (Namespace.mk 7) 5 None
                      Demo.raw Message.new = (self, Ok tt))
    by (vm_compute; reflexivity).
  assert (Hrun : Message.create_from_synced E (Some Demo.account) (Some 5%Z)
                   (Some Demo.folder) None (Some (Str Demo.raw)) = Ok m)
    by (vm_compute; reflexivity).
  split; [reflexivity|]. split; [reflexivity|]. split; [exact Hingest|].
  split; [exact Hrun|].
  destruct (walk_indices_are_walk_positions E Demo.account (Namespace.mk 7) 5
              Demo.folder None Demo.raw Demo.single self m
              eq_refl eq_refl Hingest Hrun)
    as (_ & _ & _ & Hall).
  rewrite Hall by (repeat constructor). reflexivity.
Defined.

(** C4, as stated, fails on a nested multipart message.  The message
    multipart/mixed [ multipart/alternative [ text/plain, text/html ] ] is
    parsed without error and has two leaves; the nested container takes
    index 1, so the leaves get the indices 2 and 3, not 1 and 2. *)
Lemma nested_multipart_leaves_a_gap :
  let E := Demo.env (λ _, Ok Demo.nested) Demo.never_too_long Demo.writable in
  ∃ m, Demo.run E = Ok m
       ∧ Message.decode_error m = false
       ∧ Spec.walk_indices m = [Some 0; Some 2; Some 3]
       ∧ Spec.claimed_walk_indices (Parsed.walk Demo.nested false)
         = [Some 0; Some 1; Some 2]
       ∧ Spec.walk_indices m
         ≠ Spec.claimed_walk_indices (Parsed.walk Demo.nested false).
Proof.
  eexists. split; [vm_compute; reflexivity|].
  vm_compute. repeat split. discriminate.
Qed.

(** C6, as stated, fails on a message whose text/html part is blank.  In
    multipart/alternative [ text/html "  ", text/plain "Hello" ] a
    text/html part exists, and yet the body is the converted plain text
    and the snippet comes from the plain text. *)
Lemma blank_html_is_not_selected :
  let E := Demo.env (λ _, Ok Demo.blank_html) Demo.never_too_long
             Demo.writable in
  ∃ m html_part,
    Demo.run E = Ok m
    ∧ Spec.first_of_type (lit "text/html") (Message.parts m) = Some html_part
    ∧ Block.data (Part.block html_part) = Some (Str (lit "  "))
    ∧ Message.sanitized_body m = Some (ulit "<p>Hello</p>")
    ∧ Message.snippet m = Some (ulit "Hello")
    ∧ Message.sanitized_body m ≠ Some (ulit "  ")
    ∧ Message.sanitized_body m ≠ Some (ulit "").
Proof.
  eexists. eexists. split; [vm_compute; reflexivity|].
  split; [vm_compute; reflexivity|].
  vm_compute. repeat split; discriminate.
Qed.

(** C10, as stated, fails on a message whose blank text/html part is not
    its first one.  With the parts text/html "<b>x</b>", text/html "  "
    and text/plain "Hello", the message contains a text/html part of
    whitespace only, and yet nothing falls through to the text/plain
    part: the first text/html part is the body. *)
Lemma later_blank_html_does_not_fall_through :
  let E := Demo.env (λ _, Ok Demo.single) Demo.never_too_long Demo.writable in
  let blank := Demo.stored 2 "text/html" "  " in
  Message.parts Samples.late_blank_message !! 1 = Some blank
  ∧ Block.content_type (Part.block blank) = Some (lit "text/html")
  ∧ decode_utf8 E (Block.data (Part.block blank)) = Ok (ulit "  ")
  ∧ forallb isspace (ulit "  ") = true
  ∧ Spec.stripped_text E (lit "text/plain")
      (Message.parts Samples.late_blank_message) = Ok (Some (ulit "Hello"))
  ∧ plaintext2html E (ulit "Hello") false = Ok (ulit "<p>Hello</p>")
  ∧ Message.body E Samples.late_blank_message
    = Ok (Some (ulit "Hello"), Some (ulit "<b>x</b>"))
  ∧ ∃ self,
      Message.calculate_sanitized_body E Samples.late_blank_message
      = (self, Ok tt)
      ∧ Message.sanitized_body self = Some (ulit "<b>x</b>")
      ∧ Message.snippet self = Some (ulit "<b>x</b>")
      ∧ Message.sanitized_body self ≠ Some (ulit "<p>Hello</p>")
      ∧ Message.sanitized_body self ≠ Some (ulit "").
Proof.
  intros E blank. do 7 (split; [vm_compute; reflexivity|]).
  eexists. split; [vm_compute; reflexivity|].
  vm_compute. repeat split; discriminate.
Qed.

(** The marker at work in the pipeline: a part with an unknown disposition
    is skipped, and the size of the message, parsed before, is reset. *)
Lemma unknown_disposition_resets_size :
  let E := Demo.env (λ _, Ok Demo.form_data) Demo.never_too_long
             Demo.writable in
  ∃ m, Demo.run E = Ok m
       ∧ length Demo.raw = 3
       ∧ Message.size m = Some 0
       ∧ Message.decode_error m = true
       ∧ Spec.walk_indices m = [Some 0].
Proof. eexists. split; [vm_compute; reflexivity|]. by vm_compute. Qed.

(** ** The parse boundary *)

Section Boundary.
Context (E : Env) (Hrf : Spec.recognised_failures E).
Implicit Types (self : Message.t) (e : exn).

Lemma caught_app (l1 l2 : list exn) e :
  caught (l1 ++ l2) e = caught l1 e || caught l2 e.
Proof. apply existsb_app. Qed.

Lemma encode_utf8_safe (s : pytext) e :
  encode_utf8 E s = Raise e → caught Message.parse_errors e = true.
Proof.
  destruct s as [b|u]; cbn.
  - destruct (forallb _ b); [discriminate|]. by intros [= <-].
  - apply (Spec.rf_encode E Hrf).
Qed.

Lemma decode_utf8_safe (data : option pytext) e :
  decode_utf8 E data = Raise e → caught Message.parse_errors e = true.
Proof.
  destruct data as [[b|u]|]; cbn.
  - apply (Spec.rf_decode E Hrf).
  - destruct (forallb _ u); [apply (Spec.rf_decode E Hrf)|].
    by intros [= <-].
  - by intros [= <-].
Qed.

Lemma replace_cr_no_cr (s : list ascii) : "013"%char ∉ replace_cr s.
Proof.
  unfold replace_cr. intros (c & Heq & _)%list_elem_of_fmap.
  by case_bool_decide.
Qed.

Lemma data_to_write_safe (mimepart : MimePart.t) (content_type : str) e :
  (∀ e', MimePart.body mimepart = Raise e' →
         caught Message.parse_errors e' = true) →
  Message.data_to_write E mimepart content_type = Raise e →
  caught Message.parse_errors e = true.
Proof.
  intros Hbody. unfold Message.data_to_write.
  destruct (MimePart.body mimepart) as [[b|]|e'];
    cbn [mbind result_bind]; [| |intros [= <-]; by apply Hbody].
  - destruct (startswith content_type _); [|done].
    destruct (encode_utf8 E b) eqn:Henc; [done|].
    cbn. intros [= <-]. by eapply encode_utf8_safe.
  - done.
Qed.

Lemma data_to_write_html (mimepart : MimePart.t) (data : pytext) :
  Message.data_to_write E mimepart (lit "text/html") = Ok data →
  ∃ b, data = Str b ∧ "013"%char ∉ b.
Proof.
  unfold Message.data_to_write.
  destruct (MimePart.body mimepart) as [[b|]|e'];
    cbn [mbind result_bind]; [| |done].
  - change (startswith (lit "text/html") (lit "text")) with true.
    destruct (encode_utf8 E b) as [encoded|]; [|done].
    cbn. intros [= <-]. eexists. split; [reflexivity|].
    apply replace_cr_no_cr.
  - cbn. intros [= <-]. exists []. split; [reflexivity|].
    apply not_elem_of_nil.
Qed.

Lemma autoimport_calendar_safe (account_id : Z) (mimepart : MimePart.t) e :
  (∀ e', MimePart.body mimepart = Raise e' →
         caught Message.parse_errors e' = true) →
  Message.autoimport_calendar E account_id mimepart = Raise e →
  caught Message.parse_errors e = true.
Proof.
  intros Hbody. unfold Message.autoimport_calendar.
  destruct (FEATURE_FLAGS E) as [flags|]; cbn [mbind result_bind];
    [|by intros [= <-]].
  destruct (_ && _ && _); [|done].
  destruct (MimePart.body mimepart) as [b|e'] eqn:Hb; cbn [mbind result_bind].
  - destruct (import_attached_events E account_id b) as [|e'] eqn:Himport;
      [done|].
    pose proof (Spec.rf_calendar E Hrf _ _ _ Himport) as Hclass.
    change (MalformedEventError :: Message.calendar_errors
            ++ Message.parse_errors)
      with ([MalformedEventError]
            ++ (Message.calendar_errors ++ Message.parse_errors)) in Hclass.
    rewrite !caught_app in Hclass.
    destruct (caught [MalformedEventError] e'); [done|].
    destruct (caught Message.calendar_errors e'); [done|].
    by intros [= <-].
  - destruct (caught [MalformedEventError] e'); [done|].
    destruct (caught Message.calendar_errors e'); [done|].
    intros [= <-]. by apply Hbody.
Qed.

Lemma html_normalised_mark_error self :
  Spec.html_normalised self →
  Spec.html_normalised (Message._mark_error E self).
Proof. unfold Spec.html_normalised. by rewrite mark_error_parts. Qed.

Lemma html_normalised_add_part (part : Part.t) self :
  (Block.content_type (Part.block part) = Some (lit "text/html") →
   ∃ b, Block.data (Part.block part) = Some (Str b) ∧ "013"%char ∉ b) →
  Message.parts self = [] ∨ Spec.html_normalised self →
  Spec.html_normalised (Message.add_part part self).
Proof.
  intros Hpart Hself. unfold Spec.html_normalised.
  change (Message.parts (Message.add_part part self))
    with (Message.parts self ++ [part]).
  split; [by destruct (Message.parts self)|].
  intros p [Hin| ->%list_elem_of_singleton]%elem_of_app; [|exact Hpart].
  destruct Hself as [Hnil|[_ Hall]]; [|by apply Hall].
  rewrite Hnil in Hin. by apply elem_of_nil in Hin.
Qed.

(** The loop raises recognised exceptions only, and keeps the stored
    text/html parts normalised. *)
Lemma walk_parts_safe (account_id namespace_id mid : Z)
    (walk : list MimePart.t) (i : nat) self :
  (∀ mimepart e, mimepart ∈ walk → MimePart.body mimepart = Raise e →
                 caught Message.parse_errors e = true) →
  Spec.html_normalised self →
  wp (Message.walk_parts E account_id namespace_id mid i walk)
     (λ _ self', Spec.html_normalised self')
     (λ e _, caught Message.parse_errors e = true) self.
Proof.
  revert i self. induction walk as [|mimepart walk IH];
    intros i self Hbodies Hself; [by apply wp_ret|].
  assert (Hbody : ∀ e, MimePart.body mimepart = Raise e →
                       caught Message.parse_errors e = true)
    by (intros e; apply Hbodies; left).
  assert (Hrest : ∀ mp e, mp ∈ walk → MimePart.body mp = Raise e →
                          caught Message.parse_errors e = true)
    by (intros mp e Hin; apply Hbodies; by right).
  cbn [Message.walk_parts].
  destruct (ContentType.is_multipart _); [by apply IH|].
  apply wp_bind.
  destruct (Message.unknown_disposition
              (MimePart.content_disposition mimepart).1) eqn:Hdisp.
  - eapply wp_run; [by apply parse_mimepart_unknown_disposition|].
    do 2 wp_step; [|by eapply autoimport_calendar_safe].
    apply IH; [exact Hrest|by apply html_normalised_mark_error].
  - destruct (parse_mimepart_kept E mimepart mid (S i) namespace_id self
                Hdisp) as (part & r & Hrun & _ & Hct & _ & Hdata).
    eapply wp_run; [exact Hrun|].
    destruct (Message.data_to_write E mimepart _) as [data|e] eqn:Hwrite.
    + destruct Hdata as [-> Hstored].
      do 2 wp_step; [|by eapply autoimport_calendar_safe].
      apply IH; [exact Hrest|].
      apply html_normalised_add_part; [|by right].
      rewrite Hct, Hstored. intros [= Hhtml]. rewrite Hhtml in Hwrite.
      destruct (data_to_write_html _ _ Hwrite) as (b & -> & Hcr). eauto.
    + destruct Hdata as [-> _]. by eapply data_to_write_safe.
Qed.

Lemma body_stripped self :
  Message.parts self ≠ [] →
  Message.body E self
  = (html_data ← Spec.stripped_text E (lit "text/html") (Message.parts self);
     plain_data ← Spec.stripped_text E (lit "text/plain") (Message.parts self);
     Ok (plain_data, html_data)).
Proof.
  intros Hparts. unfold Message.body.
  destruct (Message.parts self); [done|].
  by rewrite !first_decoded_first.
Qed.

Lemma stripped_text_safe (content_type : str) (parts : list Part.t) e :
  Spec.stripped_text E content_type parts = Raise e →
  caught Message.parse_errors e = true.
Proof.
  unfold Spec.stripped_text.
  destruct (Spec.first_of_type content_type parts) as [part|]; [|done].
  destruct (decode_utf8 E _) eqn:Hdecode; [done|].
  cbn. intros [= <-]. by eapply decode_utf8_safe.
Qed.

(** The text of a normalised text/html part has no carriage return. *)
Lemma stripped_html_no_cr self (html : unicode) :
  Spec.html_normalised self →
  Spec.stripped_text E (lit "text/html") (Message.parts self)
  = Ok (Some html) →
  13%N ∉ html.
Proof.
  intros [_ Hall]. unfold Spec.stripped_text, Spec.first_of_type.
  destruct (list_find _ (Message.parts self)) as [[i part]|] eqn:Hfind;
    [|done].
  apply list_find_Some in Hfind as (Hin%list_elem_of_lookup_2 & Hct & _).
  destruct (Hall part Hin Hct) as (b & Hdata & Hcr).
  cbn [fmap option_fmap option_map snd]. rewrite Hdata.
  cbn. destruct (utf8_decode E b) as [data|] eqn:Hdecode; [|done].
  cbn. intros [= <-] Hin'%strip_elem_of.
  by apply (Spec.rf_decode_cr E Hrf b data Hdecode Hcr).
Qed.

(** Body sanitization raises recognised exceptions only. *)
Lemma calculate_sanitized_body_safe self :
  Spec.html_normalised self →
  wp (Message.calculate_sanitized_body E) (λ _ _, True)
     (λ e _, caught Message.parse_errors e = true) self.
Proof.
  intros Hself. pose proof Hself as [Hparts _].
  destruct (Spec.stripped_text E (lit "text/html") (Message.parts self))
    as [html|e] eqn:Hhtml.
  2: { eapply wp_run.
       - unfold Message.calculate_sanitized_body.
         rewrite (body_stripped _ Hparts), Hhtml. reflexivity.
       - by eapply stripped_text_safe. }
  destruct (Spec.stripped_text E (lit "text/plain") (Message.parts self))
    as [plain|e] eqn:Hplain.
  2: { eapply wp_run.
       - unfold Message.calculate_sanitized_body.
         rewrite (body_stripped _ Hparts), Hhtml, Hplain. reflexivity.
       - by eapply stripped_text_safe. }
  unfold wp.
  rewrite (calculate_sanitized_body_cases E self html plain) by assumption.
  destruct html as [[|c html]|].
  - destruct plain as [[|c' plain]|]; try done.
    destruct (plaintext2html E _ false) eqn:Hcall; [done|].
    by eapply (Spec.rf_plaintext2html E Hrf).
  - rewrite bool_decide_eq_false_2 by (by eapply stripped_html_no_cr).
    destruct (strip_tags E _) eqn:Hcall; [done|].
    by eapply (Spec.rf_strip_tags E Hrf).
  - destruct plain as [[|c' plain]|]; try done.
    destruct (plaintext2html E _ false) eqn:Hcall; [done|].
    by eapply (Spec.rf_plaintext2html E Hrf).
Qed.

(** Closes the goal of a collaborator that raised. *)
Ltac recognised :=
  cbv beta;
  first [ eapply (Spec.rf_tokenizer E Hrf); eassumption
        | eapply (Spec.rf_address E Hrf); eassumption
        | eapply (Spec.rf_references E Hrf); eassumption
        | eapply (Spec.rf_internaldate E Hrf); eassumption
        | eapply (Spec.rf_json_dumps E Hrf); eassumption ].

(** The try body raises recognised exceptions only. *)
Lemma ingest_safe (account : Account.t) (namespace : Namespace.t) (mid : Z)
    (received_date : option timestamp) (body_string : str) :
  wp (Message.ingest E account namespace mid received_date body_string)
     (λ _ _, True) (λ e _, caught Message.parse_errors e = true)
     Message.new.
Proof.
  unfold Message.ingest. cbv zeta.
  repeat (wp_step; try recognised).
  destruct received_date as [date|]; repeat (wp_step; try recognised);
    (eapply wp_mono;
     [apply walk_parts_safe| |done]);
    [ | |intros ? self Hself; by apply calculate_sanitized_body_safe
      | | |intros ? self Hself; by apply calculate_sanitized_body_safe].
  all: try (apply html_normalised_add_part; [done|by left]).
  all: intros mimepart e Hin; eapply (Spec.rf_part_body E Hrf);
    [eassumption|].
  all: unfold Parsed.walk in Hin;
    apply elem_of_app in Hin as [Hin|Hin]; [|by right];
    destruct (ContentType.is_singlepart _);
    [by apply list_elem_of_singleton in Hin as ->; left
    |by apply elem_of_nil in Hin].
Qed.

(** The try statement returns when the dump can be written. *)
Lemma parse_stage_returns (account : Account.t) (namespace : Namespace.t)
    (mid : Z) (folder_name : pytext) (received_date : option timestamp)
    (body_string : str) :
  Spec.dump_succeeds E (Account.id account) folder_name mid body_string →
  ∃ msg,
    Message.parse_stage E account namespace mid folder_name received_date
      body_string Message.new = (msg, Ok tt).
Proof.
  intros Hdump. unfold Message.parse_stage, try_except.
  pose proof (ingest_safe account namespace mid received_date body_string)
    as Hsafe.
  unfold wp in Hsafe.
  destruct (Message.ingest E account namespace mid received_date body_string
              Message.new) as [msg [[]|e]]; [eauto|].
  rewrite Hsafe. unfold mbind, Eff_bind, lift, modify.
  rewrite (dump_succeeds_log _ _ _ _ _ Hdump).
  destruct Hdump as (errfile & -> & _). eauto.
Qed.

(** C1, as the code has it.  For an account with a namespace, a message
    id, a folder name and a byte string, the call returns a Message,
    whatever fails inside, provided that (a) the failures of the
    collaborators are of the classes the parse boundary recovers from
    (DecodingError, AttributeError, RuntimeError, TypeError, ValueError and
    their sub-classes; for the calendar import also MalformedEventError
    and AssertionError), and (b) the diagnostic dump of the message can be
    written.  The codec is taken not to produce a carriage return from
    bytes that hold none, as UTF-8 does not; the assertion on the
    normalized newlines then cannot fail. *)
Theorem create_from_synced_returns
    (account : Account.t) (namespace : Namespace.t) (mid : Z)
    (folder_name : pytext) (received_date : option timestamp)
    (body_string : str) :
  Account.namespace account = Some namespace →
  Spec.dump_succeeds E (Account.id account) folder_name mid body_string →
  ∃ m, Message.create_from_synced E (Some account) (Some mid)
         (Some folder_name) received_date (Some (Str body_string)) = Ok m.
Proof.
  intros Hns Hdump.
  destruct (parse_stage_returns account namespace mid folder_name
              received_date body_string Hdump) as [msg Hparse].
  rewrite (create_from_synced_stages _ _ _ _ _ _ _ Hns), Hparse.
  rewrite (check_fields_returns _ _ _ _ _ _ _ Hdump). eauto.
Qed.

End Boundary.

(** ** The parse boundary in the demo world *)

Lemma ascii_decode_no_cr (b : str) (u : unicode) :
  Demo.ascii_decode b = Ok u → "013"%char ∉ b → 13%N ∉ u.
Proof.
  unfold Demo.ascii_decode. destruct (forallb _ b); [|done].
  intros [= <-] Hcr (c & Hc & Hin)%list_elem_of_fmap. apply Hcr.
  replace "013"%char with c; [exact Hin|].
  rewrite <- (ascii_N_embedding c), <- Hc. reflexivity.
Qed.

(** The demo world fails in recognised ways whenever its tokenizer and the
    bodies the tokenizer hands out do. *)
Lemma demo_recognised_failures (tokenizer : str → result Parsed.t)
    (too_long : pyjson → bool) (write : pytext → pytext → result unit) :
  (∀ b e, tokenizer b = Raise e → caught Message.parse_errors e = true) →
  (∀ b parsed mimepart e,
     tokenizer b = Ok parsed →
     mimepart ∈ Parsed.top parsed :: Parsed.descendants parsed →
     MimePart.body mimepart = Raise e →
     caught Message.parse_errors e = true) →
  Spec.recognised_failures (Demo.env tokenizer too_long write).
Proof.
  intros Htok Hbody. constructor; cbn; try done.
  - unfold Demo.ascii_encode. intros u e.
    destruct (forallb _ u); [done|]. by intros [= <-].
  - unfold Demo.ascii_decode. intros b e.
    destruct (forallb _ b); [done|]. by intros [= <-].
  - apply ascii_decode_no_cr.
Qed.

(** A message the tokenizer rejects is returned all the same. *)
Lemma create_from_synced_returns_witness :
  let E := Demo.env (λ _, Raise DecodingError) Demo.never_too_long
             Demo.writable in
  Spec.recognised_failures E
  ∧ Account.namespace Demo.account = Some (Namespace.mk 7)
  ∧ Spec.dump_succeeds E (Account.id Demo.account) Demo.folder 5 Demo.raw
  ∧ ∃ m, Message.create_from_synced E (Some Demo.account) (Some 5%Z)
           (Some Demo.folder) None (Some (Str Demo.raw)) = Ok m.
Proof.
  intros E.
  assert (Hrf : Spec.recognised_failures E).
  { apply demo_recognised_failures.
    - intros b e [= <-]. reflexivity.
    - intros b parsed mimepart e [=]. }
  assert (Hdump : Spec.dump_succeeds E (Account.id Demo.account) Demo.folder
                    5 Demo.raw)
    by (eexists; split; reflexivity).
  split; [exact Hrf|]. split; [reflexivity|]. split; [exact Hdump|].
  exact (create_from_synced_returns E Hrf Demo.account (Namespace.mk 7) 5
           Demo.folder None Demo.raw eq_refl Hdump).
Defined.

(** C1, as stated, fails: with every required argument present and a byte
    string for a body, the call raises (1) when the account has no
    namespace, by the assertion that opens the function; (2) when a
    collaborator fails with a class the except clause does not list; (3)
    when the diagnostic dump of a rejected message cannot be written. *)
Lemma create_from_synced_raises :
  Message.create_from_synced
    (Demo.env (λ _, Ok Demo.single) Demo.never_too_long Demo.writable)
    (Some Demo.homeless_account) (Some 5%Z) (Some Demo.folder) None
    (Some (Str Demo.raw))
  = Raise AssertionError
  ∧ Message.create_from_synced
      (Demo.env (λ _, Raise KeyError) Demo.never_too_long Demo.writable)
      (Some Demo.account) (Some 5%Z) (Some Demo.folder) None
      (Some (Str Demo.raw))
    = Raise KeyError
  ∧ Message.create_from_synced
      (Demo.env (λ _, Raise DecodingError) Demo.never_too_long
         (λ _ _, Raise IOError))
      (Some Demo.account) (Some 5%Z) (Some Demo.folder) None
      (Some (Str Demo.raw))
    = Raise IOError.
Proof. vm_compute. by repeat split. Qed.

(** * Part III: further properties *)

(** ** [_trim_filename], any [max_len] *)

Section TrimFilenameGeneral.
Context {A : Type}.
Implicit Types (s : list A) (mid max_len : Z).

Lemma _trim_filename_unfold s mid max_len :
  _trim_filename (Some s) mid max_len
  = if (max_len <? Z.of_nat (length s))%Z
    then match s with
         | [] => Some s
         | _ => Some (slice_to s (max_len - 8) ++ slice_from s (-8))
         end
    else Some s.
Proof.
  unfold _trim_filename, truthy.
  destruct s; destruct (_ <? _)%Z; reflexivity.
Qed.

Lemma trim_pieces s max_len :
  (8 ≤ max_len)%Z → (max_len < Z.of_nat (length s))%Z →
  slice_to s (max_len - 8) = take (Z.to_nat (max_len - 8)) s
  ∧ slice_from s (-8) = drop (length s - 8) s.
Proof.
  intros Hmin Hlong. unfold slice_to, slice_from, clip.
  destruct (Z.ltb_spec (max_len - 8) 0); [lia|].
  change (-8 <? 0)%Z with true. cbv iota.
  split; f_equal; lia.
Qed.

(** X1.  For a limit of at least 8, the trimmed name has the length of the
    name or the limit, whichever is smaller; no name stays no name. *)
Theorem trim_filename_length s mid max_len :
  (8 ≤ max_len)%Z →
  _trim_filename (A:=A) None mid max_len = None
  ∧ ∃ r, _trim_filename (Some s) mid max_len = Some r
         ∧ Z.of_nat (length r) = Z.min (Z.of_nat (length s)) max_len.
Proof.
  intros Hmin. split; [reflexivity|]. rewrite _trim_filename_unfold.
  destruct (Z.ltb_spec max_len (Z.of_nat (length s))) as [Hlong|Hshort];
    [|exists s; split; [reflexivity|lia]].
  destruct s as [|c s']; [simpl in Hlong; lia|].
  eexists. split; [reflexivity|].
  destruct (trim_pieces (c :: s') max_len Hmin Hlong) as [-> ->].
  rewrite length_app, length_take, length_drop. lia.
Qed.

(** X2.  Trimming is idempotent for a limit of at least 8: a trimmed name
    (or no name) is not trimmed further. *)
Theorem trim_filename_idempotent (name : option (list A)) mid mid' max_len :
  (8 ≤ max_len)%Z →
  _trim_filename (_trim_filename name mid max_len) mid' max_len
  = _trim_filename name mid max_len.
Proof.
  intros Hmin. destruct name as [s|]; [|reflexivity].
  rewrite (_trim_filename_unfold s).
  destruct (Z.ltb_spec max_len (Z.of_nat (length s))) as [Hlong|Hshort].
  - destruct s as [|c s']; [simpl in Hlong; lia|].
    destruct (trim_pieces (c :: s') max_len Hmin Hlong) as [-> ->].
    rewrite _trim_filename_unfold.
    lazymatch goal with
    | |- context [(max_len <? ?n)%Z] =>
        destruct (Z.ltb_spec max_len n) as [Hlong'|]; [|reflexivity]
    end.
    rewrite length_app, length_take, length_drop in Hlong'. lia.
  - rewrite _trim_filename_unfold.
    destruct (Z.ltb_spec max_len (Z.of_nat (length s))); [lia|reflexivity].
Qed.

(** X3.  For a limit of at least 8, a name longer than the limit is
    trimmed to its first [max_len - 8] characters followed by its last 8
    characters, so that only the middle of the name is lost; a name within
    the limit is returned as it is. *)
Theorem trim_filename_keeps_ends s mid max_len :
  (8 ≤ max_len)%Z →
  (Z.of_nat (length s) ≤ max_len →
   _trim_filename (Some s) mid max_len = Some s)%Z
  ∧ (max_len < Z.of_nat (length s) →
     ∃ front middle back,
       s = front ++ middle ++ back
       ∧ Z.of_nat (length front) = max_len - 8
       ∧ Z.of_nat (length back) = 8
       ∧ middle ≠ []
       ∧ _trim_filename (Some s) mid max_len = Some (front ++ back))%Z.
Proof.
  intros Hmin. rewrite _trim_filename_unfold.
  destruct (Z.ltb_spec max_len (Z.of_nat (length s))) as [Hlong|Hshort];
    (split; [intros ?|intros ?]); try lia; [|reflexivity].
  destruct s as [|c s']; [simpl in Hlong; lia|].
  set (s := c :: s') in *.
  destruct (trim_pieces s max_len Hmin Hlong) as [-> ->].
  set (n := Z.to_nat (max_len - 8)).
  assert (Hn : n + 8 < length s) by lia.
  exists (take n s), (take (length s - 8 - n) (drop n s)),
         (drop (length s - 8) s).
  split_and!.
  - rewrite <- (take_drop n s) at 1. f_equal.
    rewrite <- (take_drop (length s - 8 - n) (drop n s)) at 1. f_equal.
    rewrite drop_drop. f_equal. lia.
  - rewrite length_take. lia.
  - rewrite length_drop. lia.
  - intros Hnil. apply (f_equal length) in Hnil.
    rewrite length_take, length_drop in Hnil.
    change (length (@nil A)) with 0 in Hnil. lia.
  - reflexivity.
Qed.

End TrimFilenameGeneral.

Lemma trim_filename_length_witness :
  (8 ≤ 10)%Z
  ∧ _trim_filename (A:=N) None 5 10 = None
  ∧ ∃ r, _trim_filename (Some (ulit "attachment.tar.gz")) 5 10 = Some r
         ∧ Z.of_nat (length r)
           = Z.min (Z.of_nat (length (ulit "attachment.tar.gz"))) 10.
Proof.
  split; [lia|].
  apply (trim_filename_length (ulit "attachment.tar.gz") 5 10). lia.
Defined.

Lemma trim_filename_idempotent_witness :
  (8 ≤ 10)%Z
  ∧ _trim_filename (_trim_filename (Some (ulit "attachment.tar.gz")) 5 10)
      6 10
    = _trim_filename (Some (ulit "attachment.tar.gz")) 5 10.
Proof.
  split; [lia|].
  apply (trim_filename_idempotent (Some (ulit "attachment.tar.gz")) 5 6 10).
  lia.
Defined.

Lemma trim_filename_keeps_ends_witness :
  (8 ≤ 10)%Z
  ∧ (10 < Z.of_nat (length (ulit "attachment.tar.gz")))%Z
  ∧ ∃ front middle back,
      ulit "attachment.tar.gz" = front ++ middle ++ back
      ∧ Z.of_nat (length front) = (10 - 8)%Z
      ∧ Z.of_nat (length back) = 8%Z
      ∧ middle ≠ []
      ∧ _trim_filename (Some (ulit "attachment.tar.gz")) 5 10
        = Some (front ++ back).
Proof.
  assert (Hmin : (8 ≤ 10)%Z) by lia.
  assert (Hlong : (10 < Z.of_nat (length (ulit "attachment.tar.gz")))%Z)
    by (vm_compute; reflexivity).
  split; [exact Hmin|]. split; [exact Hlong|].
  exact (proj2 (trim_filename_keeps_ends (ulit "attachment.tar.gz") 5 10
                  Hmin) Hlong).
Defined.

(** ** The subject validator *)

(** X4.  The validator keeps the first 255 characters of a subject: its
    result is a prefix of the subject, at most 255 characters long, and is
    left alone when validated again; no subject stays no subject. *)
Theorem validate_length_truncates (value : unicode) :
  Message.validate_length None = None
  ∧ Message.validate_length (Some value) = Some (take 255 value)
  ∧ length (take 255 value) ≤ 255
  ∧ take 255 value `prefix_of` value
  ∧ Message.validate_length (Message.validate_length (Some value))
    = Message.validate_length (Some value).
Proof.
  assert (Hclosed : ∀ v : unicode,
            Message.validate_length (Some v) = Some (take 255 v)).
  { intros v. unfold Message.validate_length.
    destruct (Nat.ltb_spec 255 (length v)) as [Hlong|Hshort].
    - f_equal. change 255%Z with (Z.of_nat 255). apply slice_to_nat.
    - by rewrite take_ge. }
  split; [reflexivity|]. split; [apply Hclosed|].
  split; [rewrite length_take; lia|]. split; [apply prefix_take|].
  rewrite !Hclosed. by rewrite take_take.
Qed.

(** ** Newline normalisation of text parts *)

Section Newlines.
Implicit Types (x y s : list ascii).

Lemma replace_crlf_app x y :
  Samples.CR ∉ x → replace_crlf (x ++ y) = x ++ replace_crlf y.
Proof.
  induction x as [|c x IH]; [reflexivity|].
  intros [Hc Hx]%not_elem_of_cons. cbn [app replace_crlf].
  rewrite (bool_decide_eq_false_2 (c = "013"%char)) by (intros ->; done).
  cbn [andb]. rewrite IH by exact Hx.
  destruct (x ++ y) eqn:Hxy; [|reflexivity].
  apply app_eq_nil in Hxy as [-> ->]. reflexivity.
Qed.

Lemma replace_cr_app x y :
  replace_cr (x ++ y) = replace_cr x ++ replace_cr y.
Proof. unfold replace_cr. apply fmap_app. Qed.

Lemma replace_cr_id x : Samples.CR ∉ x → replace_cr x = x.
Proof.
  induction x as [|c x IH]; [reflexivity|].
  intros [Hc Hx]%not_elem_of_cons. unfold replace_cr in *. cbn.
  rewrite bool_decide_eq_false_2 by (intros ->; done).
  by rewrite IH.
Qed.

Lemma replace_crlf_id x : Samples.CR ∉ x → replace_crlf x = x.
Proof.
  intros Hx. rewrite <- (app_nil_r x) at 1.
  rewrite replace_crlf_app by exact Hx. by rewrite app_nil_r.
Qed.

Lemma replace_crlf_length s : length (replace_crlf s) ≤ length s.
Proof.
  assert (H : ∀ n s, length s < n → length (replace_crlf s) ≤ length s);
    [|apply (H (S (length s))); lia].
  intros n. induction n as [|n IH]; intros t Hn; [lia|].
  destruct t as [|c [|c' t]]; [done..|].
  cbn [replace_crlf].
  cbn [length] in Hn.
  destruct (_ && _).
  - assert (Ht : length t < n) by lia.
    apply IH in Ht. apply le_n_S. etrans; [exact Ht|].
    apply Nat.le_succ_diag_r.
  - assert (Ht : length (c' :: t) < n) by (cbn [length]; lia).
    apply IH in Ht. apply le_n_S in Ht. exact Ht.
Qed.

Lemma normalize_windows x y :
  Samples.CR ∉ x →
  replace_cr (replace_crlf (x ++ [Samples.CR; Samples.LF] ++ y))
  = x ++ [Samples.LF] ++ replace_cr (replace_crlf y).
Proof.
  intros Hx. rewrite replace_crlf_app by exact Hx.
  cbn [app replace_crlf].
  rewrite replace_cr_app, replace_cr_id by exact Hx. reflexivity.
Qed.

Lemma normalize_mac x y :
  Samples.CR ∉ x → head y ≠ Some Samples.LF →
  replace_cr (replace_crlf (x ++ [Samples.CR] ++ y))
  = x ++ [Samples.LF] ++ replace_cr (replace_crlf y).
Proof.
  intros Hx Hy. rewrite replace_crlf_app by exact Hx.
  rewrite replace_cr_app, replace_cr_id by exact Hx. f_equal.
  destruct y as [|c y]; [reflexivity|].
  cbn [app replace_crlf].
  rewrite (bool_decide_eq_false_2 (c = "010"%char))
    by (intros ->; by apply Hy).
  rewrite andb_false_r. reflexivity.
Qed.

Context (E : Env).

Lemma data_to_write_text (mimepart : MimePart.t) (content_type : str)
    (payload : pytext) (encoded : str) :
  startswith content_type (lit "text") = true →
  MimePart.body mimepart = Ok (Some payload) →
  encode_utf8 E payload = Ok encoded →
  Message.data_to_write E mimepart content_type
  = Ok (Str (replace_cr (replace_crlf encoded))).
Proof.
  intros Htext Hbody Hencode. unfold Message.data_to_write.
  rewrite Hbody. cbn [mbind result_bind]. rewrite Htext, Hencode.
  reflexivity.
Qed.

(** X5.  Whatever a part of a text content type holds, what is stored for
    it is a byte string without carriage return. *)
Theorem text_data_has_no_carriage_return
    (mimepart : MimePart.t) (content_type : str) (data : pytext) :
  startswith content_type (lit "text") = true →
  Message.data_to_write E mimepart content_type = Ok data →
  ∃ b, data = Str b ∧ Samples.CR ∉ b.
Proof.
  intros Htext. unfold Message.data_to_write.
  destruct (MimePart.body mimepart) as [[payload|]|e];
    cbn [mbind result_bind]; [| |done].
  - rewrite Htext.
    destruct (encode_utf8 E payload) as [encoded|]; [|done].
    cbn. intros [= <-]. eexists. split; [reflexivity|].
    apply replace_cr_no_cr.
  - cbn. intros [= <-]. exists []. split; [reflexivity|].
    apply not_elem_of_nil.
Qed.

(** X6.  The stored text is never longer than the encoded payload, and it
    is the encoded payload itself when that holds no carriage return. *)
Theorem text_data_without_carriage_return_is_kept
    (mimepart : MimePart.t) (content_type : str) (payload : pytext)
    (encoded : str) :
  startswith content_type (lit "text") = true →
  MimePart.body mimepart = Ok (Some payload) →
  encode_utf8 E payload = Ok encoded →
  ∃ stored,
    Message.data_to_write E mimepart content_type = Ok (Str stored)
    ∧ length stored ≤ length encoded
    ∧ (Samples.CR ∉ encoded → stored = encoded).
Proof.
  intros Htext Hbody Hencode. eexists.
  split; [by eapply data_to_write_text|]. split.
  - unfold replace_cr. rewrite length_fmap. apply replace_crlf_length.
  - intros Hcr. by rewrite replace_crlf_id, replace_cr_id.
Qed.

(** X7.  The three line endings are stored alike: for lines [x] and [y]
    without carriage return ([y] not opening with a line feed), the
    payloads x "\r\n" y, x "\r" y and x "\n" y are all stored as
    x "\n" y. *)
Theorem line_endings_are_stored_alike
    (mimepart : MimePart.t) (content_type : str) (payload : pytext)
    (x y : str) :
  startswith content_type (lit "text") = true →
  MimePart.body mimepart = Ok (Some payload) →
  Samples.CR ∉ x → Samples.CR ∉ y → head y ≠ Some Samples.LF →
  encode_utf8 E payload = Ok (x ++ [Samples.CR; Samples.LF] ++ y)
  ∨ encode_utf8 E payload = Ok (x ++ [Samples.CR] ++ y)
  ∨ encode_utf8 E payload = Ok (x ++ [Samples.LF] ++ y) →
  Message.data_to_write E mimepart content_type
  = Ok (Str (x ++ [Samples.LF] ++ y)).
Proof.
  intros Htext Hbody Hx Hy Hhead Hencode.
  assert (Hrest : replace_cr (replace_crlf y) = y)
    by (by rewrite replace_crlf_id, replace_cr_id).
  destruct Hencode as [Hencode|[Hencode|Hencode]];
    rewrite (data_to_write_text _ _ _ _ Htext Hbody Hencode);
    do 2 f_equal.
  - by rewrite normalize_windows, Hrest.
  - by rewrite normalize_mac, Hrest.
  - assert (Hcr : Samples.CR ∉ x ++ [Samples.LF] ++ y).
    { rewrite !not_elem_of_app. split_and!; [done| |done].
      by intros [=]%list_elem_of_singleton. }
    by rewrite replace_crlf_id, replace_cr_id.
Qed.

End Newlines.

Lemma text_data_has_no_carriage_return_witness :
  startswith (lit "text/plain") (lit "text") = true
  ∧ Message.data_to_write Samples.world Samples.windows_leaf
      (lit "text/plain")
    = Ok (Str (lit "Hello" ++ [Samples.LF] ++ lit "World"))
  ∧ ∃ b, Str (lit "Hello" ++ [Samples.LF] ++ lit "World") = Str b
         ∧ Samples.CR ∉ b.
Proof.
  split; [reflexivity|]. split; [reflexivity|].
  exact (text_data_has_no_carriage_return Samples.world Samples.windows_leaf
           (lit "text/plain") _ eq_refl eq_refl).
Defined.

Lemma text_data_without_carriage_return_is_kept_witness :
  startswith (lit "text/plain") (lit "text") = true
  ∧ MimePart.body (Demo.leaf "text" "plain" "Hello")
    = Ok (Some (Unicode (ulit "Hello")))
  ∧ encode_utf8 Samples.world (Unicode (ulit "Hello")) = Ok (lit "Hello")
  ∧ ∃ stored,
      Message.data_to_write Samples.world (Demo.leaf "text" "plain" "Hello")
        (lit "text/plain") = Ok (Str stored)
      ∧ length stored ≤ length (lit "Hello")
      ∧ (Samples.CR ∉ lit "Hello" → stored = lit "Hello").
Proof.
  split; [reflexivity|]. split; [reflexivity|]. split; [reflexivity|].
  exact (text_data_without_carriage_return_is_kept Samples.world
           (Demo.leaf "text" "plain" "Hello") (lit "text/plain")
           (Unicode (ulit "Hello")) (lit "Hello") eq_refl eq_refl eq_refl).
Defined.

Lemma line_endings_are_stored_alike_witness :
  startswith (lit "text/plain") (lit "text") = true
  ∧ MimePart.body Samples.windows_leaf
    = Ok (Some (Str (lit "Hello" ++ [Samples.CR; Samples.LF] ++ lit "World")))
  ∧ (Samples.CR ∉ lit "Hello") ∧ (Samples.CR ∉ lit "World")
  ∧ head (lit "World") ≠ Some Samples.LF
  ∧ encode_utf8 Samples.world
      (Str (lit "Hello" ++ [Samples.CR; Samples.LF] ++ lit "World"))
    = Ok (lit "Hello" ++ [Samples.CR; Samples.LF] ++ lit "World")
  ∧ Message.data_to_write Samples.world Samples.windows_leaf
      (lit "text/plain")
    = Ok (Str (lit "Hello" ++ [Samples.LF] ++ lit "World")).
Proof.
  assert (H1 : Samples.CR ∉ lit "Hello")
    by (apply (bool_decide_unpack _); reflexivity).
  assert (H2 : Samples.CR ∉ lit "World")
    by (apply (bool_decide_unpack _); reflexivity).
  assert (H3 : head (lit "World") ≠ Some Samples.LF) by discriminate.
  split; [reflexivity|]. split; [reflexivity|]. split; [exact H1|].
  split; [exact H2|]. split; [exact H3|]. split; [reflexivity|].
  exact (line_endings_are_stored_alike Samples.world Samples.windows_leaf
           (lit "text/plain") _ (lit "Hello") (lit "World") eq_refl eq_refl
           H1 H2 H3 (or_introl eq_refl)).
Defined.

(** ** [trimmed_subject] *)

Lemma slice_prefix4 {A} (p s : list A) :
  length p = 4 → slice_to (p ++ s) 4 = p ∧ slice_from (p ++ s) 4 = s.
Proof.
  intros Hp. unfold slice_to, slice_from, clip.
  change (4 <? 0)%Z with false. cbv iota.
  replace (Z.to_nat (Z.min 4 (Z.of_nat (length (p ++ s))))) with (length p)
    by (rewrite length_app; lia).
  split; [apply take_app_length|apply drop_app_length].
Qed.

(** X8.  [trimmed_subject] removes one leading "RE: " or "Re: " and no
    more: what follows the prefix is returned as it is, also when it opens
    with a reply prefix itself.  A subject that opens with neither is
    returned whole, and a message without subject raises TypeError. *)
Theorem trimmed_subject_strips_one_prefix (self : Message.t) (s : unicode) :
  (Message.subject self = Some (ulit "RE: " ++ s)
   ∨ Message.subject self = Some (ulit "Re: " ++ s) →
   Accessors.trimmed_subject self = Ok s)
  ∧ (Message.subject self = Some s →
     ¬ ulit "RE: " `prefix_of` s → ¬ ulit "Re: " `prefix_of` s →
     Accessors.trimmed_subject self = Ok s)
  ∧ (Message.subject self = None →
     Accessors.trimmed_subject self = Raise TypeError).
Proof.
  unfold Accessors.trimmed_subject. split_and!.
  - intros [-> | ->].
    + destruct (slice_prefix4 (ulit "RE: ") s eq_refl) as [-> ->].
      reflexivity.
    + destruct (slice_prefix4 (ulit "Re: ") s eq_refl) as [-> ->].
      reflexivity.
  - intros -> HRE HRe.
    assert (Hpre : slice_to s 4 `prefix_of` s).
    { unfold slice_to. apply prefix_take. }
    rewrite !bool_decide_eq_false_2; [reflexivity| |].
    + intros Heq. apply HRe. by rewrite <- Heq.
    + intros Heq. apply HRE. by rewrite <- Heq.
  - by intros ->.
Qed.

(** ** Attachments *)

Section Attachments.
Context {Size Id : Type} (is_attachment : Part.t → bool)
        (block_size : Block.t → Size) (block_public_id : Block.t → Id).

(** X9.  The attachment metadata has one dictionary for every attachment,
    in the order of the attachments, with the content type, size, filename
    and public id of the attachment's block. *)
Theorem metadata_follows_attachments (self : Message.t) :
  (λ k, (Accessors.content_type k, Accessors.size k, Accessors.filename k,
         Accessors.id k))
    <$> Accessors.api_attachment_metadata is_attachment block_size
          block_public_id self
  = (λ part, (Block.content_type (Part.block part),
              block_size (Part.block part),
              Block.filename (Part.block part),
              block_public_id (Part.block part)))
      <$> Accessors.attachments is_attachment self.
Proof.
  unfold Accessors.api_attachment_metadata, Accessors.attachments.
  induction (Message.parts self) as [|part parts IH]; [reflexivity|].
  rewrite bind_cons, fmap_app, IH, filter_cons.
  destruct (is_attachment part) eqn:Hatt.
  - rewrite decide_True by reflexivity. reflexivity.
  - rewrite decide_False by discriminate. reflexivity.
Qed.

End Attachments.


(** ** Participants, further *)

Section ParticipantsMore.
Implicit Types (self : Message.t) (a ph raw : unicode)
               (d : gmap unicode (gset unicode)).

(** X11.  No pair is returned twice. *)
Theorem participants_no_duplicates self : NoDup (Message.participants self).
Proof.
  unfold Message.participants. apply NoDup_bind.
  - intros [a1 S1] [a2 S2] [ph a] Hin1 Hin2 H1 H2.
    apply list_elem_of_bind in H1 as (ph1 & H1 & _).
    apply list_elem_of_bind in H2 as (ph2 & H2 & _).
    destruct (negb (bool_decide (ph1 = [])) || _);
      [|by apply elem_of_nil in H1].
    destruct (negb (bool_decide (ph2 = [])) || _);
      [|by apply elem_of_nil in H2].
    apply list_elem_of_singleton in H1. apply list_elem_of_singleton in H2.
    simplify_eq. f_equal.
    apply elem_of_map_to_list in Hin1, Hin2. congruence.
  - intros [a S] _. apply NoDup_bind.
    + intros ph1 ph2 y _ _ H1 H2.
      destruct (negb (bool_decide (ph1 = [])) || _);
        [|by apply elem_of_nil in H1].
      destruct (negb (bool_decide (ph2 = [])) || _);
        [|by apply elem_of_nil in H2].
      apply list_elem_of_singleton in H1. apply list_elem_of_singleton in H2.
      by simplify_eq.
    + intros ph _. destruct (negb _ || _); [apply NoDup_singleton|constructor].
    + apply NoDup_elements.
  - apply NoDup_map_to_list.
Qed.





End ParticipantsMore.



(** ** Body selection, further *)

Section BodyMore.
Context (E : Env).
Implicit Types (self : Message.t).

Lemma plaintext_snippet_ok (text : unicode) :
  Props.snippet_ok (Some (Message.calculate_plaintext_snippet text)).
Proof.
  eexists. split; [reflexivity|].
  unfold Message.calculate_plaintext_snippet, Message.SNIPPET_LENGTH.
  rewrite join_split. change 191%Z with (Z.of_nat 191).
  split; [apply slice_to_length|].
  rewrite slice_to_nat. apply take_no_run, collapse_no_run.
Qed.

Lemma empty_snippet_ok : Props.snippet_ok (Some []).
Proof. exists []. split_and!; [done|cbn; lia|done]. Qed.

(** What body sanitization leaves behind, whatever its outcome: the
    message with, at most, a new snippet and a new body. *)
Lemma calculate_sanitized_body_shape self self' r :
  Message.calculate_sanitized_body E self = (self', r) →
  (self' = self ∧ ∃ e, r = Raise e)
  ∨ (∃ text, self' = Message.set_snippet
                       (Some (Message.calculate_plaintext_snippet text)) self
             ∧ ∃ e, r = Raise e)
  ∨ (∃ snippet body,
       self' = Message.set_sanitized_body (Some body)
                 (Message.set_snippet snippet self)
       ∧ Props.snippet_ok snippet ∧ r = Ok tt)
  ∨ (self' = Message.set_snippet (Some [])
               (Message.set_sanitized_body (Some []) self)
     ∧ r = Ok tt).
Proof.
  unfold Message.calculate_sanitized_body.
  destruct (Message.body E self) as [[plain html]|e];
    [|intros [= <- <-]; left; by eauto].
  unfold mbind, Eff_bind, modify, lift, Message.calculate_html_snippet.
  destruct html as [[|c html]|], plain as [[|c' plain]|];
    repeat case_bool_decide;
    cbn [mbind result_bind];
    try destruct (strip_tags E _);
    try destruct (plaintext2html E _ false);
    intros [= <- <-];
    first [ left; by eauto
          | by right; right; right
          | right; left; eexists; split; [reflexivity|by eexists]
          | right; right; left; do 2 eexists;
            split; [reflexivity|split; [apply plaintext_snippet_ok|done]] ].
Qed.

(** X14.  Body sanitization touches the snippet and the sanitized body and
    nothing else, whether it returns or raises. *)
Theorem calculate_sanitized_body_frame self self' r :
  Message.calculate_sanitized_body E self = (self', r) →
  Message.full_body self' = Message.full_body self
  ∧ Message.namespace_id self' = Message.namespace_id self
  ∧ Message.data_sha256 self' = Message.data_sha256 self
  ∧ Message.subject self' = Message.subject self
  ∧ Message.from_addr self' = Message.from_addr self
  ∧ Message.sender_addr self' = Message.sender_addr self
  ∧ Message.reply_to self' = Message.reply_to self
  ∧ Message.to_addr self' = Message.to_addr self
  ∧ Message.cc_addr self' = Message.cc_addr self
  ∧ Message.bcc_addr self' = Message.bcc_addr self
  ∧ Message.in_reply_to self' = Message.in_reply_to self
  ∧ Message.message_id_header self' = Message.message_id_header self
  ∧ Message.received_date self' = Message.received_date self
  ∧ Message.inbox_uid self' = Message.inbox_uid self
  ∧ Message.references self' = Message.references self
  ∧ Message.size self' = Message.size self
  ∧ Message.parts self' = Message.parts self
  ∧ Message.decode_error self' = Message.decode_error self.
Proof.
  intros Hrun.
  destruct (calculate_sanitized_body_shape _ _ _ Hrun)
    as [[-> _]|[(? & -> & _)|[(? & ? & -> & _)|[-> _]]]];
    by repeat split.
Qed.

(** X15.  When body sanitization returns, the message has a sanitized body
    and a snippet, and the snippet is at most 191 characters long and has
    no two adjacent whitespace characters. *)
Theorem calculate_sanitized_body_sets_both self self' :
  Message.calculate_sanitized_body E self = (self', Ok tt) →
  is_Some (Message.sanitized_body self')
  ∧ Props.snippet_ok (Message.snippet self').
Proof.
  intros Hrun.
  destruct (calculate_sanitized_body_shape _ _ _ Hrun)
    as [[_ [e [=]]]|[(? & _ & e & [=])|[(sn & body & -> & Hok & _)|[-> _]]]].
  - split; [by eexists|exact Hok].
  - split; [by eexists|apply empty_snippet_ok].
Qed.

(** X16.  The first part of each kind decides: two messages whose first
    text/html parts agree and whose first text/plain parts agree have the
    same body, whatever their other parts are. *)
Theorem body_depends_on_the_first_parts self self' :
  Message.parts self ≠ [] → Message.parts self' ≠ [] →
  Spec.first_of_type (lit "text/html") (Message.parts self)
  = Spec.first_of_type (lit "text/html") (Message.parts self') →
  Spec.first_of_type (lit "text/plain") (Message.parts self)
  = Spec.first_of_type (lit "text/plain") (Message.parts self') →
  Message.body E self = Message.body E self'.
Proof.
  intros Hparts Hparts' Hhtml Hplain.
  rewrite !body_stripped by assumption.
  unfold Spec.stripped_text. by rewrite Hhtml, Hplain.
Qed.

End BodyMore.

Lemma calculate_sanitized_body_frame_witness :
  Message.calculate_sanitized_body Samples.world Demo.blank_html_message
  = (Message.set_sanitized_body (Some (ulit "<p>Hello</p>"))
       (Message.set_snippet (Some (ulit "Hello")) Demo.blank_html_message),
     Ok tt)
  ∧ Message.parts
      (Message.set_sanitized_body (Some (ulit "<p>Hello</p>"))
         (Message.set_snippet (Some (ulit "Hello")) Demo.blank_html_message))
    = Message.parts Demo.blank_html_message.
Proof.
  assert (Hrun : Message.calculate_sanitized_body Samples.world
                   Demo.blank_html_message
                 = (Message.set_sanitized_body (Some (ulit "<p>Hello</p>"))
                      (Message.set_snippet (Some (ulit "Hello"))
                         Demo.blank_html_message), Ok tt))
    by (vm_compute; reflexivity).
  split; [exact Hrun|].
  apply (calculate_sanitized_body_frame Samples.world _ _ _ Hrun).
Defined.

Lemma calculate_sanitized_body_sets_both_witness :
  Message.calculate_sanitized_body Samples.world Demo.blank_html_message
  = (Message.set_sanitized_body (Some (ulit "<p>Hello</p>"))
       (Message.set_snippet (Some (ulit "Hello")) Demo.blank_html_message),
     Ok tt)
  ∧ is_Some (Message.sanitized_body
               (Message.set_sanitized_body (Some (ulit "<p>Hello</p>"))
                  (Message.set_snippet (Some (ulit "Hello"))
                     Demo.blank_html_message)))
  ∧ Props.snippet_ok
      (Message.snippet
         (Message.set_sanitized_body (Some (ulit "<p>Hello</p>"))
            (Message.set_snippet (Some (ulit "Hello"))
               Demo.blank_html_message))).
Proof.
  assert (Hrun : Message.calculate_sanitized_body Samples.world
                   Demo.blank_html_message
                 = (Message.set_sanitized_body (Some (ulit "<p>Hello</p>"))
                      (Message.set_snippet (Some (ulit "Hello"))
                         Demo.blank_html_message), Ok tt))
    by (vm_compute; reflexivity).
  split; [exact Hrun|].
  exact (calculate_sanitized_body_sets_both Samples.world _ _ Hrun).
Defined.

Lemma body_depends_on_the_first_parts_witness :
  Message.parts Demo.blank_html_message ≠ []
  ∧ Message.parts Samples2.more_parts_message ≠ []
  ∧ Spec.first_of_type (lit "text/html") (Message.parts Demo.blank_html_message)
    = Spec.first_of_type (lit "text/html")
        (Message.parts Samples2.more_parts_message)
  ∧ Spec.first_of_type (lit "text/plain")
      (Message.parts Demo.blank_html_message)
    = Spec.first_of_type (lit "text/plain")
        (Message.parts Samples2.more_parts_message)
  ∧ Message.body Samples.world Demo.blank_html_message
    = Message.body Samples.world Samples2.more_parts_message.
Proof.
  assert (H1 : Message.parts Demo.blank_html_message ≠ []) by discriminate.
  assert (H2 : Message.parts Samples2.more_parts_message ≠ [])
    by discriminate.
  split; [exact H1|]. split; [exact H2|].
  split; [reflexivity|]. split; [reflexivity|].
  exact (body_depends_on_the_first_parts Samples.world
           Demo.blank_html_message Samples2.more_parts_message H1 H2
           eq_refl eq_refl).
Defined.

(** ** The error-diagnostics file name *)

Section ErrFilename.
Context (E : Env) (account_id : Z) (uid : Z).
Implicit Types (folder_name : pytext).

Lemma _get_errfilename_rec_unfold depth folder_name :
  _get_errfilename_rec E (S depth) account_id folder_name uid
  = match Props.attempt E account_id folder_name uid with
    | Ok errfile => Ok errfile
    | Raise e =>
        if isinstance e UnicodeEncodeError
        then b64_folder_name ← b64encode_utf8 E folder_name;
             _get_errfilename_rec E depth account_id (Str b64_folder_name)
               uid
        else Raise e
    end.
Proof. reflexivity. Qed.

(** X17.  When the file system cannot encode the folder name, the file is
    named after the base64 form of the folder name instead. *)
Theorem errfilename_falls_back_to_base64
    folder_name (e : exn) (b64 : str) (errfile : pytext) :
  2 ≤ recursion_limit E →
  Props.attempt E account_id folder_name uid = Raise e →
  isinstance e UnicodeEncodeError = true →
  b64encode_utf8 E folder_name = Ok b64 →
  Props.attempt E account_id (Str b64) uid = Ok errfile →
  _get_errfilename E account_id folder_name uid = Ok errfile.
Proof.
  intros Hlimit Hfirst Hclass Hb64 Hsecond. unfold _get_errfilename.
  destruct (recursion_limit E) as [|[|depth]]; [lia..|].
  rewrite _get_errfilename_rec_unfold, Hfirst, Hclass, Hb64.
  cbn [mbind result_bind].
  by rewrite _get_errfilename_rec_unfold, Hsecond.
Qed.

(** X18.  Only a UnicodeEncodeError is retried: any other failure of the
    first attempt (a missing log directory, a refused mkdir) is raised as
    it is, and the folder name is not re-encoded. *)
Theorem errfilename_raises_other_failures folder_name (e : exn) :
  1 ≤ recursion_limit E →
  Props.attempt E account_id folder_name uid = Raise e →
  isinstance e UnicodeEncodeError = false →
  _get_errfilename E account_id folder_name uid = Raise e.
Proof.
  intros Hlimit Hfirst Hclass. unfold _get_errfilename.
  destruct (recursion_limit E) as [|depth]; [lia|].
  by rewrite _get_errfilename_rec_unfold, Hfirst, Hclass.
Qed.

(** X19.  A file system that can encode no name at all does not make the
    function loop, and gets no file name out of it: the retries end by
    raising, either the failure of encoding a folder name for the retry or
    the RuntimeError of the recursion limit. *)
Theorem errfilename_gives_up folder_name :
  (∀ name, ∃ e, Props.attempt E account_id name uid = Raise e
               ∧ isinstance e UnicodeEncodeError = true) →
  ∃ e, _get_errfilename E account_id folder_name uid = Raise e
       ∧ (e = RuntimeError ∨ ∃ name, b64encode_utf8 E name = Raise e).
Proof.
  intros Hdeaf. unfold _get_errfilename.
  generalize (recursion_limit E). intros depth. revert folder_name.
  induction depth as [|depth IH]; intros folder_name;
    [exists RuntimeError; split; [reflexivity|by left]|].
  rewrite _get_errfilename_rec_unfold.
  destruct (Hdeaf folder_name) as (e & -> & ->).
  destruct (b64encode_utf8 E folder_name) as [b64|e'] eqn:Hb64;
    cbn [mbind result_bind]; [apply IH|].
  exists e'. split; [reflexivity|]. right. by exists folder_name.
Qed.


End ErrFilename.

Lemma errfilename_falls_back_to_base64_witness :
  2 ≤ recursion_limit Samples.picky_world
  ∧ Props.attempt Samples.picky_world 1 Samples.odd_folder 5
    = Raise UnicodeEncodeError
  ∧ isinstance UnicodeEncodeError UnicodeEncodeError = true
  ∧ b64encode_utf8 Samples.picky_world Samples.odd_folder = Ok (lit "Zg==")
  ∧ Props.attempt Samples.picky_world 1 (Str (lit "Zg==")) 5
    = Ok (Str (lit "Zg=="))
  ∧ _get_errfilename Samples.picky_world 1 Samples.odd_folder 5
    = Ok (Str (lit "Zg==")).
Proof.
  assert (Hlimit : 2 ≤ recursion_limit Samples.picky_world) by (cbn; lia).
  split; [exact Hlimit|]. do 4 (split; [reflexivity|]).
  exact (errfilename_falls_back_to_base64 Samples.picky_world 1 5
           Samples.odd_folder UnicodeEncodeError (lit "Zg==")
           (Str (lit "Zg==")) Hlimit eq_refl eq_refl eq_refl eq_refl).
Defined.

Lemma errfilename_raises_other_failures_witness :
  1 ≤ recursion_limit Samples.readonly_world
  ∧ Props.attempt Samples.readonly_world 1 Samples.odd_folder 5
    = Raise OSError
  ∧ isinstance OSError UnicodeEncodeError = false
  ∧ _get_errfilename Samples.readonly_world 1 Samples.odd_folder 5
    = Raise OSError.
Proof.
  assert (Hlimit : 1 ≤ recursion_limit Samples.readonly_world)
    by (cbn; lia).
  split; [exact Hlimit|]. do 2 (split; [reflexivity|]).
  exact (errfilename_raises_other_failures Samples.readonly_world 1 5
           Samples.odd_folder OSError Hlimit eq_refl eq_refl).
Defined.

Lemma errfilename_gives_up_witness :
  (∀ name, ∃ e, Props.attempt Samples.deaf_world 1 name 5 = Raise e
               ∧ isinstance e UnicodeEncodeError = true)
  ∧ ∃ e, _get_errfilename Samples.deaf_world 1 Samples.odd_folder 5 = Raise e
         ∧ (e = RuntimeError
            ∨ ∃ name, b64encode_utf8 Samples.deaf_world name = Raise e).
Proof.
  assert (Hdeaf : ∀ name, ∃ e,
            Props.attempt Samples.deaf_world 1 name 5 = Raise e
            ∧ isinstance e UnicodeEncodeError = true)
    by (intros name; exists UnicodeEncodeError; split; reflexivity).
  split; [exact Hdeaf|].
  exact (errfilename_gives_up Samples.deaf_world 1 5 Samples.odd_folder
           Hdeaf).
Defined.


(** ** The try body of [create_from_synced], attribute by attribute *)

Section RecordAlgebra.
Context (E : Env).
Implicit Types (self base : Message.t) (l : list Part.t).

Lemma set_parts_parts self : Message.set_parts (Message.parts self) self = self.
Proof. by destruct self. Qed.

Lemma set_parts_set_parts l l' self :
  Message.set_parts l (Message.set_parts l' self) = Message.set_parts l self.
Proof. by destruct self. Qed.

Lemma mark_error_set_parts l self :
  Message._mark_error E (Message.set_parts l self)
  = Message.set_parts l (Message._mark_error E self).
Proof.
  unfold Message._mark_error.
  destruct self as [? ? ? ? ? ? ? ? ? ? ? ? rd ? ? ? ? ? sb sn].
  destruct rd, sb, sn; reflexivity.
Qed.

Lemma set_snippet_set_sanitized_body snippet body self :
  Message.set_snippet snippet (Message.set_sanitized_body body self)
  = Message.set_sanitized_body body (Message.set_snippet snippet self).
Proof. by destruct self. Qed.

Lemma walked_add_part part ps (b : bool) base :
  Message.parts base = [] →
  Message.set_parts (Message.parts (Message.add_part part base) ++ ps)
    (if b then Message._mark_error E (Message.add_part part base)
     else Message.add_part part base)
  = Props.walked E (part :: ps) b base.
Proof.
  intros Hparts. unfold Props.walked, Message.add_part. rewrite Hparts.
  change (Message.parts (Message.set_parts ?l _)) with l.
  destruct b; by rewrite ?mark_error_set_parts, set_parts_set_parts.
Qed.

(** The attributes of a message after the loop. *)
Lemma walked_fields l (b : bool) base :
  let self := Props.walked E l b base in
  Message.full_body self = Message.full_body base
  ∧ Message.namespace_id self = Message.namespace_id base
  ∧ Message.data_sha256 self = Message.data_sha256 base
  ∧ Message.subject self = Message.subject base
  ∧ Message.from_addr self = Message.from_addr base
  ∧ Message.sender_addr self = Message.sender_addr base
  ∧ Message.reply_to self = Message.reply_to base
  ∧ Message.to_addr self = Message.to_addr base
  ∧ Message.cc_addr self = Message.cc_addr base
  ∧ Message.bcc_addr self = Message.bcc_addr base
  ∧ Message.in_reply_to self = Message.in_reply_to base
  ∧ Message.message_id_header self = Message.message_id_header base
  ∧ Message.inbox_uid self = Message.inbox_uid base
  ∧ Message.references self = Message.references base
  ∧ Message.parts self = l
  ∧ Message.decode_error self = b || Message.decode_error base
  ∧ Message.size self = (if b then Some 0 else Message.size base)
  ∧ Message.received_date self
    = (if b then Some (default (utcnow E) (Message.received_date base))
       else Message.received_date base)
  ∧ Message.snippet self
    = (if b then Some (default [] (Message.snippet base))
       else Message.snippet base).
Proof.
  unfold Props.walked. destruct b; cbn; [|by repeat split].
  destruct (mark_error_effect E base)
    as (Hde & Hsz & Hrd & Hsb & Hsn & Hfb & Hns & Hsha & Hsubj & Hfrom
        & Hsender & Hreply & Hto & Hcc & Hbcc & Hirt & Hmid & Huid & Hrefs
        & Hparts).
  by repeat split.
Qed.

End RecordAlgebra.

Section TryBody.
Context (E : Env).
Implicit Types (self base : Message.t) (walk : list MimePart.t).

Lemma validate_length_ok (value : option unicode) :
  Props.subject_ok (Message.validate_length value).
Proof.
  destruct value as [v|]; [|exact I]. unfold Message.validate_length.
  destruct (Nat.ltb_spec 255 (length v)); unfold Props.subject_ok; [|lia].
  change 255%Z with (Z.of_nat 255). apply slice_to_length.
Qed.

(** The loop appends Parts and, for a rejected disposition, marks the
    message; it does nothing else to it, also when it is interrupted. *)
Lemma walk_parts_shape account_id namespace_id mid walk i self :
  wp (Message.walk_parts E account_id namespace_id mid i walk)
     (λ _ self',
        ∃ ps, self' = Message.set_parts (Message.parts self ++ ps)
                        (if Props.flagged walk
                         then Message._mark_error E self else self))
     (λ _ self',
        ∃ ps (b : bool),
          self' = Message.set_parts (Message.parts self ++ ps)
                    (if b then Message._mark_error E self else self))
     self.
Proof.
  revert i self. induction walk as [|mimepart walk IH]; intros i self.
  - apply wp_ret. exists []. by rewrite app_nil_r, set_parts_parts.
  - cbn [Message.walk_parts Props.flagged existsb].
    destruct (ContentType.is_multipart _); [apply IH|]. cbn [negb andb].
    apply wp_bind.
    destruct (Message.unknown_disposition _) eqn:Hdisp; cbn [orb].
    + eapply wp_run; [by apply parse_mimepart_unknown_disposition|].
      do 2 wp_step.
      * eapply wp_mono; [apply IH| |].
        -- intros ? self' (ps & ->). exists ps.
           rewrite mark_error_parts, mark_error_idempotent.
           by destruct (Props.flagged walk).
        -- intros ? self' (ps & b & ->). exists ps, true.
           rewrite mark_error_parts, mark_error_idempotent.
           by destruct b.
      * exists [], true. by rewrite app_nil_r, <- (mark_error_parts E self),
          set_parts_parts.
    + destruct (parse_mimepart_kept E mimepart mid (S i) namespace_id self
                  Hdisp) as (part & r & Hrun & _).
      eapply wp_run; [exact Hrun|].
      assert (Hadd : ∀ ps (b : bool),
                Message.set_parts
                  (Message.parts (Message.add_part part self) ++ ps)
                  (if b then Message._mark_error E (Message.add_part part self)
                   else Message.add_part part self)
                = Message.set_parts (Message.parts self ++ part :: ps)
                    (if b then Message._mark_error E self else self)).
      { intros ps b. unfold Message.add_part.
        change (Message.parts (Message.set_parts ?l _)) with l.
        rewrite <- app_assoc.
        destruct b; by rewrite ?mark_error_set_parts, set_parts_set_parts. }
      destruct r as [[]|e].
      * do 2 wp_step.
        -- eapply wp_mono; [apply IH| |].
           ++ intros ? self' (ps & ->). exists (part :: ps). apply Hadd.
           ++ intros ? self' (ps & b & ->). exists (part :: ps), b.
              apply Hadd.
        -- exists [part], false. reflexivity.
      * exists [part], false. reflexivity.
Qed.

(** The loop and the body sanitization, from a message with no Part but
    the one of the headers. *)
Lemma store_parts account_id namespace_id mid walk i part base :
  Message.parts base = [] →
  wp (Message.walk_parts E account_id namespace_id mid i walk;;
      Message.calculate_sanitized_body E)
     (λ _ self,
        ∃ ps snippet body,
          self = Message.set_sanitized_body (Some body)
                   (Message.set_snippet snippet
                      (Props.walked E (part :: ps) (Props.flagged walk) base))
          ∧ Props.snippet_ok snippet)
     (λ _ self,
        ∃ l (b : bool),
          self = Props.walked E l b base
          ∨ ∃ text,
              self = Message.set_snippet
                       (Some (Message.calculate_plaintext_snippet text))
                       (Props.walked E l b base))
     (Message.add_part part base).
Proof.
  intros Hparts. apply wp_bind.
  eapply wp_mono; [apply walk_parts_shape| |].
  - intros ? self' (ps & ->). rewrite (walked_add_part E _ _ _ _ Hparts).
    unfold wp.
    destruct (Message.calculate_sanitized_body E _) as [self'' r] eqn:Hcalc.
    destruct (calculate_sanitized_body_shape _ _ _ _ Hcalc)
      as [[-> [e ->]]|[(text & -> & e & ->)
         |[(snippet & body & -> & Hok & ->)|[-> ->]]]].
    + eexists _, _. by left.
    + eexists _, _. right. by eexists.
    + by eexists _, _, _.
    + rewrite set_snippet_set_sanitized_body. eexists _, _, _.
      split; [reflexivity|]. apply empty_snippet_ok.
  - intros e self' (ps & b & ->). rewrite (walked_add_part E _ _ _ _ Hparts).
    eexists _, _. by left.
Qed.

(** An interruption after the attributes are populated. *)
Lemma populated_interrupted namespace_id body_string received_date parsed
    base l (b : bool) self :
  Props.populated E namespace_id body_string received_date parsed base →
  (self = Props.walked E l b base
   ∨ ∃ text,
       self = Message.set_snippet
                (Some (Message.calculate_plaintext_snippet text))
                (Props.walked E l b base)) →
  Message.snippet base = None →
  Props.interrupted namespace_id body_string received_date self.
Proof.
  intros (Hfb & Hns & _ & Hsubj & _ & _ & _ & _ & _ & _ & _ & _ & Hrd & _)
         Hself Hsnippet.
  destruct (walked_fields E l b base)
    as (Hfb' & Hns' & _ & Hsubj' & _ & _ & _ & _ & _ & _ & _ & _ & _ & _ & _
        & _ & _ & Hrd' & Hsn').
  assert (Hdate : ∀ d, received_date = Some d →
            Message.received_date (Props.walked E l b base) = Some d).
  { intros d ->. rewrite Hrd', Hrd. by destruct b. }
  rewrite Hfb in Hfb'. rewrite Hns in Hns'. rewrite Hsubj in Hsubj'.
  rewrite Hsnippet in Hsn'.
  revert Hself Hfb' Hns' Hsubj' Hsn' Hdate.
  generalize (Props.walked E l b base).
  intros w Hself Hfb' Hns' Hsubj' Hsn' Hdate. unfold Props.interrupted.
  destruct Hself as [->|[text ->]]; cbn; rewrite Hfb', Hns', Hsubj';
    (split_and!; [done|done|apply validate_length_ok| |by right; apply Hdate]).
  - rewrite Hsn'. destruct b; [right|by left]. exists []. reflexivity.
  - right. by exists text.
Qed.

End TryBody.

(** One step of the try body, up to the loop. *)
Ltac wp_head :=
  cbv beta iota;
  lazymatch goal with
  | |- wp (mbind _ (Message.walk_parts _ _ _ _ _ _)) _ _ _ => fail
  | _ => wp_step
  end.

(** Closes the goal of an interruption before the loop. *)
Ltac interrupted_now :=
  cbv beta; unfold Props.interrupted;
  split_and!;
  [ reflexivity
  | reflexivity
  | first [exact I | apply validate_length_ok]
  | left; reflexivity
  | let d := fresh "d" in
    let Hd := fresh "Hd" in
    intros d Hd;
    first [ left; reflexivity
          | discriminate Hd
          | injection Hd as <-; right; reflexivity ] ].

Section Outcome.
Context (E : Env) (account : Account.t) (namespace : Namespace.t) (mid : Z)
        (folder_name : pytext) (received_date : option timestamp)
        (body_string : str).
Implicit Types (self msg m : Message.t).

Local Abbreviation ns := (Namespace.id namespace).

(** What the try body leaves behind: when it completes, the populated
    message with the headers Part, the Parts of the walk, the marker of a
    rejected disposition, a snippet and a sanitized body; when it is
    interrupted, a message that has its raw body. *)
Lemma ingest_outcome :
  wp (Message.ingest E account namespace mid received_date body_string)
     (λ _ self,
        ∃ parsed dumped base ps snippet body,
          mime_from_string E body_string = Ok parsed
          ∧ json_dumps E (MimePart.headers (Parsed.top parsed)) = Ok dumped
          ∧ Props.populated E ns body_string received_date parsed base
          ∧ self
            = Message.set_sanitized_body (Some body)
                (Message.set_snippet snippet
                   (Props.walked E (Props.headers_part ns dumped :: ps)
                      (Props.flagged
                         (Parsed.walk parsed
                            (ContentType.is_singlepart
                               (MimePart.content_type (Parsed.top parsed)))))
                      base))
          ∧ Props.snippet_ok snippet)
     (λ _, Props.interrupted ns body_string received_date)
     Message.new.
Proof.
  unfold Message.ingest. cbv zeta.
  repeat (wp_head; try interrupted_now).
  destruct received_date as [date|]; repeat (wp_head; try interrupted_now).
  all: lazymatch goal with
       | Htok : mime_from_string E body_string = Ok ?parsed
         |- wp _ _ (λ _, Props.interrupted _ _ ?rd)
              (Message.add_part _ ?big) =>
           assert (Hpop : Props.populated E ns body_string rd parsed big)
             by (unfold Props.populated, Props.holds; cbv zeta;
                 repeat match goal with
                        | H : ?r = Ok _ |- context [?r] => rewrite H
                        end;
                 cbv beta iota; split_and!; reflexivity);
           assert (Hsn : Message.snippet big = None) by reflexivity;
           assert (Hparts : Message.parts big = []) by reflexivity;
           revert Hpop Hsn Hparts; generalize big;
           intros base Hpop Hsn Hparts
       end.
  all: (eapply wp_mono; [by apply store_parts| |]).
  all: try (intros ? self (ps & snippet & body & -> & Hok);
            eexists _, _, _, _, _, _;
            split; [reflexivity|]; split; [eassumption|];
            split; [exact Hpop|]; split; [reflexivity|exact Hok]).
  all: intros e self (l & b & Hself); by eapply populated_interrupted.
Qed.

End Outcome.

(** ** The message [create_from_synced] returns *)

Section Returned.
Context (E : Env) (account : Account.t) (namespace : Namespace.t) (mid : Z)
        (folder_name : pytext) (received_date : option timestamp)
        (body_string : str).
Implicit Types (self msg m : Message.t) (f : Message.field).

Local Abbreviation ns := (Namespace.id namespace).
Local Abbreviation create :=
  (Message.create_from_synced E (Some account) (Some mid) (Some folder_name)
     received_date (Some (Str body_string))).
Local Abbreviation try_body :=
  (Message.ingest E account namespace mid received_date body_string
     Message.new).
Local Abbreviation try_statement :=
  (Message.parse_stage E account namespace mid folder_name received_date
     body_string Message.new).

(** A returned message is what the post-pass makes of the message the try
    statement leaves. *)
Lemma returned_message m :
  Account.namespace account = Some namespace →
  create = Ok m →
  ∃ msg, try_statement = (msg, Ok tt)
         ∧ m = foldl (Spec.guard_field E) msg Message.guarded_fields.
Proof.
  intros Hns. rewrite (create_from_synced_stages _ _ _ _ _ _ _ Hns).
  destruct (Message.parse_stage _ _ _ _ _ _ _ _) as [msg [[]|e]];
    [|discriminate].
  destruct (Message.check_fields _ _ _ _ _ _ _) as [m' [[]|e]] eqn:Hcheck;
    [|discriminate].
  intros [= ->]. exists msg. split; [reflexivity|].
  by apply check_fields_ok in Hcheck.
Qed.

(** The try statement returns after the try body or after the handler. *)
Lemma parse_stage_cases msg :
  try_statement = (msg, Ok tt) →
  try_body = (msg, Ok tt)
  ∨ ∃ self e, try_body = (self, Raise e)
              ∧ caught Message.parse_errors e = true
              ∧ msg = Message._mark_error E self.
Proof.
  unfold Message.parse_stage, try_except.
  destruct (Message.ingest _ _ _ _ _ _ _) as [self [[]|e]];
    [intros [= ->]; by left|].
  destruct (caught Message.parse_errors e) eqn:Hcaught; [|discriminate].
  unfold mbind, Eff_bind, lift, modify.
  destruct (_log_decode_error E _ _ _ _); [|discriminate].
  destruct (_get_errfilename E _ _ _); [|discriminate].
  intros [= <-]. right. by exists self, e.
Qed.

Lemma mark_error_marked self : Props.marked (Message._mark_error E self).
Proof.
  destruct (mark_error_effect E self) as (Hde & Hsz & Hrd & _).
  unfold Props.marked. rewrite Hrd. by split_and!.
Qed.

Lemma guard_field_marked self f :
  Props.marked self → Props.marked (Spec.guard_field E self f).
Proof.
  unfold Spec.guard_field. destruct (json_field_too_long E _); [|done].
  intros _. apply mark_error_marked.
Qed.

Lemma guard_fields_marked fields self :
  Props.marked self → Props.marked (foldl (Spec.guard_field E) self fields).
Proof.
  revert self. induction fields as [|f fields IH]; intros self; [done|].
  intros Hmarked. cbn [foldl]. by apply IH, guard_field_marked.
Qed.

(** The post-pass leaves the message as it is, or marked. *)
Lemma guard_fields_cases fields msg :
  foldl (Spec.guard_field E) msg fields = msg
  ∨ Props.marked (foldl (Spec.guard_field E) msg fields).
Proof.
  revert msg. induction fields as [|f fields IH]; intros msg; [by left|].
  cbn [foldl].
  destruct (json_field_too_long E (Message.getattr msg f)) eqn:Hlong.
  - right. apply guard_fields_marked. unfold Spec.guard_field.
    rewrite Hlong. apply mark_error_marked.
  - assert (Spec.guard_field E msg f = msg) as ->; [|apply IH].
    unfold Spec.guard_field. by rewrite Hlong.
Qed.


(** The message the try statement leaves. *)
Lemma parse_stage_outcome msg :
  try_statement = (msg, Ok tt) →
  Message.full_body msg = Some (Props.raw_block ns body_string)
  ∧ Message.namespace_id msg = Some ns
  ∧ Props.subject_ok (Message.subject msg)
  ∧ is_Some (Message.sanitized_body msg)
  ∧ Props.snippet_ok (Message.snippet msg)
  ∧ Message.size msg
    = Some (if Message.decode_error msg then 0 else length body_string)
  ∧ (Message.decode_error msg = true → is_Some (Message.received_date msg))
  ∧ (∀ d, received_date = Some d →
       Message.received_date msg = Some d
       ∨ (Message.received_date msg = Some (utcnow E)
          ∧ Message.decode_error msg = true)).
Proof.
  intros [Hbody|(self & e & Hbody & _ & ->)]%parse_stage_cases.
  - pose proof (wp_ok _ _ _ _ _ _
                  (ingest_outcome E account namespace mid received_date
                     body_string) Hbody)
      as (parsed & dumped & base & ps & snippet & body & _ & _ & Hpop & ->
          & Hok).
    destruct Hpop as (Hfb & Hns & _ & Hsubj & _ & _ & _ & _ & _ & _ & _ & _
                      & Hrd & _ & _ & Hsz & Hde).
    destruct (walked_fields E (Props.headers_part ns dumped :: ps)
                (Props.flagged
                   (Parsed.walk parsed
                      (ContentType.is_singlepart
                         (MimePart.content_type (Parsed.top parsed)))))
                base)
      as (Hfb' & Hns' & _ & Hsubj' & _ & _ & _ & _ & _ & _ & _ & _ & _ & _
          & _ & Hde' & Hsz' & Hrd' & _).
    revert Hfb' Hns' Hsubj' Hde' Hsz' Hrd'.
    generalize (Props.flagged
                  (Parsed.walk parsed
                     (ContentType.is_singlepart
                        (MimePart.content_type (Parsed.top parsed))))).
    intros b. generalize (Props.walked E (Props.headers_part ns dumped :: ps)
                            b base).
    intros w Hfb' Hns' Hsubj' Hde' Hsz' Hrd'. cbn.
    rewrite Hfb', Hns', Hsubj', Hde', Hsz', Hrd', Hfb, Hns, Hsubj, Hde, Hsz.
    split_and!; [done|done|apply validate_length_ok|done|done
                |by destruct b|destruct b; [done|discriminate]|].
    intros d ->. rewrite Hrd. left. by destruct b.
  - pose proof (wp_raise _ _ _ _ _ _
                  (ingest_outcome E account namespace mid received_date
                     body_string) Hbody)
      as (Hfb & Hns & Hsubj & Hsn & Hrd).
    destruct (mark_error_effect E self)
      as (Hde' & Hsz' & Hrd' & Hsb' & Hsn' & Hfb' & Hns' & _ & Hsubj' & _).
    rewrite Hfb', Hns', Hsubj', Hde', Hsz', Hrd', Hsb', Hsn', Hfb, Hns.
    split_and!; [done|done|done|done| |done|done|].
    + destruct Hsn as [-> | [text ->]];
        [apply empty_snippet_ok|apply plaintext_snippet_ok].
    + intros d Hd. destruct (Hrd d Hd) as [-> | ->]; [by right|by left].
Qed.

(** The message the call returns. *)
Lemma returned_outcome m :
  Account.namespace account = Some namespace →
  create = Ok m →
  Message.full_body m = Some (Props.raw_block ns body_string)
  ∧ Message.namespace_id m = Some ns
  ∧ Props.subject_ok (Message.subject m)
  ∧ is_Some (Message.sanitized_body m)
  ∧ Props.snippet_ok (Message.snippet m)
  ∧ Message.size m
    = Some (if Message.decode_error m then 0 else length body_string)
  ∧ (Message.decode_error m = true → is_Some (Message.received_date m))
  ∧ (∀ d, received_date = Some d →
       Message.received_date m = Some d
       ∨ (Message.received_date m = Some (utcnow E)
          ∧ Message.decode_error m = true)).
Proof.
  intros Hns Hm. destruct (returned_message m Hns Hm) as (msg & Hstage & ->).
  clear Hm.
  destruct (parse_stage_outcome msg Hstage)
    as (Hfb & Hnsid & Hsubj & Hsb & Hsn & Hsz & Hrd & Hdate).
  destruct (guard_fields_effect E Message.guarded_fields msg
              guarded_fields_nodup)
    as ((Ksubj & _ & _ & _ & _ & _ & _ & _ & Knsid & Kfb & _ & Krd & Ksb
         & Ksn & _ & Kde) & _).
  destruct (guard_fields_cases Message.guarded_fields msg)
    as [Hsame|(Mde & Msz & Mrd)].
  { rewrite Hsame. by split_and!. }
  revert Ksubj Knsid Kfb Krd Ksb Ksn Kde Mde Msz Mrd.
  generalize (foldl (Spec.guard_field E) msg Message.guarded_fields).
  intros m Ksubj Knsid Kfb Krd Ksb Ksn Kde Mde Msz Mrd.
  rewrite Ksubj, Knsid, Kfb, Mde, Msz, (Ksb Hsb).
  assert (Hset : is_Some (Message.snippet msg))
    by (destruct Hsn as (text & -> & _); by eexists).
  rewrite (Ksn Hset).
  split_and!; try done.
  intros d Hd.
  destruct (Hdate d Hd) as [Hgiven|[Hnow _]].
  - left. rewrite Krd; [done|]. rewrite Hgiven. by eexists.
  - right. split; [|done]. rewrite Krd; [done|]. rewrite Hnow. by eexists.
Qed.

Lemma decode_error_sanitized body snippet self :
  Message.decode_error
    (Message.set_sanitized_body body (Message.set_snippet snippet self))
  = Message.decode_error self.
Proof. reflexivity. Qed.

(** X21.  Whatever happened inside, a returned message can be stored: it
    has a sanitized body, a snippet of at most 191 characters with no
    whitespace run, a subject of at most 255 characters or none, a size,
    and, when it is flagged, a received date. *)
Theorem returned_message_is_storable m :
  Account.namespace account = Some namespace →
  create = Ok m →
  is_Some (Message.sanitized_body m)
  ∧ Props.snippet_ok (Message.snippet m)
  ∧ Props.subject_ok (Message.subject m)
  ∧ is_Some (Message.size m)
  ∧ (Message.decode_error m = true → is_Some (Message.received_date m)).
Proof.
  intros Hns Hm.
  destruct (returned_outcome m Hns Hm)
    as (_ & _ & Hsubj & Hsb & Hsn & Hsz & Hrd & _).
  rewrite Hsz. by split_and!.
Qed.

(** X22.  Whatever happened inside, a returned message keeps the raw
    message: its full body is a text/plain Block of the namespace of the
    account that holds the byte string as it was given. *)
Theorem raw_body_is_kept m :
  Account.namespace account = Some namespace →
  create = Ok m →
  Message.full_body m = Some (Props.raw_block ns body_string)
  ∧ Message.namespace_id m = Some ns.
Proof.
  intros Hns Hm. destruct (returned_outcome m Hns Hm) as (Hfb & Hnsid & _).
  by split.
Qed.

(** X23.  The size of a returned message is the length of the raw message
    when the message is not flagged, and 0 when it is. *)
Theorem size_follows_the_flag m :
  Account.namespace account = Some namespace →
  create = Ok m →
  Message.size m
  = Some (if Message.decode_error m then 0 else length body_string).
Proof.
  intros Hns Hm. by destruct (returned_outcome m Hns Hm) as (_ & _ & _ & _ & _ & Hsz & _).
Qed.

(** X24.  A date given by the caller is never replaced by a date of the
    headers: the returned message has that date, or, when parsing failed
    before the date was assigned, the time of the call. *)
Theorem given_date_is_kept m (d : timestamp) :
  Account.namespace account = Some namespace →
  received_date = Some d →
  create = Ok m →
  Message.received_date m = Some d
  ∨ (Message.received_date m = Some (utcnow E)
     ∧ Message.decode_error m = true).
Proof.
  intros Hns Hd Hm.
  destruct (returned_outcome m Hns Hm) as (_ & _ & _ & _ & _ & _ & _ & Hdate).
  by apply Hdate.
Qed.


Lemma ingest_tokenizer_failure e :
  mime_from_string E body_string = Raise e →
  try_body
  = (Message.set_namespace_id (Some ns)
       (Message.set_full_body (Some (Props.raw_block ns body_string))
          Message.new),
     Raise e).
Proof. intros Htok. unfold Message.ingest. rewrite Htok. reflexivity. Qed.

(** X26.  When the tokenizer fails and the message is returned all the
    same, the message is a stub: flagged, of size 0, dated with the time
    of the call even when the caller gave a date, with an empty sanitized
    body and an empty snippet, without subject, digest, sender or Parts,
    so that reading its headers fails; it still has the raw message. *)
Theorem tokenizer_failure_leaves_a_stub m e :
  Account.namespace account = Some namespace →
  mime_from_string E body_string = Raise e →
  create = Ok m →
  Message.decode_error m = true
  ∧ Message.size m = Some 0
  ∧ Message.received_date m = Some (utcnow E)
  ∧ Message.sanitized_body m = Some []
  ∧ Message.snippet m = Some []
  ∧ Message.subject m = None
  ∧ Message.data_sha256 m = None
  ∧ Message.from_addr m = None
  ∧ Message.parts m = []
  ∧ Message.full_body m = Some (Props.raw_block ns body_string)
  ∧ ∀ J (json_decode : option pytext → result J),
      Accessors.headers json_decode m = Raise AssertionError.
Proof.
  intros Hns Htok Hm.
  destruct (returned_message m Hns Hm) as (msg & Hstage & ->). clear Hm.
  assert (Hmsg : msg
                 = Message._mark_error E
                     (Message.set_namespace_id (Some ns)
                        (Message.set_full_body
                           (Some (Props.raw_block ns body_string))
                           Message.new))).
  { apply parse_stage_cases in Hstage
      as [Hbody|(self & e' & Hbody & _ & ->)];
      rewrite (ingest_tokenizer_failure e Htok) in Hbody;
      [discriminate|]. by injection Hbody as <- _. }
  assert (Hstub : Message.decode_error msg = true
                  ∧ Message.size msg = Some 0
                  ∧ Message.received_date msg = Some (utcnow E)
                  ∧ Message.sanitized_body msg = Some []
                  ∧ Message.snippet msg = Some []
                  ∧ Message.subject msg = None
                  ∧ Message.data_sha256 msg = None
                  ∧ Message.from_addr msg = None
                  ∧ Message.parts msg = []
                  ∧ Message.full_body msg
                    = Some (Props.raw_block ns body_string))
    by (rewrite Hmsg; by split_and!).
  clear Hmsg Hstage.
  destruct Hstub as (Hde & Hsz & Hrd & Hsb & Hsn & Hsubj & Hsha & Hfrom
                     & Hparts & Hfb).
  destruct (guard_fields_effect E Message.guarded_fields msg
              guarded_fields_nodup)
    as ((Ksubj & Kfrom & _ & _ & _ & _ & _ & Ksha & _ & Kfb & Kparts & Krd
         & Ksb & Ksn & _ & Kde) & _).
  assert (Hsize : Message.size
                    (foldl (Spec.guard_field E) msg Message.guarded_fields)
                  = Some 0).
  { destruct (guard_fields_cases Message.guarded_fields msg)
      as [->|(_ & Msz & _)]; done. }
  revert Ksubj Kfrom Ksha Kfb Kparts Krd Ksb Ksn Kde Hsize.
  generalize (foldl (Spec.guard_field E) msg Message.guarded_fields).
  intros m Ksubj Kfrom Ksha Kfb Kparts Krd Ksb Ksn Kde Hsize.
  rewrite Ksubj, Kfrom, Ksha, Kfb, Kparts, Krd, Ksb, Ksn, Hsize
    by (rewrite ?Hrd, ?Hsb, ?Hsn; by eexists).
  split_and!; try done; [by apply Kde|].
  intros J json_decode. unfold Accessors.headers. by rewrite Kparts, Hparts.
Qed.

(** X27.  A returned message that is not flagged is the message as it was
    parsed: its attributes are those read from the tokenized message, its
    first Part holds the serialized headers, which is what reading the
    headers decodes, no walked part was rejected and no guarded field is
    too long. *)
Theorem unflagged_message_is_the_parse m :
  Account.namespace account = Some namespace →
  create = Ok m →
  Message.decode_error m = false →
  ∃ parsed dumped,
    mime_from_string E body_string = Ok parsed
    ∧ json_dumps E (MimePart.headers (Parsed.top parsed)) = Ok dumped
    ∧ Props.populated E ns body_string received_date parsed m
    ∧ head (Message.parts m) = Some (Props.headers_part ns dumped)
    ∧ Props.flagged
        (Parsed.walk parsed
           (ContentType.is_singlepart
              (MimePart.content_type (Parsed.top parsed)))) = false
    ∧ (∀ f, json_field_too_long E (Message.getattr m f) = false)
    ∧ ∀ J (json_decode : option pytext → result J),
        Accessors.headers json_decode m = json_decode (Some (Str dumped)).
Proof.
  intros Hns Hm Hclean.
  destruct (returned_message m Hns Hm) as (msg & Hstage & ->). clear Hm.
  destruct (guard_fields_effect E Message.guarded_fields msg
              guarded_fields_nodup) as (_ & _ & Hin).
  destruct (guard_fields_cases Message.guarded_fields msg)
    as [Hsame|(Mde & _)]; [|congruence].
  rewrite Hsame in Hclean, Hin |- *. clear Hsame.
  assert (Hshort : ∀ f, json_field_too_long E (Message.getattr msg f) = false).
  { intros f. specialize (Hin f (guarded_fields_all f)).
    destruct (json_field_too_long E _); [|done].
    destruct Hin as [_ Hflag]. congruence. }
  clear Hin.
  apply parse_stage_cases in Hstage as [Hbody|(self & e & _ & _ & ->)].
  2: { destruct (mark_error_effect E self) as (Hde & _). congruence. }
  pose proof (wp_ok _ _ _ _ _ _
                (ingest_outcome E account namespace mid received_date
                   body_string) Hbody)
    as (parsed & dumped & base & ps & snippet & body & Htok & Hdump & Hpop
        & Hself & _).
  exists parsed, dumped.
  assert (Hflag : Props.flagged
                    (Parsed.walk parsed
                       (ContentType.is_singlepart
                          (MimePart.content_type (Parsed.top parsed))))
                  = false).
  { destruct (walked_fields E (Props.headers_part ns dumped :: ps)
                (Props.flagged
                   (Parsed.walk parsed
                      (ContentType.is_singlepart
                         (MimePart.content_type (Parsed.top parsed)))))
                base)
      as (_ & _ & _ & _ & _ & _ & _ & _ & _ & _ & _ & _ & _ & _ & _ & Hde'
          & _).
    rewrite Hself, decode_error_sanitized, Hde' in Hclean.
    by apply orb_false_iff in Hclean as [? _]. }
  rewrite Hflag in Hself. unfold Props.walked in Hself.
  split_and!; [done|done| |by rewrite Hself|done|done|].
  - rewrite Hself. exact Hpop.
  - intros J json_decode. by rewrite Hself.
Qed.

End Returned.

(** ** Runs of the further properties in the sample worlds *)

Lemma returned_message_is_storable_witness :
  let m := Demo.returned
             (Message.create_from_synced Samples.broken_world (Some Demo.account)
      (Some 5%Z) (Some Demo.folder) None (Some (Str Demo.raw))) in
  Account.namespace Demo.account = Some (Namespace.mk 7)
  ∧ Message.create_from_synced Samples.broken_world (Some Demo.account)
      (Some 5%Z) (Some Demo.folder) None (Some (Str Demo.raw)) = Ok m
  ∧ (is_Some (Message.sanitized_body m)
     ∧ Props.snippet_ok (Message.snippet m)
     ∧ Props.subject_ok (Message.subject m)
     ∧ is_Some (Message.size m)
     ∧ (Message.decode_error m = true → is_Some (Message.received_date m))).
Proof.
  intros m.
  assert (Hrun : Message.create_from_synced Samples.broken_world (Some Demo.account)
      (Some 5%Z) (Some Demo.folder) None (Some (Str Demo.raw)) = Ok m)
    by (vm_compute; reflexivity).
  split; [reflexivity|]. split; [exact Hrun|].
  exact (returned_message_is_storable Samples.broken_world Demo.account (Namespace.mk 7) 5 Demo.folder
           None Demo.raw m eq_refl Hrun).
Defined.

Lemma raw_body_is_kept_witness :
  let m := Demo.returned
             (Message.create_from_synced Samples.broken_world (Some Demo.account)
      (Some 5%Z) (Some Demo.folder) None (Some (Str Demo.raw))) in
  Account.namespace Demo.account = Some (Namespace.mk 7)
  ∧ Message.create_from_synced Samples.broken_world (Some Demo.account)
      (Some 5%Z) (Some Demo.folder) None (Some (Str Demo.raw)) = Ok m
  ∧ (Message.full_body m
     = Some (Props.raw_block (Namespace.id (Namespace.mk 7)) Demo.raw)
     ∧ Message.namespace_id m = Some (Namespace.id (Namespace.mk 7))).
Proof.
  intros m.
  assert (Hrun : Message.create_from_synced Samples.broken_world (Some Demo.account)
      (Some 5%Z) (Some Demo.folder) None (Some (Str Demo.raw)) = Ok m)
    by (vm_compute; reflexivity).
  split; [reflexivity|]. split; [exact Hrun|].
  exact (raw_body_is_kept Samples.broken_world Demo.account (Namespace.mk 7) 5 Demo.folder
           None Demo.raw m eq_refl Hrun).
Defined.

Lemma size_follows_the_flag_witness :
  let m := Demo.returned
             (Message.create_from_synced Samples.form_world (Some Demo.account)
      (Some 5%Z) (Some Demo.folder) None (Some (Str Demo.raw))) in
  Account.namespace Demo.account = Some (Namespace.mk 7)
  ∧ Message.create_from_synced Samples.form_world (Some Demo.account)
      (Some 5%Z) (Some Demo.folder) None (Some (Str Demo.raw)) = Ok m
  ∧ Message.size m
    = Some (if Message.decode_error m then 0 else length Demo.raw).
Proof.
  intros m.
  assert (Hrun : Message.create_from_synced Samples.form_world (Some Demo.account)
      (Some 5%Z) (Some Demo.folder) None (Some (Str Demo.raw)) = Ok m)
    by (vm_compute; reflexivity).
  split; [reflexivity|]. split; [exact Hrun|].
  exact (size_follows_the_flag Samples.form_world Demo.account (Namespace.mk 7) 5 Demo.folder
           None Demo.raw m eq_refl Hrun).
Defined.

Lemma given_date_is_kept_witness :
  let m := Demo.returned
             (Message.create_from_synced Samples.world (Some Demo.account)
      (Some 5%Z) (Some Demo.folder) (Some 1234%Z) (Some (Str Demo.raw))) in
  Account.namespace Demo.account = Some (Namespace.mk 7)
  ∧ Some 1234%Z = Some 1234%Z
  ∧ Message.create_from_synced Samples.world (Some Demo.account)
      (Some 5%Z) (Some Demo.folder) (Some 1234%Z) (Some (Str Demo.raw)) = Ok m
  ∧ (Message.received_date m = Some 1234%Z
     ∨ (Message.received_date m = Some (utcnow Samples.world)
        ∧ Message.decode_error m = true)).
Proof.
  intros m.
  assert (Hrun : Message.create_from_synced Samples.world (Some Demo.account)
      (Some 5%Z) (Some Demo.folder) (Some 1234%Z) (Some (Str Demo.raw)) = Ok m)
    by (vm_compute; reflexivity).
  split; [reflexivity|]. split; [reflexivity|]. split; [exact Hrun|].
  exact (given_date_is_kept Samples.world Demo.account (Namespace.mk 7) 5 Demo.folder
           (Some 1234%Z) Demo.raw m 1234%Z eq_refl eq_refl Hrun).
Defined.

Lemma tokenizer_failure_leaves_a_stub_witness :
  let m := Demo.returned
             (Message.create_from_synced Samples.broken_world (Some Demo.account)
      (Some 5%Z) (Some Demo.folder) (Some 1234%Z) (Some (Str Demo.raw))) in
  Account.namespace Demo.account = Some (Namespace.mk 7)
  ∧ mime_from_string Samples.broken_world Demo.raw = Raise DecodingError
  ∧ Message.create_from_synced Samples.broken_world (Some Demo.account)
      (Some 5%Z) (Some Demo.folder) (Some 1234%Z) (Some (Str Demo.raw)) = Ok m
  ∧ (Message.decode_error m = true
     ∧ Message.size m = Some 0
     ∧ Message.received_date m = Some (utcnow Samples.broken_world)
     ∧ Message.sanitized_body m = Some []
     ∧ Message.snippet m = Some []
     ∧ Message.subject m = None
     ∧ Message.data_sha256 m = None
     ∧ Message.from_addr m = None
     ∧ Message.parts m = []
     ∧ Message.full_body m
       = Some (Props.raw_block (Namespace.id (Namespace.mk 7)) Demo.raw)
     ∧ ∀ J (json_decode : option pytext → result J),
         Accessors.headers json_decode m = Raise AssertionError).
Proof.
  intros m.
  assert (Hrun : Message.create_from_synced Samples.broken_world (Some Demo.account)
      (Some 5%Z) (Some Demo.folder) (Some 1234%Z) (Some (Str Demo.raw)) = Ok m)
    by (vm_compute; reflexivity).
  split; [reflexivity|]. split; [reflexivity|]. split; [exact Hrun|].
  exact (tokenizer_failure_leaves_a_stub Samples.broken_world Demo.account (Namespace.mk 7) 5 Demo.folder
           (Some 1234%Z) Demo.raw m DecodingError eq_refl eq_refl Hrun).
Defined.


Lemma unflagged_message_is_the_parse_witness :
  let m := Demo.returned
             (Message.create_from_synced Samples.world (Some Demo.account)
      (Some 5%Z) (Some Demo.folder) None (Some (Str Demo.raw))) in
  Account.namespace Demo.account = Some (Namespace.mk 7)
  ∧ Message.create_from_synced Samples.world (Some Demo.account)
      (Some 5%Z) (Some Demo.folder) None (Some (Str Demo.raw)) = Ok m
  ∧ Message.decode_error m = false
  ∧ Accessors.headers Samples.json_text m = Ok (Str (lit "[]")).
Proof.
  intros m.
  assert (Hrun : Message.create_from_synced Samples.world (Some Demo.account)
      (Some 5%Z) (Some Demo.folder) None (Some (Str Demo.raw)) = Ok m)
    by (vm_compute; reflexivity).
  assert (Hclean : Message.decode_error m = false) by reflexivity.
  split; [reflexivity|]. split; [exact Hrun|]. split; [exact Hclean|].
  destruct (unflagged_message_is_the_parse Samples.world Demo.account
              (Namespace.mk 7) 5 Demo.folder None Demo.raw m eq_refl Hrun
              Hclean)
    as (parsed & dumped & _ & Hdump & _ & _ & _ & _ & Hheaders).
  rewrite Hheaders. injection Hdump as <-. reflexivity.
Defined.
